(** * aria2p: the HTOP-like terminal interface ([src/aria2p/interface.py])

    A shallow embedding of the interface module: the key registry, the
    horizontal scroll writer, the column model, the view state machine,
    the render loop and the paint routines, followed by the properties
    the specification states about them and further properties of the
    code.

    Conventions.
    - Python integers are [Z]; [len] returns a [Z].
    - Python [str] is [string]; a list is a [list]; [None]-able attributes
      are [option]s.
    - A method that mutates [self], calls the collaborator or may raise is
      a computation in the monad [M]: it maps a world to an outcome that
      carries the world as the method left it, whether it returned or
      raised (a Python exception does not roll back earlier assignments).
    - The render loop is modelled without its paint step.  The paint
      routines are embedded beside it, as functions from the interface
      to an [option]: they change nothing but the screen behind the
      scroll writer, and [None] stands for any exception; [paint] is
      the step of a frame.
    - A character of a [string] is a code point below 256.  The first
      line of the help screen, which holds the version and characters
      beyond that, is a parameter of [print_help]. *)

From Stdlib Require Import ZArith List String Ascii Bool Lia QArith Sorted
  Permutation.
Import ListNotations.
Local Open Scope Z_scope.

(** ** Python builtins used by the module *)

Module Py.

Definition len {A} (l : list A) : Z := Z.of_nat (List.length l).

Definition str_len (s : string) : Z := Z.of_nat (String.length s).

(** [ord(c)] for a one-character string; Python raises on any other
    length, which [Key] never does: every multi-character name comes
    with an explicit value. *)
Definition ord (name : string) : Z :=
  match name with
  | String c EmptyString => Z.of_N (N_of_ascii c)
  | _ => 0
  end.

(** Start position of the slice [seq[n:]] in a sequence of length [size]:
    a negative [n] counts from the end, and the result is clipped to
    [0 .. size]. *)
Definition slice_start (n size : Z) : nat :=
  Z.to_nat (if n <? 0 then Z.max 0 (n + size) else Z.min n size).

Fixpoint str_drop (k : nat) (s : string) : string :=
  match k, s with
  | O, _ => s
  | S k', String _ s' => str_drop k' s'
  | S _, EmptyString => EmptyString
  end.

(** [text[n:]] *)
Definition str_from (text : string) (n : Z) : string :=
  str_drop (slice_start n (str_len text)) text.

(** [seq[n:]] on a list *)
Definition list_from {A} (l : list A) (n : Z) : list A :=
  skipn (slice_start n (len l)) l.

(** [seq[i]]: indices [-len .. len-1] are valid, a negative one counts
    from the end; anything else is an [IndexError] ([None]). *)
Definition getitem {A} (l : list A) (i : Z) : option A :=
  if (0 <=? i) && (i <? len l) then nth_error l (Z.to_nat i)
  else if (- len l <=? i) && (i <? 0) then nth_error l (Z.to_nat (i + len l))
  else None.

(** [seq.index(x)]: position of the first element equal to [x] under
    [eqb]; [None] stands for the [ValueError]. *)
Fixpoint index {A} (eqb : A -> A -> bool) (l : list A) (x : A) : option Z :=
  match l with
  | [] => None
  | y :: l' =>
      if eqb y x then Some 0
      else match index eqb l' x with
           | Some i => Some (i + 1)
           | None => None
           end
  end.

(** [str.lstrip(chars)] *)
Fixpoint lstrip (chars : list ascii) (s : string) : string :=
  match s with
  | String c s' =>
      if existsb (Ascii.eqb c) chars then lstrip chars s' else s
  | EmptyString => s
  end.

Definition digit (c : ascii) : option Z :=
  let n := Z.of_N (N_of_ascii c) in
  if (48 <=? n) && (n <=? 57) then Some (n - 48) else None.

Fixpoint int_digits (acc : Z) (s : string) : option Z :=
  match s with
  | EmptyString => Some acc
  | String c s' =>
      match digit c with
      | Some d => int_digits (10 * acc + d) s'
      | None => None
      end
  end.

(** [int(s)] on a plain run of decimal digits, the only form the column
    paddings use; [None] stands for the [ValueError]. *)
Definition int (s : string) : option Z :=
  match s with
  | EmptyString => None
  | _ => int_digits 0 s
  end.

(** *** [sorted(data, key=..., reverse=...)]

    The builtin is a stable sort that compares keys with [<] only.
    With [reverse=True] it still keeps elements with equal keys in
    their original order: the list is reversed, sorted, and reversed
    again. *)
Section Sorted.
Context {A K : Type}.
Variable lt : K -> K -> bool.
Variable key : A -> K.

(** Insert [x], which comes from before every element of [l] in the
    input, in front of the first element that is not smaller. *)
Fixpoint insert (x : A) (l : list A) : list A :=
  match l with
  | [] => [x]
  | y :: l' => if lt (key y) (key x) then y :: insert x l' else x :: l
  end.

Definition stable_sort (l : list A) : list A := fold_right insert [] l.

Definition sorted (l : list A) (reverse : bool) : list A :=
  if reverse then rev (stable_sort (rev l)) else stable_sort l.
End Sorted.

End Py.

(** ** The terminal (asciimatics) *)

Module Screen.

(** Key codes of asciimatics' [Screen] class for the keys the registry
    names. *)
Definition KEY_ESCAPE : Z := -1.
Definition KEY_F1 : Z := -2.
Definition KEY_F2 : Z := -3.
Definition KEY_F3 : Z := -4.
Definition KEY_F4 : Z := -5.
Definition KEY_F6 : Z := -7.
Definition KEY_F7 : Z := -8.
Definition KEY_F8 : Z := -9.
Definition KEY_F9 : Z := -10.
Definition KEY_F10 : Z := -11.
Definition KEY_DELETE : Z := -102.
Definition KEY_LEFT : Z := -203.
Definition KEY_UP : Z := -204.
Definition KEY_RIGHT : Z := -205.
Definition KEY_DOWN : Z := -206.

(** A display attribute triple: foreground, style, background. *)
Definition Attr : Type := (Z * Z * Z)%type.

(** What a caller passes as palette: one triple, or a list with one
    triple per character. *)
Inductive Palette :=
| Triple (p : Attr)
| PerChar (l : list Attr).

(** The two write operations of the screen that the scroll writer uses. *)
Inductive Op :=
| Paint (text : string) (x y : Z) (colour_map : list Attr)
| PrintAt (text : string) (x y : Z) (attr : Attr).

(** The screen, as the writes it received, oldest first. *)
Definition t : Type := list Op.

End Screen.

(** Input events, as [screen.get_event()] hands them out. *)
Inductive Event :=
| KeyboardEvent (key_code : Z)
| MouseEvent (x y buttons : Z).

(** [MouseEvent.LEFT_CLICK] *)
Definition LEFT_CLICK : Z := 1.

(** ** Key registry *)

Module Key.
Record t := mk { name : string; value : Z }.

(** [Key(name, value=None)] *)
Definition init (name : string) (value : option Z) : t :=
  mk name (match value with None => Py.ord name | Some v => v end).

(** [Key.__eq__] *)
Definition eq (self : t) (value' : Z) : bool := value self =? value'.
End Key.

(** [code in keys_list]: list membership compares with [Key.__eq__], that
    is on the key's value. *)
Definition key_in (code : Z) (keys_list : list Key.t) : bool :=
  existsb (fun k => Key.eq k code) keys_list.

Module Keys.
Definition HELP := [Key.init "F1" (Some Screen.KEY_F1); Key.init "h" None].
Definition SETUP := [Key.init "F2" (Some Screen.KEY_F2)].
Definition TOGGLE_RESUME_PAUSE := [Key.init "space" (Some (Py.ord " "))].
Definition PRIORITY_UP :=
  [Key.init "F7" (Some Screen.KEY_F7); Key.init "u" None; Key.init "[" None].
Definition PRIORITY_DOWN :=
  [Key.init "F8" (Some Screen.KEY_F8); Key.init "d" None; Key.init "]" None].
Definition REVERSE_SORT := [Key.init "I" None].
Definition NEXT_SORT := [Key.init "n" None; Key.init ">" None].
Definition PREVIOUS_SORT := [Key.init "p" None; Key.init "<" None].
Definition SELECT_SORT := [Key.init "F6" (Some Screen.KEY_F6)].
Definition REMOVE_ASK :=
  [Key.init "F9" (Some Screen.KEY_F9); Key.init "del" (Some Screen.KEY_DELETE)].
Definition TOGGLE_EXPAND_COLLAPSE := [Key.init "x" None].
Definition TOGGLE_EXPAND_COLLAPSE_ALL := [Key.init "X" None].
Definition AUTOCLEAR := [Key.init "c" None].
Definition FOLLOW_ROW := [Key.init "F" None].
Definition SEARCH := [Key.init "F3" (Some Screen.KEY_F3); Key.init "/" None].
Definition FILTER := [Key.init "F4" (Some Screen.KEY_F4); Key.init "\" None].
Definition TOGGLE_SELECT := [Key.init "s" None].
Definition UN_SELECT_ALL := [Key.init "U" None].
Definition QUIT := [Key.init "F10" (Some Screen.KEY_F10); Key.init "q" None].
Definition CANCEL := [Key.init "esc" (Some Screen.KEY_ESCAPE)].
Definition ENTER := [Key.init "enter" (Some 10)].
Definition MOVE_UP := [Key.init "up" (Some Screen.KEY_UP)].
Definition MOVE_DOWN := [Key.init "down" (Some Screen.KEY_DOWN)].
Definition MOVE_LEFT := [Key.init "left" (Some Screen.KEY_LEFT)].
Definition MOVE_RIGHT := [Key.init "right" (Some Screen.KEY_RIGHT)].

Definition names (keys_list : list Key.t) : list string :=
  map Key.name keys_list.
Definition values (keys_list : list Key.t) : list Z :=
  map Key.value keys_list.
End Keys.

(** ** Horizontal scroll writer *)

Module HorizontalScroll.

Record t := mk { screen : Screen.t; scroll : Z }.

Definition init (screen : Screen.t) : t := mk screen 0.

Definition set_scroll (self : t) (scroll : Z) : t :=
  mk (screen self) scroll.

(** The [isinstance(palette, list)] switch between [screen.paint] and
    [screen.print_at]. *)
Definition write (scr : Screen.t) (text : string) (x y : Z)
    (palette : Screen.Palette) : Screen.t :=
  match palette with
  | Screen.PerChar colour_map => scr ++ [Screen.Paint text x y colour_map]
  | Screen.Triple p => scr ++ [Screen.PrintAt text x y p]
  end.

(** [palette[scroll:]], which only a per-character palette undergoes. *)
Definition slice_palette (palette : Screen.Palette) (scroll : Z)
    : Screen.Palette :=
  match palette with
  | Screen.PerChar l => Screen.PerChar (Py.list_from l scroll)
  | Screen.Triple p => Screen.Triple p
  end.

(** Returns the number of characters actually printed, and the writer
    after the call. *)
Definition print_at (self : t) (text : string) (x y : Z)
    (palette : Screen.Palette) : Z * t :=
  if scroll self =? 0 then
    (Py.str_len text, mk (write (screen self) text x y palette) (scroll self))
  else
    let text_length := Py.str_len text in
    if text_length >? scroll self then
      let new_text := Py.str_from text (scroll self) in
      let new_palette := slice_palette palette (scroll self) in
      (Py.str_len new_text, mk (write (screen self) new_text x y new_palette) 0)
    else if text_length =? scroll self then
      (0, mk (screen self) 0)
    else
      (0, mk (screen self) (scroll self - text_length)).

(** One [print_at] call of a paint pass. *)
Record Call := { text : string; x : Z; y : Z; palette : Screen.Palette }.

(** A run of calls on one writer: for each call, in order, the value it
    returned and the writer it left. *)
Fixpoint print_seq (self : t) (calls : list Call) : list (Z * t) :=
  match calls with
  | [] => []
  | c :: rest =>
      let r := print_at self (text c) (x c) (y c) (palette c) in
      r :: print_seq (snd r) rest
  end.

Definition total_written (trace : list (Z * t)) : Z :=
  fold_right (fun r acc => fst r + acc) 0 trace.

Definition total_length (calls : list Call) : Z :=
  fold_right (fun c acc => Py.str_len (text c) + acc) 0 calls.

End HorizontalScroll.

(** ** The collaborator: download tasks and the daemon API *)

Module Download.

Inductive Status := active | waiting | paused | error | complete.

(** The status as the string the daemon reports. *)
Definition status_string (s : Status) : string :=
  match s with
  | active => "active"
  | waiting => "waiting"
  | paused => "paused"
  | error => "error"
  | complete => "complete"
  end.

(** Modelled from the spec: the task object of the daemon client
    (its class is not part of this module).  A task has an identifier,
    a status, a numeric progress, a size, transfer rates, an estimated
    time remaining and a display name; the [_string] fields hold what
    the formatting methods the columns call ([progress_string()],
    [total_length_string()], ...) return for it. *)
Record t := mk {
  gid : string;
  status : Status;
  progress : Q;
  progress_string : string;
  total_length : Z;
  total_length_string : string;
  download_speed : Z;
  download_speed_string : string;
  upload_speed : Z;
  upload_speed_string : string;
  eta : Z;
  eta_string : string;
  name : string
}.

Definition is_active (d : t) : bool :=
  match status d with active => true | _ => false end.
Definition is_waiting (d : t) : bool :=
  match status d with waiting => true | _ => false end.
Definition is_paused (d : t) : bool :=
  match status d with paused => true | _ => false end.

(** Modelled from the spec: equality of task objects, by which the
    followed relation is re-resolved after a refresh, is equality of the
    task identifier. *)
Definition eqb (a b : t) : bool := String.eqb (gid a) (gid b).

End Download.

(** The commands the interface sends to the collaborator. *)
Inductive Command :=
| Pause (d : Download.t)
| Resume (d : Download.t)
| MoveUp (d : Download.t)
| MoveDown (d : Download.t)
| Remove (d : Download.t) (force files : bool)
| Autopurge.

Module API.
(** The collaborator as the interface sees it: given the commands it has
    received so far, whether the next one raises instead of returning. *)
Record t := mk { fails : list Command -> Command -> bool }.
End API.

(** Exceptions.  [Exit] is the module's own; the others are the builtin
    lookup errors and whatever a collaborator call raises. *)
Inductive Exn := Exit | ValueError | IndexError | KeyError | ApiError.

Definition is_Exit (e : Exn) : bool :=
  match e with Exit => true | _ => false end.

(** ** Column model *)

(** A column descriptor.  [get_sort] returns values of a type of the
    column's own, which [sorted] compares with that type's [<]. *)
Record Column := mkColumn {
  header : string;
  padding : string;
  get_text : Download.t -> string;
  sort_key : Type;
  sort_lt : sort_key -> sort_key -> bool;
  get_sort : Download.t -> sort_key
}.

Definition Q_ltb (a b : Q) : bool := negb (Qle_bool b a).

Definition columns_order : list string :=
  ["gid"; "status"; "progress"; "size"; "down_speed"; "up_speed"; "eta";
   "name"]%string.

Definition columns_table : list (string * Column) :=
  [ ("gid", mkColumn "GID" ">16" Download.gid string String.ltb Download.gid);
    ("status",
     mkColumn "STATUS" "<9"
       (fun d => Download.status_string (Download.status d))
       string String.ltb
       (fun d => Download.status_string (Download.status d)));
    ("progress",
     mkColumn "PROGRESS" ">8" Download.progress_string
       Q Q_ltb Download.progress);
    ("size",
     mkColumn "SIZE" ">11" Download.total_length_string
       Z Z.ltb Download.total_length);
    ("down_speed",
     mkColumn "DOWN_SPEED" ">13" Download.download_speed_string
       Z Z.ltb Download.download_speed);
    ("up_speed",
     mkColumn "UP_SPEED" ">13" Download.upload_speed_string
       Z Z.ltb Download.upload_speed);
    ("eta", mkColumn "ETA" ">8" Download.eta_string Z Z.ltb Download.eta);
    ("name", mkColumn "NAME" "100%" Download.name string String.ltb
               Download.name) ]%string.

(** [Interface.columns[column_name]] *)
Fixpoint lookup (table : list (string * Column)) (column_name : string)
    : option Column :=
  match table with
  | [] => None
  | (k, c) :: rest =>
      if String.eqb k column_name then Some c else lookup rest column_name
  end.

Definition columns (column_name : string) : option Column :=
  lookup columns_table column_name.

Definition remove_ask_header : string := "Remove:".

Definition remove_ask_rows : list (string * (Download.t -> Command)) :=
  [ ("Remove", fun d => Remove d false false);
    ("Remove with files", fun d => Remove d false true);
    ("Force remove", fun d => Remove d true false);
    ("Force remove with files", fun d => Remove d true true) ]%string.

Definition select_sort_header : string := "Select sort:".
Definition select_sort_rows : list string := columns_order.

(** [max(...)] over a non-empty sequence of lengths. *)
Definition max_of (first : Z) (others : list Z) : Z :=
  fold_left Z.max others first.

Definition width_remove_ask : Z :=
  Z.max (Py.str_len remove_ask_header)
    (match map (fun row => Py.str_len (fst row)) remove_ask_rows with
     | [] => 0
     | n :: ns => max_of n ns
     end).

Definition width_select_sort : Z :=
  match map Py.str_len (columns_order ++ [select_sort_header]) with
  | [] => 0
  | n :: ns => max_of n ns
  end.

(** ** View state *)

Module Interface.

Inductive State := MAIN | HELP | SETUP | REMOVE_ASK | SELECT_SORT.

(** Frames per refresh period. *)
Definition frames : Z := 200.

(** The attributes of an [Interface] object.  [width] and [height] are
    [None] in the class and get their numbers from [set_screen], which
    [run] calls before any handler reads them. *)
Record t := mk {
  state : State;
  frame : Z;
  focused : Z;
  side_focused : Z;
  sort : Z;
  reverse : bool;
  x_scroll : Z;
  x_offset : Z;
  y_offset : Z;
  row_offset : Z;
  refresh : bool;
  width : Z;
  height : Z;
  data : list Download.t;
  rows : list (list string);
  scroller : option HorizontalScroll.t;
  follow : option Download.t;
  bounds : list (Z * Z);
  last_remove_choice : option Z;
  api : API.t
}.

Definition set_state v (self : t) : t :=
  mk
    v (frame self) (focused self) (side_focused self) (sort self) (reverse
    self) (x_scroll self) (x_offset self) (y_offset self) (row_offset self)
    (refresh self) (width self) (height self) (data self) (rows self)
    (scroller self) (follow self) (bounds self) (last_remove_choice self)
    (api self).
Definition set_frame v (self : t) : t :=
  mk
    (state self) v (focused self) (side_focused self) (sort self) (reverse
    self) (x_scroll self) (x_offset self) (y_offset self) (row_offset self)
    (refresh self) (width self) (height self) (data self) (rows self)
    (scroller self) (follow self) (bounds self) (last_remove_choice self)
    (api self).
Definition set_focused v (self : t) : t :=
  mk
    (state self) (frame self) v (side_focused self) (sort self) (reverse
    self) (x_scroll self) (x_offset self) (y_offset self) (row_offset self)
    (refresh self) (width self) (height self) (data self) (rows self)
    (scroller self) (follow self) (bounds self) (last_remove_choice self)
    (api self).
Definition set_side_focused v (self : t) : t :=
  mk
    (state self) (frame self) (focused self) v (sort self) (reverse self)
    (x_scroll self) (x_offset self) (y_offset self) (row_offset self)
    (refresh self) (width self) (height self) (data self) (rows self)
    (scroller self) (follow self) (bounds self) (last_remove_choice self)
    (api self).
Definition set_sort v (self : t) : t :=
  mk
    (state self) (frame self) (focused self) (side_focused self) v (reverse
    self) (x_scroll self) (x_offset self) (y_offset self) (row_offset self)
    (refresh self) (width self) (height self) (data self) (rows self)
    (scroller self) (follow self) (bounds self) (last_remove_choice self)
    (api self).
Definition set_reverse v (self : t) : t :=
  mk
    (state self) (frame self) (focused self) (side_focused self) (sort self)
    v (x_scroll self) (x_offset self) (y_offset self) (row_offset self)
    (refresh self) (width self) (height self) (data self) (rows self)
    (scroller self) (follow self) (bounds self) (last_remove_choice self)
    (api self).
Definition set_x_scroll v (self : t) : t :=
  mk
    (state self) (frame self) (focused self) (side_focused self) (sort self)
    (reverse self) v (x_offset self) (y_offset self) (row_offset self)
    (refresh self) (width self) (height self) (data self) (rows self)
    (scroller self) (follow self) (bounds self) (last_remove_choice self)
    (api self).
Definition set_x_offset v (self : t) : t :=
  mk
    (state self) (frame self) (focused self) (side_focused self) (sort self)
    (reverse self) (x_scroll self) v (y_offset self) (row_offset self)
    (refresh self) (width self) (height self) (data self) (rows self)
    (scroller self) (follow self) (bounds self) (last_remove_choice self)
    (api self).
Definition set_row_offset v (self : t) : t :=
  mk
    (state self) (frame self) (focused self) (side_focused self) (sort self)
    (reverse self) (x_scroll self) (x_offset self) (y_offset self) v
    (refresh self) (width self) (height self) (data self) (rows self)
    (scroller self) (follow self) (bounds self) (last_remove_choice self)
    (api self).
Definition set_refresh v (self : t) : t :=
  mk
    (state self) (frame self) (focused self) (side_focused self) (sort self)
    (reverse self) (x_scroll self) (x_offset self) (y_offset self)
    (row_offset self) v (width self) (height self) (data self) (rows self)
    (scroller self) (follow self) (bounds self) (last_remove_choice self)
    (api self).
Definition set_width v (self : t) : t :=
  mk
    (state self) (frame self) (focused self) (side_focused self) (sort self)
    (reverse self) (x_scroll self) (x_offset self) (y_offset self)
    (row_offset self) (refresh self) v (height self) (data self) (rows self)
    (scroller self) (follow self) (bounds self) (last_remove_choice self)
    (api self).
Definition set_height v (self : t) : t :=
  mk
    (state self) (frame self) (focused self) (side_focused self) (sort self)
    (reverse self) (x_scroll self) (x_offset self) (y_offset self)
    (row_offset self) (refresh self) (width self) v (data self) (rows self)
    (scroller self) (follow self) (bounds self) (last_remove_choice self)
    (api self).
Definition set_data v (self : t) : t :=
  mk
    (state self) (frame self) (focused self) (side_focused self) (sort self)
    (reverse self) (x_scroll self) (x_offset self) (y_offset self)
    (row_offset self) (refresh self) (width self) (height self) v (rows
    self) (scroller self) (follow self) (bounds self) (last_remove_choice
    self) (api self).
Definition set_rows v (self : t) : t :=
  mk
    (state self) (frame self) (focused self) (side_focused self) (sort self)
    (reverse self) (x_scroll self) (x_offset self) (y_offset self)
    (row_offset self) (refresh self) (width self) (height self) (data self)
    v (scroller self) (follow self) (bounds self) (last_remove_choice self)
    (api self).
Definition set_scroller v (self : t) : t :=
  mk
    (state self) (frame self) (focused self) (side_focused self) (sort self)
    (reverse self) (x_scroll self) (x_offset self) (y_offset self)
    (row_offset self) (refresh self) (width self) (height self) (data self)
    (rows self) v (follow self) (bounds self) (last_remove_choice self) (api
    self).
Definition set_follow v (self : t) : t :=
  mk
    (state self) (frame self) (focused self) (side_focused self) (sort self)
    (reverse self) (x_scroll self) (x_offset self) (y_offset self)
    (row_offset self) (refresh self) (width self) (height self) (data self)
    (rows self) (scroller self) v (bounds self) (last_remove_choice self)
    (api self).
Definition set_bounds v (self : t) : t :=
  mk
    (state self) (frame self) (focused self) (side_focused self) (sort self)
    (reverse self) (x_scroll self) (x_offset self) (y_offset self)
    (row_offset self) (refresh self) (width self) (height self) (data self)
    (rows self) (scroller self) (follow self) v (last_remove_choice self)
    (api self).
Definition set_last_remove_choice v (self : t) : t :=
  mk
    (state self) (frame self) (focused self) (side_focused self) (sort self)
    (reverse self) (x_scroll self) (x_offset self) (y_offset self)
    (row_offset self) (refresh self) (width self) (height self) (data self)
    (rows self) (scroller self) (follow self) (bounds self) v (api self).

(** [Interface(api)]: the class-level defaults ([sort = 2],
    [reverse = True], empty data).  [width] and [height] have no number
    yet; 0 stands in until [set_screen]. *)
Definition init (api : API.t) : t :=
  mk MAIN 0 0 0 2 true 0 0 0 0 false 0 0 [] [] None None [] None api.

End Interface.

(** ** The monad of the methods *)

(** What a method runs in: the interface object, the commands sent to the
    collaborator so far (oldest first), and what [logger.exception]
    recorded. *)
Record World := mkWorld {
  ui : Interface.t;
  sent : list Command;
  logged : list Exn
}.

Inductive Outcome (A : Type) :=
| Returned (a : A) (w : World)
| Raised (e : Exn) (w : World).
Arguments Returned {A} a w.
Arguments Raised {A} e w.

Definition M (A : Type) : Type := World -> Outcome A.

Definition ret {A} (a : A) : M A := fun w => Returned a w.

Definition bind {A B} (m : M A) (k : A -> M B) : M B :=
  fun w =>
    match m w with
    | Returned a w' => k a w'
    | Raised e w' => Raised e w'
    end.

Definition raise {A} (e : Exn) : M A := fun w => Raised e w.

Declare Scope py_scope.
Delimit Scope py_scope with py.
Notation "x <- m ;; k" := (bind m (fun x => k))
  (at level 61, m at next level, right associativity) : py_scope.
Notation "m ;; k" := (bind m (fun _ => k))
  (at level 61, right associativity) : py_scope.
Local Open Scope py_scope.

(** Read [self]. *)
Definition get : M Interface.t := fun w => Returned (ui w) w.

(** Assign to attributes of [self]. *)
Definition modify (f : Interface.t -> Interface.t) : M unit :=
  fun w => Returned tt (mkWorld (f (ui w)) (sent w) (logged w)).

(** A lookup that raises [e] when it has no result. *)
Definition lookup_or {A} (e : Exn) (o : option A) : M A :=
  match o with
  | Some a => ret a
  | None => raise e
  end.

(** A call into the collaborator: it receives the command, and either
    returns or raises. *)
Definition call (c : Command) : M unit :=
  fun w =>
    let w' := mkWorld (ui w) (sent w ++ [c]) (logged w) in
    if API.fails (Interface.api (ui w)) (sent w) c then Raised ApiError w'
    else Returned tt w'.

(** [logger.exception(error)] *)
Definition logger_exception (error : Exn) (w : World) : World :=
  mkWorld (ui w) (sent w) (logged w ++ [error]).

(** ** View state machine *)

Import Interface.

Definition when (b : bool) (m : M unit) : M unit := if b then m else ret tt.

(** [follow_focused] *)
Definition follow_focused : M bool :=
  self <- get ;;
  if focused self <? Py.len (data self) then
    download <- lookup_or IndexError (Py.getitem (data self) (focused self)) ;;
    modify (set_follow (Some download)) ;;
    ret true
  else ret false.

(** [get_column_at_x]: the index of the first bound that contains [x],
    both ends included. *)
Fixpoint column_at (bounds : list (Z * Z)) (i x : Z) : option Z :=
  match bounds with
  | [] => None
  | bound :: rest =>
      if (fst bound <=? x) && (x <=? snd bound) then Some i
      else column_at rest (i + 1) x
  end.

Definition get_column_at_x (x : Z) : M Z :=
  self <- get ;;
  lookup_or ValueError (column_at (bounds self) 0 x).

(** [self.data[self.focused]] *)
Definition focused_download : M Download.t :=
  self <- get ;;
  lookup_or IndexError (Py.getitem (data self) (focused self)).

Definition process_keyboard_event_main (key_code : Z) : M unit :=
  if key_in key_code Keys.MOVE_UP then
    self <- get ;;
    when (focused self >? 0) (
      modify (fun self => set_focused (focused self - 1) self) ;;
      modify (fun self =>
        if focused self <? row_offset self then
          set_row_offset (focused self) self
        else if focused self >=? row_offset self + (height self - 1) then
          set_row_offset (focused self + 1 - (height self - 1)) self
        else self) ;;
      modify (set_follow None) ;;
      modify (set_refresh true))

  else if key_in key_code Keys.MOVE_DOWN then
    self <- get ;;
    when (focused self <? Py.len (rows self) - 1) (
      modify (fun self => set_focused (focused self + 1) self) ;;
      modify (fun self =>
        if focused self - row_offset self >=? height self - 1 then
          set_row_offset (focused self + 1 - (height self - 1)) self
        else self) ;;
      modify (set_follow None) ;;
      modify (set_refresh true))

  else if key_in key_code Keys.MOVE_LEFT then
    self <- get ;;
    when (x_scroll self >? 0) (
      modify (fun self => set_x_scroll (Z.max 0 (x_scroll self - 5)) self) ;;
      modify (set_refresh true))

  else if key_in key_code Keys.MOVE_RIGHT then
    modify (fun self => set_x_scroll (x_scroll self + 5) self) ;;
    modify (set_refresh true)

  else if key_in key_code Keys.HELP then
    modify (set_state HELP) ;;
    modify (set_refresh true)

  else if key_in key_code Keys.SETUP then
    ret tt

  else if key_in key_code Keys.TOGGLE_RESUME_PAUSE then
    download <- focused_download ;;
    if Download.is_active download || Download.is_waiting download then
      call (Pause download)
    else if Download.is_paused download then
      call (Resume download)
    else ret tt

  else if key_in key_code Keys.PRIORITY_UP then
    download <- focused_download ;;
    when (negb (Download.is_active download)) (
      call (MoveUp download) ;;
      modify (set_follow (Some download)))

  else if key_in key_code Keys.PRIORITY_DOWN then
    download <- focused_download ;;
    when (negb (Download.is_active download)) (
      call (MoveDown download) ;;
      modify (set_follow (Some download)))

  else if key_in key_code Keys.REVERSE_SORT then
    modify (fun self => set_reverse (negb (reverse self)) self) ;;
    modify (set_refresh true)

  else if key_in key_code Keys.NEXT_SORT then
    self <- get ;;
    when (sort self <? Py.len columns_table - 1) (
      modify (fun self => set_sort (sort self + 1) self) ;;
      modify (set_refresh true))

  else if key_in key_code Keys.PREVIOUS_SORT then
    self <- get ;;
    when (sort self >? 0) (
      modify (fun self => set_sort (sort self - 1) self) ;;
      modify (set_refresh true))

  else if key_in key_code Keys.SELECT_SORT then
    modify (set_state SELECT_SORT) ;;
    modify (fun self => set_side_focused (sort self) self) ;;
    modify (set_x_offset (width_select_sort + 1)) ;;
    modify (set_refresh true)

  else if key_in key_code Keys.REMOVE_ASK then
    followed <- follow_focused ;;
    when followed (
      modify (set_state REMOVE_ASK) ;;
      modify (set_x_offset (width_remove_ask + 1)) ;;
      modify (fun self =>
        match last_remove_choice self with
        | Some choice => set_side_focused choice self
        | None => self
        end) ;;
      modify (set_refresh true))

  else if key_in key_code Keys.TOGGLE_EXPAND_COLLAPSE then
    ret tt

  else if key_in key_code Keys.TOGGLE_EXPAND_COLLAPSE_ALL then
    ret tt

  else if key_in key_code Keys.AUTOCLEAR then
    call Autopurge

  else if key_in key_code Keys.FOLLOW_ROW then
    _ <- follow_focused ;; ret tt

  else if key_in key_code Keys.SEARCH then
    ret tt

  else if key_in key_code Keys.FILTER then
    ret tt

  else if key_in key_code Keys.TOGGLE_SELECT then
    ret tt

  else if key_in key_code Keys.UN_SELECT_ALL then
    ret tt

  else if key_in key_code Keys.QUIT then
    raise Exit

  else ret tt.

Definition process_keyboard_event_help (key_code : Z) : M unit :=
  modify (set_state MAIN) ;;
  modify (set_refresh true).

Definition process_keyboard_event_setup (key_code : Z) : M unit := ret tt.

Definition process_keyboard_event_remove_ask (key_code : Z) : M unit :=
  if key_in key_code Keys.CANCEL then
    modify (set_state MAIN) ;;
    modify (set_x_offset 0) ;;
    modify (set_refresh true)

  else if key_in key_code Keys.ENTER then
    self <- get ;;
    match follow self with
    | Some followed =>
        row <- lookup_or IndexError
                 (Py.getitem remove_ask_rows (side_focused self)) ;;
        call (snd row followed) ;;
        modify (set_follow None)
    | None => ret tt
    end ;;
    modify (fun self => set_last_remove_choice (Some (side_focused self)) self) ;;
    modify (set_state MAIN) ;;
    modify (set_x_offset 0) ;;
    modify (set_frame 0)

  else if key_in key_code Keys.MOVE_UP then
    self <- get ;;
    when (side_focused self >? 0) (
      modify (fun self => set_side_focused (side_focused self - 1) self) ;;
      modify (set_refresh true))

  else if key_in key_code Keys.MOVE_DOWN then
    self <- get ;;
    when (side_focused self <? Py.len remove_ask_rows - 1) (
      modify (fun self => set_side_focused (side_focused self + 1) self) ;;
      modify (set_refresh true))

  else ret tt.

Definition process_keyboard_event_select_sort (key_code : Z) : M unit :=
  if key_in key_code Keys.CANCEL then
    modify (set_state MAIN) ;;
    modify (set_x_offset 0) ;;
    modify (set_refresh true)

  else if key_in key_code Keys.ENTER then
    modify (fun self => set_sort (side_focused self) self) ;;
    modify (set_state MAIN) ;;
    modify (set_x_offset 0) ;;
    modify (set_refresh true)

  else if key_in key_code Keys.MOVE_UP then
    self <- get ;;
    when (side_focused self >? 0) (
      modify (fun self => set_side_focused (side_focused self - 1) self) ;;
      modify (set_refresh true))

  else if key_in key_code Keys.MOVE_DOWN then
    self <- get ;;
    when (side_focused self <? Py.len select_sort_rows - 1) (
      modify (fun self => set_side_focused (side_focused self + 1) self) ;;
      modify (set_refresh true))

  else ret tt.

Definition process_mouse_event_main (x y buttons : Z) : M unit :=
  when (negb (Z.land buttons LEFT_CLICK =? 0)) (
    (if y =? 0 then
       new_sort <- get_column_at_x x ;;
       modify (fun self =>
         if new_sort =? sort self then set_reverse (negb (reverse self)) self
         else set_sort new_sort self)
     else
       modify (fun self =>
         set_focused
           (Z.min (y - 1 + row_offset self) (Py.len (rows self) - 1)) self)) ;;
    modify (set_refresh true)).

Definition process_mouse_event_help (x y buttons : Z) : M unit := ret tt.
Definition process_mouse_event_setup (x y buttons : Z) : M unit := ret tt.
Definition process_mouse_event_remove_ask (x y buttons : Z) : M unit := ret tt.
Definition process_mouse_event_select_sort (x y buttons : Z) : M unit := ret tt.

(** The [state_mapping] dispatch. *)
Definition process_keyboard_event (key_code : Z) : M unit :=
  self <- get ;;
  match state self with
  | MAIN => process_keyboard_event_main key_code
  | HELP => process_keyboard_event_help key_code
  | SETUP => process_keyboard_event_setup key_code
  | REMOVE_ASK => process_keyboard_event_remove_ask key_code
  | SELECT_SORT => process_keyboard_event_select_sort key_code
  end.

Definition process_mouse_event (x y buttons : Z) : M unit :=
  self <- get ;;
  match state self with
  | MAIN => process_mouse_event_main x y buttons
  | HELP => process_mouse_event_help x y buttons
  | SETUP => process_mouse_event_setup x y buttons
  | REMOVE_ASK => process_mouse_event_remove_ask x y buttons
  | SELECT_SORT => process_mouse_event_select_sort x y buttons
  end.

Definition process_event (event : Event) : M unit :=
  match event with
  | KeyboardEvent key_code => process_keyboard_event key_code
  | MouseEvent x y buttons => process_mouse_event x y buttons
  end.

(** ** Screen set-up, data and rows *)

(** The body of the loop of [set_screen], for one column name. *)
Definition set_screen_column (column_name : string) : M unit :=
  column <- lookup_or KeyError (columns column_name) ;;
  self <- get ;;
  if String.eqb (padding column) "100%" then
    last <- lookup_or IndexError (Py.getitem (bounds self) (-1)) ;;
    modify (set_bounds (bounds self ++ [(snd last + 1, width self)]))
  else
    pad <- lookup_or ValueError
             (Py.int (Py.lstrip ["<"; ">"; "="; "^"]%char (padding column))) ;;
    match bounds self with
    | [] => modify (set_bounds [(0, pad)])
    | _ =>
        last <- lookup_or IndexError (Py.getitem (bounds self) (-1)) ;;
        modify (set_bounds
                  (bounds self ++ [(snd last + 1, snd last + 1 + pad)]))
    end.

Fixpoint for_each {A} (l : list A) (body : A -> M unit) : M unit :=
  match l with
  | [] => ret tt
  | a :: rest => body a ;; for_each rest body
  end.

(** [set_screen], on a screen of the given [(height, width)]. *)
Definition set_screen (dimensions : Z * Z) : M unit :=
  modify (set_height (fst dimensions)) ;;
  modify (set_width (snd dimensions)) ;;
  modify (set_scroller (Some (HorizontalScroll.init []))) ;;
  modify (set_bounds []) ;;
  for_each columns_order set_screen_column.

(** [sort_data] *)
Definition sort_data : M unit :=
  self <- get ;;
  column_name <- lookup_or IndexError (Py.getitem columns_order (sort self)) ;;
  column <- lookup_or KeyError (columns column_name) ;;
  modify (set_data
            (Py.sorted (sort_lt column) (get_sort column)
               (data self) (reverse self))).

(** [update_data]; [downloads] is what [api.get_downloads()] answers,
    [None] when it raises. *)
Definition update_data (downloads : option (list Download.t)) : M unit :=
  fetched <- lookup_or ApiError downloads ;;
  modify (set_data fetched) ;;
  sort_data.

Fixpoint all_some {A} (l : list (option A)) : option (list A) :=
  match l with
  | [] => Some []
  | Some a :: rest =>
      match all_some rest with
      | Some r => Some (a :: r)
      | None => None
      end
  | None :: _ => None
  end.

(** [update_rows] *)
Definition update_rows : M unit :=
  text_getters <- lookup_or KeyError
    (all_some (map (fun c => option_map get_text (columns c)) columns_order)) ;;
  modify (fun self =>
    set_rows
      (map (fun item => map (fun getter => getter item) text_getters)
         (data self)) self) ;;
  self <- get ;;
  match follow self with
  | Some followed =>
      i <- lookup_or ValueError (Py.index Download.eqb (data self) followed) ;;
      modify (set_focused i)
  | None => ret tt
  end.

(** ** Render loop *)

(** The event loop of one frame: every pending event is processed; [Exit]
    ends the run, any other exception is logged. *)
Inductive Drain :=
| Exited (w : World)
| Drained (w : World).

Fixpoint drain (queue : list Event) (w : World) : Drain :=
  match queue with
  | [] => Drained w
  | event :: rest =>
      match process_event event w with
      | Returned _ w' => drain rest w'
      | Raised Exit w' => Exited w'
      | Raised error w' => drain rest (logger_exception error w')
      end
  end.

(** What one frame gets from outside: the events pending when it starts,
    and the answer of the collaborator should the frame fetch the task
    list. *)
Record FrameInput := mkFrameInput {
  pending : list Event;
  downloads : option (list Download.t)
}.

(** The part of a frame after the event loop: the periodic fetch, the
    re-sort when the sort has changed, and the frame counter.  The paint
    routines and [screen.refresh()] run after the re-sort; they write to
    the terminal only. *)
Definition refresh_frame (previous_sort : Z * bool)
    (downloads : option (list Download.t)) : M unit :=
  self <- get ;;
  when (frame self =? 0) (
    update_data downloads ;;
    update_rows ;;
    modify (set_refresh true)) ;;
  self <- get ;;
  when (refresh self) (
    when (negb ((sort self =? fst previous_sort)
                && Bool.eqb (reverse self) (snd previous_sort))
          && negb (frame self =? 0)) (
      sort_data ;;
      update_rows)) ;;
  modify (fun self => set_frame ((frame self + 1) mod frames) self).

Inductive FrameResult :=
| Continue (w : World)
| ReturnTrue (w : World)
| Uncaught (e : Exn) (w : World).

(** One pass through the body of the inner loop. *)
Definition run_frame (input : FrameInput) (w : World) : FrameResult :=
  let previous_sort := (sort (ui w), reverse (ui w)) in
  match modify (set_refresh false) w with
  | Raised e w' => Uncaught e w'
  | Returned _ w1 =>
      match drain (pending input) w1 with
      | Exited w' => ReturnTrue w'
      | Drained w2 =>
          match refresh_frame previous_sort (downloads input) w2 with
          | Returned _ w3 => Continue w3
          | Raised e w' => Uncaught e w'
          end
      end
  end.

(** A screen session: the terminal's [(height, width)], and the frames
    that pass before [has_resized()] turns true. *)
Record Session := mkSession {
  dimensions : Z * Z;
  frame_inputs : list FrameInput
}.

Inductive RunResult :=
| Finished (result : bool) (w : World)
| Running (w : World).

Fixpoint run_frames (inputs : list FrameInput) (w : World) : RunResult :=
  match inputs with
  | [] => Running w
  | input :: rest =>
      match run_frame input w with
      | Continue w' => run_frames rest w'
      | ReturnTrue w' => Finished true w'
      | Uncaught e w' => Finished false (logger_exception e w')
      end
  end.

(** [run]: [Finished b] when the method returns [b]; [Running] when the
    sessions given are used up and the loop is still going. *)
Fixpoint run (sessions : list Session) (w : World) : RunResult :=
  match sessions with
  | [] => Running w
  | session :: rest =>
      match (set_screen (dimensions session) ;; modify (set_frame 0)) w with
      | Raised e w' => Finished false (logger_exception e w')
      | Returned _ w1 =>
          match run_frames (frame_inputs session) w1 with
          | Running w2 => run rest w2
          | finished => finished
          end
      end
  end.

(** ** Vocabulary of the properties *)

(** The world an outcome carries. *)
Definition world_of {A} (o : Outcome A) : World :=
  match o with
  | Returned _ w => w
  | Raised _ w => w
  end.

Definition with_ui (w : World) (self : Interface.t) : World :=
  mkWorld self (sent w) (logged w).

(** The commands Toggle-resume-pause sends for a task. *)
Definition toggle_commands (d : Download.t) : list Command :=
  match Download.status d with
  | Download.active | Download.waiting => [Pause d]
  | Download.paused => [Resume d]
  | Download.error | Download.complete => []
  end.

(** The focus invariant of the data model: the focus index addresses a
    row, and that row lies in the window of [height - 1] rows that starts
    at [row_offset]. *)
Definition focus_visible (self : Interface.t) : Prop :=
  0 <= focused self < Py.len (rows self)
  /\ row_offset self <= focused self < row_offset self + (height self - 1).

Definition is_up_down (event : Event) : bool :=
  match event with
  | KeyboardEvent key_code =>
      key_in key_code Keys.MOVE_UP || key_in key_code Keys.MOVE_DOWN
  | MouseEvent _ _ _ => false
  end.

(** A computation that raises [Exit] only when [P] holds. *)
Definition exit_only_if (P : Prop) {A} (m : M A) : Prop :=
  forall w w', m w = Raised Exit w' -> P.

(** The rows [update_rows] builds for a task list. *)
Definition rows_of (data : list Download.t) : list (list string) :=
  map (fun d =>
         [ Download.gid d; Download.status_string (Download.status d);
           Download.progress_string d; Download.total_length_string d;
           Download.download_speed_string d; Download.upload_speed_string d;
           Download.eta_string d; Download.name d ]) data.

(** The Reverse-sort key, followed by the re-sort that the frame does
    when the sort direction has changed. *)
Definition reverse_and_resort : M unit :=
  process_event (KeyboardEvent (Py.ord "I")) ;;
  sort_data ;;
  update_rows.

(** Start before end in every pair, and no pair ending after the next
    one starts. *)
Fixpoint increasing (bounds : list (Z * Z)) : bool :=
  match bounds with
  | [] => true
  | bound :: rest =>
      (fst bound <=? snd bound)
      && match rest with
         | [] => true
         | next :: _ => snd bound <=? fst next
         end
      && increasing rest
  end.

(** Every pair starts right after the end of the pair before it. *)
Fixpoint adjacent (bounds : list (Z * Z)) : bool :=
  match bounds with
  | bound :: (next :: _) as rest =>
      (fst next =? snd bound + 1) && adjacent rest
  | _ => true
  end.

(** The indices of the pairs that contain [x], both ends included,
    counting from [i]. *)
Fixpoint columns_containing (bounds : list (Z * Z)) (i x : Z) : list Z :=
  match bounds with
  | [] => []
  | bound :: rest =>
      if (fst bound <=? x) && (x <=? snd bound)
      then i :: columns_containing rest (i + 1) x
      else columns_containing rest (i + 1) x
  end.

(** The bounds [set_screen] computes on a screen [width] cells wide. *)
Definition bounds_for (width : Z) : list (Z * Z) :=
  [(0, 16); (17, 26); (27, 35); (36, 47); (48, 61); (62, 75); (76, 84);
   (85, width)].

(** The bounds as C8 words them: as many pairs as columns, and
    increasing. *)
Definition increasing_bounds (bounds : list (Z * Z)) : Prop :=
  Py.len bounds = Py.len columns_order /\ increasing bounds = true.

(** A collaborator whose calls all return. *)
Definition calm_api : API.t := API.mk (fun _ _ => false).

(** A strict weak order, which [<] is on the keys of every column. *)
Definition strict_weak {K} (lt : K -> K -> bool) : Prop :=
  (forall a b, lt a b = true -> lt b a = false)
  /\ (forall a b c, lt a b = false -> lt b c = false -> lt a c = false).

(** [x] may stand before [y] in ascending order of the keys. *)
Definition key_le {A K} (lt : K -> K -> bool) (key : A -> K) (x y : A) : Prop :=
  lt (key y) (key x) = false.

(** [x] and [z] have equal keys as far as [<] can tell. *)
Definition key_equiv {A K} (lt : K -> K -> bool) (key : A -> K) (z x : A)
    : bool :=
  negb (lt (key z) (key x)) && negb (lt (key x) (key z)).

(** *** Sample states, on which the properties are instantiated *)

Definition sample_task (gid : string) (status : Download.Status) (size : Z)
    : Download.t :=
  Download.mk gid status (0 # 1) "0%" size "0 B" 0 "0 B/s" 0 "0 B/s" 0 "-" gid.

Definition task_a : Download.t := sample_task "a" Download.paused 10.
Definition task_b : Download.t := sample_task "b" Download.active 20.
Definition task_c : Download.t := sample_task "c" Download.error 10.

(** A fresh interface on a calm collaborator. *)
Definition fresh : World := mkWorld (Interface.init calm_api) [] [].

(** Main mode on a screen of 3 lines, with three tasks and their rows,
    sorted by size, the first row focused. *)
Definition three_rows : World :=
  mkWorld
    (set_rows (rows_of [task_a; task_c; task_b])
       (set_data [task_a; task_c; task_b]
          (set_sort 3 (set_reverse false
             (set_bounds (bounds_for 80)
                (set_height 3 (set_width 80 (Interface.init calm_api))))))))
    [] [].

(** Select-sort mode with the side panel on its sixth entry. *)
Definition selecting_sort : World :=
  mkWorld
    (set_side_focused 5 (set_state SELECT_SORT (Interface.init calm_api)))
    [] [].

(** A fresh interface that follows a task the daemon no longer lists. *)
Definition following_a : World :=
  mkWorld (set_follow (Some task_a) (Interface.init calm_api)) [] [].

(** ** Painting *)

Module Colour.
(** The colour and attribute numbers of asciimatics' [Screen] class. *)
Definition COLOUR_BLACK : Z := 0.
Definition COLOUR_RED : Z := 1.
Definition COLOUR_GREEN : Z := 2.
Definition COLOUR_YELLOW : Z := 3.
Definition COLOUR_CYAN : Z := 6.
Definition COLOUR_WHITE : Z := 7.
Definition A_BOLD : Z := 1.
Definition A_NORMAL : Z := 2.
Definition A_UNDERLINE : Z := 4.
End Colour.

(** [Interface.palettes]: a dictionary with a default, so that a lookup
    never fails. *)
Definition palettes_table : list (string * Screen.Attr) :=
  [ ("header", (Colour.COLOUR_BLACK, Colour.A_NORMAL, Colour.COLOUR_GREEN));
    ("focused_header",
     (Colour.COLOUR_BLACK, Colour.A_NORMAL, Colour.COLOUR_CYAN));
    ("focused_row", (Colour.COLOUR_BLACK, Colour.A_NORMAL, Colour.COLOUR_CYAN));
    ("status_active",
     (Colour.COLOUR_CYAN, Colour.A_NORMAL, Colour.COLOUR_BLACK));
    ("status_paused",
     (Colour.COLOUR_YELLOW, Colour.A_NORMAL, Colour.COLOUR_BLACK));
    ("status_waiting",
     (Colour.COLOUR_WHITE, Colour.A_BOLD, Colour.COLOUR_BLACK));
    ("status_error", (Colour.COLOUR_RED, Colour.A_BOLD, Colour.COLOUR_BLACK));
    ("status_complete",
     (Colour.COLOUR_GREEN, Colour.A_NORMAL, Colour.COLOUR_BLACK));
    ("metadata", (Colour.COLOUR_WHITE, Colour.A_UNDERLINE, Colour.COLOUR_BLACK));
    ("side_column_header",
     (Colour.COLOUR_BLACK, Colour.A_NORMAL, Colour.COLOUR_GREEN));
    ("side_column_row",
     (Colour.COLOUR_WHITE, Colour.A_NORMAL, Colour.COLOUR_BLACK));
    ("side_column_focused_row",
     (Colour.COLOUR_BLACK, Colour.A_NORMAL, Colour.COLOUR_CYAN));
    ("bright_help", (Colour.COLOUR_CYAN, Colour.A_BOLD, Colour.COLOUR_BLACK))
  ]%string.

Fixpoint palette_lookup (table : list (string * Screen.Attr)) (name : string)
    : Screen.Attr :=
  match table with
  | [] => (Colour.COLOUR_WHITE, Colour.A_NORMAL, Colour.COLOUR_BLACK)
  | (k, v) :: rest =>
      if String.eqb k name then v else palette_lookup rest name
  end.

Definition palettes (name : string) : Screen.Attr :=
  palette_lookup palettes_table name.

(** The colours [Screen.print_at] uses when it is given none. *)
Definition default_attr : Screen.Attr := (7, 0, 0).

(** [" " * n] *)
Definition spaces (n : Z) : string :=
  string_of_list_ascii (repeat " "%char (Z.to_nat n)).

(** [format(s, spec)] for a string [s] and a spec that is empty or an
    alignment [<] or [>] followed by a width without leading zero, the
    forms the paddings take; [None] for any other spec. *)
Definition format_str (s : string) (spec : string) : option string :=
  match spec with
  | EmptyString => Some s
  | String align digits =>
      match digits with
      | String "0"%char _ => None
      | _ =>
          match Py.int digits with
          | Some width =>
              let fill := spaces (width - Py.str_len s) in
              if Ascii.eqb align "<" then Some (s ++ fill)%string
              else if Ascii.eqb align ">" then Some (fill ++ s)%string
              else None
          | None => None
          end
      end
  end.

(** [f"{s:<{width}}"] *)
Definition format_left (s : string) (width : Z) : string :=
  (s ++ spaces (width - Py.str_len s))%string.

(** [screen.print_at(text, x, y, *attr)], on the screen the scroll
    writer wraps. *)
Definition screen_print_at (painter : HorizontalScroll.t) (text : string)
    (x y : Z) (attr : Screen.Attr) : HorizontalScroll.t :=
  HorizontalScroll.mk
    (HorizontalScroll.screen painter ++ [Screen.PrintAt text x y attr])
    (HorizontalScroll.scroll painter).

(** The loop of [print_headers] from column number [c] on, the next
    header going to [x]. *)
Fixpoint print_headers_from (self : Interface.t) (names : list string)
    (x c : Z) (painter : HorizontalScroll.t) : option HorizontalScroll.t :=
  match names with
  | [] => Some painter
  | column_name :: rest =>
      match columns column_name with
      | None => None
      | Some column =>
          let palette :=
            if c =? sort self then palettes "focused_header"
            else palettes "header" in
          if String.eqb (padding column) "100%" then
            let header_string := header column in
            let fill_up :=
              spaces (Z.max 0 (width self - x - Py.str_len header_string)) in
            let r :=
              HorizontalScroll.print_at painter header_string x
                (y_offset self) (Screen.Triple palette) in
            let r' :=
              HorizontalScroll.print_at (snd r) fill_up (x + fst r)
                (y_offset self) (Screen.Triple (palettes "header")) in
            print_headers_from self rest (x + fst r) (c + 1) (snd r')
          else
            match format_str (header column) (padding column) with
            | None => None
            | Some formatted =>
                let header_string := (formatted ++ " ")%string in
                let r :=
                  HorizontalScroll.print_at painter header_string x
                    (y_offset self) (Screen.Triple palette) in
                print_headers_from self rest (x + fst r) (c + 1) (snd r)
            end
      end
  end.

(** A paint routine works on the scroll writer of the interface, and
    through it on the screen; without one ([set_screen] has not run) the
    routine fails. *)
Definition painting
    (routine : Interface.t -> HorizontalScroll.t -> option HorizontalScroll.t)
    (self : Interface.t) : option Interface.t :=
  match scroller self with
  | None => None
  | Some painter =>
      match routine self painter with
      | None => None
      | Some painter' => Some (set_scroller (Some painter') self)
      end
  end.

(** [print_headers] *)
Definition print_headers : Interface.t -> option Interface.t :=
  painting (fun self painter =>
    print_headers_from self columns_order (x_offset self) 0
      (HorizontalScroll.set_scroll painter (x_scroll self))).

(** The loop over the entries of a side panel: entry number [i] goes to
    the line under [y]. *)
Fixpoint print_side_rows (self : Interface.t) (labels : list string)
    (padding i y : Z) (painter : HorizontalScroll.t)
    : Z * HorizontalScroll.t :=
  match labels with
  | [] => (y, painter)
  | label :: rest =>
      let y := y + 1 in
      let palette :=
        if i =? side_focused self then palettes "side_column_focused_row"
        else palettes "side_column_row" in
      let row_string := format_left label padding in
      let painter := screen_print_at painter row_string 0 y palette in
      let painter :=
        screen_print_at painter " " (Py.str_len row_string) y
          (palettes "default") in
      print_side_rows self rest padding (i + 1) y painter
  end.

(** [for i in range(first, stop): screen.print_at(text, x, y + i)] *)
Fixpoint blank_lines (text : string) (x y first : Z) (count : nat)
    (painter : HorizontalScroll.t) : HorizontalScroll.t :=
  match count with
  | O => painter
  | S count' =>
      blank_lines text x y (first + 1) count'
        (screen_print_at painter text x (y + first) default_attr)
  end.

(** The body the two side panels share: a header line, one line per
    entry, and blank lines down to the bottom of the screen. *)
Definition print_side_column (header : string) (labels : list string)
    (padding : Z) (self : Interface.t) (painter : HorizontalScroll.t)
    : option HorizontalScroll.t :=
  let y := y_offset self in
  let header_string := format_left header padding in
  let painter :=
    screen_print_at painter header_string 0 y (palettes "side_column_header") in
  let painter :=
    screen_print_at painter " " (Py.str_len header_string) y
      (palettes "default") in
  let r := print_side_rows self labels padding 0 y painter in
  Some (blank_lines (spaces (padding + 1)) 0 (fst r) 1
          (Z.to_nat (height self - fst r - 1)) (snd r)).

(** [print_remove_ask_column] *)
Definition print_remove_ask_column : Interface.t -> option Interface.t :=
  painting
    (print_side_column remove_ask_header (map fst remove_ask_rows)
       width_remove_ask).

(** [print_select_sort_column] *)
Definition print_select_sort_column : Interface.t -> option Interface.t :=
  painting
    (print_side_column select_sort_header select_sort_rows width_select_sort).

(** ** Vocabulary of the further properties *)

(** What every event keeps true of the view. *)
Definition view_ok (self : Interface.t) : Prop :=
  0 <= sort self < Py.len columns_order
  /\ 0 <= x_scroll self
  /\ (state self = SELECT_SORT ->
      0 <= side_focused self < Py.len select_sort_rows)
  /\ bounds self = bounds_for (width self).

(** The world the event loop leaves, however it ends. *)
Definition drained (d : Drain) : World :=
  match d with
  | Exited w => w
  | Drained w => w
  end.

(** What no event touches: the task list, its rows, the geometry of the
    screen and the collaborator; the frame counter is kept or reset. *)
Definition same_tables (w w' : World) : Prop :=
  data (ui w') = data (ui w)
  /\ rows (ui w') = rows (ui w)
  /\ width (ui w') = width (ui w)
  /\ height (ui w') = height (ui w)
  /\ bounds (ui w') = bounds (ui w)
  /\ y_offset (ui w') = y_offset (ui w)
  /\ (frame (ui w') = frame (ui w) \/ frame (ui w') = 0).

(** What the refresh of a frame leaves alone: everything but the task
    list, its rows, the focus index, the refresh flag and the frame
    counter.  It sends no command and logs nothing. *)
Definition refreshed (w w' : World) : Prop :=
  state (ui w') = state (ui w)
  /\ side_focused (ui w') = side_focused (ui w)
  /\ sort (ui w') = sort (ui w)
  /\ reverse (ui w') = reverse (ui w)
  /\ x_scroll (ui w') = x_scroll (ui w)
  /\ x_offset (ui w') = x_offset (ui w)
  /\ y_offset (ui w') = y_offset (ui w)
  /\ row_offset (ui w') = row_offset (ui w)
  /\ width (ui w') = width (ui w)
  /\ height (ui w') = height (ui w)
  /\ scroller (ui w') = scroller (ui w)
  /\ follow (ui w') = follow (ui w)
  /\ bounds (ui w') = bounds (ui w)
  /\ last_remove_choice (ui w') = last_remove_choice (ui w)
  /\ api (ui w') = api (ui w)
  /\ sent w' = sent w
  /\ logged w' = logged w.

Definition only_refreshes {A} (m : M A) : Prop :=
  forall w, refreshed w (world_of (m w)).

(** The rows are those of the task list. *)
Definition rows_in_sync (self : Interface.t) : Prop :=
  rows self = rows_of (data self).

(** The frame invariant. *)
Definition frame_ok (self : Interface.t) : Prop :=
  view_ok self /\ 0 <= frame self < frames /\ rows_in_sync self.

(** What [run] needs of the interface it is started on. *)
Definition start_ok (self : Interface.t) : Prop :=
  0 <= sort self < Py.len columns_order
  /\ 0 <= x_scroll self
  /\ (state self = SELECT_SORT ->
      0 <= side_focused self < Py.len select_sort_rows)
  /\ rows_in_sync self.

(** Ascending by key for [reverse = False], descending for [True]. *)
Definition in_order {A K : Type} (lt : K -> K -> bool) (key : A -> K)
    (reverse : bool) (x y : A) : Prop :=
  if reverse then key_le lt key y x else key_le lt key x y.

(** The command the Remove-confirm menu sends for its entry [i]. *)
Definition remove_command (i : Z) (d : Download.t) : Command :=
  Remove d (2 <=? i) (Z.odd i).

(** The command a priority key sends. *)
Definition priority_command (key_code : Z) (d : Download.t) : Command :=
  if key_in key_code Keys.PRIORITY_UP then MoveUp d else MoveDown d.

(** The keys that do something in Main mode. *)
Definition main_keys : list Key.t :=
  Keys.MOVE_UP ++ Keys.MOVE_DOWN ++ Keys.MOVE_LEFT ++ Keys.MOVE_RIGHT
  ++ Keys.HELP ++ Keys.TOGGLE_RESUME_PAUSE ++ Keys.PRIORITY_UP
  ++ Keys.PRIORITY_DOWN ++ Keys.REVERSE_SORT ++ Keys.NEXT_SORT
  ++ Keys.PREVIOUS_SORT ++ Keys.SELECT_SORT ++ Keys.REMOVE_ASK
  ++ Keys.AUTOCLEAR ++ Keys.FOLLOW_ROW ++ Keys.QUIT.

(** The interface [u] while the Select-sort panel is open on entry [s]. *)
Definition in_select_sort (u : Interface.t) (s : Z) : Interface.t :=
  set_refresh true
    (set_x_offset (width_select_sort + 1)
       (set_side_focused s (set_state SELECT_SORT u))).

(** The text of a write. *)
Definition op_text (op : Screen.Op) : string :=
  match op with
  | Screen.Paint text _ _ _ => text
  | Screen.PrintAt text _ _ _ => text
  end.

(** The characters a screen received, in the order of the writes. *)
Definition screen_text (scr : Screen.t) : string :=
  fold_right (fun op acc => (op_text op ++ acc)%string) EmptyString scr.

(** The writer after a run of [print_at] calls. *)
Fixpoint after_prints (self : HorizontalScroll.t)
    (calls : list HorizontalScroll.Call) : HorizontalScroll.t :=
  match calls with
  | [] => self
  | c :: rest =>
      after_prints
        (snd (HorizontalScroll.print_at self (HorizontalScroll.text c)
                (HorizontalScroll.x c) (HorizontalScroll.y c)
                (HorizontalScroll.palette c)))
        rest
  end.

(** The logical line a run of calls spells. *)
Definition line_of (calls : list HorizontalScroll.Call) : string :=
  fold_right (fun c acc => (HorizontalScroll.text c ++ acc)%string)
    EmptyString calls.

(** Where a write starts, and the line it is on. *)
Definition op_x (op : Screen.Op) : Z :=
  match op with
  | Screen.Paint _ x _ _ => x
  | Screen.PrintAt _ x _ _ => x
  end.

Definition op_y (op : Screen.Op) : Z :=
  match op with
  | Screen.Paint _ _ y _ => y
  | Screen.PrintAt _ _ y _ => y
  end.

(** The cells a write covers: its line, its first column and its
    length. *)
Definition op_cells (op : Screen.Op) : Z * Z * Z :=
  (op_y op, op_x op, Py.str_len (op_text op)).

(** The cells of a side panel of [n] entries: a header line and [n]
    entry lines, each a text of [padding] cells and one more cell, then
    blank lines of [padding + 1] cells down to line [height - 1]. *)
Fixpoint entry_cells (padding y : Z) (n : nat) : list (Z * Z * Z) :=
  match n with
  | O => []
  | S n' => (y, 0, padding) :: (y, padding, 1) :: entry_cells padding (y + 1) n'
  end.

Fixpoint blank_cells (padding y : Z) (n : nat) : list (Z * Z * Z) :=
  match n with
  | O => []
  | S n' => (y, 0, padding + 1) :: blank_cells padding (y + 1) n'
  end.

Definition side_column_cells (padding y_offset height : Z) (n : nat)
    : list (Z * Z * Z) :=
  entry_cells padding y_offset (S n)
  ++ blank_cells padding (y_offset + Z.of_nat n + 1)
       (Z.to_nat (height - (y_offset + Z.of_nat n) - 1)).

(** The attribute triple of a write; a painted text has one per cell. *)
Definition op_attr (op : Screen.Op) : option Screen.Attr :=
  match op with
  | Screen.Paint _ _ _ _ => None
  | Screen.PrintAt _ _ _ attr => Some attr
  end.

(** Whether a write, given by its cells, covers the cell at line [y],
    column [x]; and how many writes of a list cover it. *)
Definition covers (y x : Z) (cells : Z * Z * Z) : bool :=
  let '(line, first, len) := cells in
  (line =? y) && (first <=? x) && (x <? first + len).

Definition times_written (ops : list Screen.Op) (y x : Z) : nat :=
  List.length (filter (covers y x) (map op_cells ops)).

(** Whether the cell lies in the lines [top] to [bottom - 1] and the
    columns [0] to [last]. *)
Definition in_panel (top bottom last y x : Z) : bool :=
  (top <=? y) && (y <? bottom) && (0 <=? x) && (x <=? last).

(** ** Painting the rows *)

(** [seq[start:stop]] on a list: both ends are clipped as for
    [seq[n:]]. *)
Definition list_slice {A} (l : list A) (start stop : Z) : list A :=
  let first := Py.slice_start start (Py.len l) in
  let last := Py.slice_start stop (Py.len l) in
  firstn (last - first) (skipn first l).

(** The characters [str.strip()] removes, among the code points a
    character of a [string] can be. *)
Definition is_space (c : ascii) : bool :=
  let n := Z.of_N (N_of_ascii c) in
  ((9 <=? n) && (n <=? 13)) || ((28 <=? n) && (n <=? 32))
  || (n =? 133) || (n =? 160).

Fixpoint lstrip_space (s : string) : string :=
  match s with
  | String c s' => if is_space c then lstrip_space s' else s
  | EmptyString => s
  end.

(** [s.rstrip()] *)
Fixpoint rstrip_space (s : string) : string :=
  match s with
  | String c s' =>
      match rstrip_space s' with
      | EmptyString => if is_space c then EmptyString else String c EmptyString
      | kept => String c kept
      end
  | EmptyString => EmptyString
  end.

(** [s.strip()] *)
Definition strip (s : string) : string := rstrip_space (lstrip_space s).

(** What a [get_palette] returns: the name of a palette, or one triple
    per character. *)
Inductive PaletteChoice :=
| Named (palette_name : string)
| Colours (colour_map : list Screen.Attr).

Module Palette.

(** [Palette.status] *)
Definition status (value : string) : PaletteChoice :=
  Named ("status_" ++ value).

(** [Palette.name] *)
Definition name (value : string) : PaletteChoice :=
  if String.prefix "[METADATA]" value then
    Colours
      (repeat (Colour.COLOUR_GREEN, Colour.A_UNDERLINE, Colour.COLOUR_BLACK)
         10
       ++ repeat (palettes "metadata")
            (Z.to_nat (Py.str_len (strip value) - 10))
       ++ [palettes "row"])
  else Named "name".

End Palette.

(** The [get_palette] of the columns, by column name. *)
Definition get_palette_table : list (string * (string -> PaletteChoice)) :=
  [ ("gid", fun _ => Named "gid");
    ("status", Palette.status);
    ("progress", fun _ => Named "progress");
    ("size", fun _ => Named "size");
    ("down_speed", fun _ => Named "down_speed");
    ("up_speed", fun _ => Named "up_speed");
    ("eta", fun _ => Named "eta");
    ("name", Palette.name) ]%string.

Fixpoint get_palette_lookup (table : list (string * (string -> PaletteChoice)))
    (column_name : string) : option (string -> PaletteChoice) :=
  match table with
  | [] => None
  | (k, v) :: rest =>
      if String.eqb k column_name then Some v
      else get_palette_lookup rest column_name
  end.

Definition get_palette (column_name : string)
    : option (string -> PaletteChoice) :=
  get_palette_lookup get_palette_table column_name.

(** The palette of a cell: the focused row has its own; elsewhere the
    column chooses, and a name is looked up in [palettes]. *)
Definition cell_palette (self : Interface.t) (y : Z)
    (choose : string -> PaletteChoice) (cell : string) : Screen.Palette :=
  if focused self =? y - y_offset self - 1 + row_offset self then
    Screen.Triple (palettes "focused_row")
  else
    match choose cell with
    | Named palette_name => Screen.Triple (palettes palette_name)
    | Colours colour_map => Screen.PerChar colour_map
    end.

(** [f"{cell:{padding}} "], where the padding of the last column is
    [f"<{max(0, width - x)}"]: a text padded on the right to that
    width. *)
Definition field_string (self : Interface.t) (column : Column) (x : Z)
    (cell : string) : option string :=
  if String.eqb (padding column) "100%" then
    Some (format_left cell (Z.max 0 (width self - x)) ++ " ")%string
  else
    match format_str cell (padding column) with
    | Some formatted => Some (formatted ++ " ")%string
    | None => None
    end.

(** The loop over the columns for one row, from column number [i] on,
    the next cell going to [x]. *)
Fixpoint print_row_from (self : Interface.t) (y : Z) (row : list string)
    (names : list string) (i : nat) (x : Z) (painter : HorizontalScroll.t)
    : option HorizontalScroll.t :=
  match names with
  | [] => Some painter
  | column_name :: rest =>
      match columns column_name, get_palette column_name, nth_error row i with
      | Some column, Some choose, Some cell =>
          match field_string self column x cell with
          | Some text =>
              let r :=
                HorizontalScroll.print_at painter text x y
                  (cell_palette self y choose cell) in
              print_row_from self y row rest (S i) (x + fst r) (snd r)
          | None => None
          end
      | _, _, _ => None
      end
  end.

(** The loop over the rows of the window, the next row going to line
    [y]; it returns the line after the last row. *)
Fixpoint print_rows_from (self : Interface.t) (window : list (list string))
    (y : Z) (painter : HorizontalScroll.t) : option (Z * HorizontalScroll.t) :=
  match window with
  | [] => Some (y, painter)
  | row :: rest =>
      match
        print_row_from self y row columns_order 0 (x_offset self)
          (HorizontalScroll.set_scroll painter (x_scroll self))
      with
      | Some painter' => print_rows_from self rest (y + 1) painter'
      | None => None
      end
  end.

(** [print_rows] *)
Definition print_rows : Interface.t -> option Interface.t :=
  painting (fun self painter =>
    match
      print_rows_from self
        (list_slice (rows self) (row_offset self)
           (row_offset self + height self))
        (y_offset self + 1) painter
    with
    | Some (y, painter') =>
        Some (blank_lines (spaces (width self)) (x_offset self) y 0
                (Z.to_nat (height self - y)) painter')
    | None => None
    end).

(** [print_table] *)
Definition print_table (self : Interface.t) : option Interface.t :=
  match print_headers self with
  | Some self' => print_rows self'
  | None => None
  end.

(** ** Painting the help screen *)

(** [f"{s:<{width}}"] and [f"{s:>{width}}"] for a width computed at run
    time: a negative width makes a format with a sign, which a text
    refuses ([None] stands for the [ValueError]). *)
Definition format_width (s : string) (right : bool) (width : Z)
    : option string :=
  if width <? 0 then None
  else if right then Some (spaces (width - Py.str_len s) ++ s)%string
  else Some (format_left s width).

(** [print_keys_text] *)
Definition print_keys_text (keys_text text : string) (y : Z)
    (self : Interface.t) (painter : HorizontalScroll.t)
    : option HorizontalScroll.t :=
  let length := 8 in
  let padding := width self - length in
  match format_width keys_text true length with
  | None => None
  | Some keys_string =>
      let painter :=
        screen_print_at painter keys_string 0 y (palettes "bright_help") in
      match format_width text false padding with
      | None => None
      | Some text_string =>
          Some (screen_print_at painter text_string length y
                  (palettes "default"))
      end
  end.

(** [print_keys] *)
Definition print_keys (keys : list Key.t) (text : string) (y : Z)
    (self : Interface.t) (painter : HorizontalScroll.t)
    : option HorizontalScroll.t :=
  print_keys_text (String.concat " " (Keys.names keys) ++ ":") text y self
    painter.

(** The key lists of the help screen, with what they do. *)
Definition help_entries : list (list Key.t * string) :=
  [ (Keys.HELP, " show this help screen");
    (Keys.TOGGLE_RESUME_PAUSE, " toggle pause/resume");
    (Keys.PRIORITY_UP, " priority up (-)");
    (Keys.PRIORITY_DOWN, " priority down (+)");
    (Keys.REVERSE_SORT, " invert sort order");
    (Keys.NEXT_SORT, " sort next column");
    (Keys.PREVIOUS_SORT, " sort previous column");
    (Keys.SELECT_SORT, " select sort column");
    (Keys.REMOVE_ASK, " remove download");
    (Keys.AUTOCLEAR, " autopurge downloads");
    (Keys.FOLLOW_ROW, " cursor follows download");
    (Keys.QUIT, " quit") ]%string.

(** The loop over the heading lines, the next one going to line [y]. *)
Fixpoint print_help_lines (lines : list string) (y : Z) (self : Interface.t)
    (painter : HorizontalScroll.t) : option (Z * HorizontalScroll.t) :=
  match lines with
  | [] => Some (y, painter)
  | line :: rest =>
      match format_width line false (width self) with
      | None => None
      | Some line_string =>
          print_help_lines rest (y + 1) self
            (screen_print_at painter line_string 0 y (palettes "bright_help"))
      end
  end.

(** The loop over the key lists. *)
Fixpoint print_help_entries (entries : list (list Key.t * string)) (y : Z)
    (self : Interface.t) (painter : HorizontalScroll.t)
    : option (Z * HorizontalScroll.t) :=
  match entries with
  | [] => Some (y, painter)
  | (keys, text) :: rest =>
      match print_keys keys text y self painter with
      | None => None
      | Some painter' => print_help_entries rest (y + 1) self painter'
      end
  end.

(** [print_help].  The first line names the version, which
    [get_version()] supplies from outside the module: the line is the
    parameter [banner]. *)
Definition print_help (banner : string) : Interface.t -> option Interface.t :=
  painting (fun self painter =>
    match
      print_help_lines [banner; "Released under the ISC license."; ""]%string
        0 self painter
    with
    | None => None
    | Some (y, painter) =>
        match
          print_keys_text "Arrows:" " scroll downloads list" y self painter
        with
        | None => None
        | Some painter =>
            match print_help_entries help_entries (y + 1) self painter with
            | None => None
            | Some (y, painter) =>
                let painter :=
                  screen_print_at painter (spaces (width self)) 0 y
                    default_attr in
                match
                  format_width "Press any key to return." false (width self)
                with
                | None => None
                | Some line_string =>
                    let painter :=
                      screen_print_at painter line_string 0 (y + 1)
                        (palettes "bright_help") in
                    Some (blank_lines (spaces (width self)) 0 (y + 2) 0
                            (Z.to_nat (height self - (y + 2))) painter)
                end
            end
        end
    end).

(** The [print_functions] of [state_mapping], one after the other. *)
Fixpoint print_all (print_functions : list (Interface.t -> option Interface.t))
    (self : Interface.t) : option Interface.t :=
  match print_functions with
  | [] => Some self
  | print_function :: rest =>
      match print_function self with
      | Some self' => print_all rest self'
      | None => None
      end
  end.

Definition print_functions (banner : string) (mode : State)
    : list (Interface.t -> option Interface.t) :=
  match mode with
  | MAIN => [print_table]
  | HELP => [print_help banner]
  | SETUP => []
  | REMOVE_ASK => [print_remove_ask_column; print_table]
  | SELECT_SORT => [print_select_sort_column; print_table]
  end.

(** The paint step of a frame. *)
Definition paint (banner : string) (self : Interface.t)
    : option Interface.t :=
  print_all (print_functions banner (state self)) self.

(** *** Vocabulary of the paint and key properties *)

(** The interface [u] scrolled to [x], a refresh asked for or not. *)
Definition scrolled_to (u : Interface.t) (x : Z) (asked : bool) : Interface.t :=
  set_refresh asked (set_x_scroll x u).

Definition is_mouse (event : Event) : bool :=
  match event with
  | KeyboardEvent _ => false
  | MouseEvent _ _ _ => true
  end.

(** The key lists of the registry, in the order of the class. *)
Definition all_key_lists : list (list Key.t) :=
  [ Keys.HELP; Keys.SETUP; Keys.TOGGLE_RESUME_PAUSE; Keys.PRIORITY_UP;
    Keys.PRIORITY_DOWN; Keys.REVERSE_SORT; Keys.NEXT_SORT; Keys.PREVIOUS_SORT;
    Keys.SELECT_SORT; Keys.REMOVE_ASK; Keys.TOGGLE_EXPAND_COLLAPSE;
    Keys.TOGGLE_EXPAND_COLLAPSE_ALL; Keys.AUTOCLEAR; Keys.FOLLOW_ROW;
    Keys.SEARCH; Keys.FILTER; Keys.TOGGLE_SELECT; Keys.UN_SELECT_ALL;
    Keys.QUIT; Keys.CANCEL; Keys.ENTER; Keys.MOVE_UP; Keys.MOVE_DOWN;
    Keys.MOVE_LEFT; Keys.MOVE_RIGHT ].

(** A column the paint routines can lay out: it is in both tables, and
    its padding is ["100%"] or an alignment and a width. *)
Definition paintable (column_name : string) : Prop :=
  exists column choose,
    columns column_name = Some column
    /\ get_palette column_name = Some choose
    /\ (String.eqb (padding column) "100%" = true
        \/ String.eqb (padding column) "100%" = false
           /\ forall s, exists formatted,
                format_str s (padding column) = Some formatted).

(** The write [HorizontalScroll.write] adds. *)
Definition written_op (text : string) (x y : Z) (palette : Screen.Palette)
    : Screen.Op :=
  match palette with
  | Screen.PerChar colour_map => Screen.Paint text x y colour_map
  | Screen.Triple p => Screen.PrintAt text x y p
  end.

(** A row the columns have room for: eight cells, the first seven no
    longer than their columns are wide. *)
Definition fits (self : Interface.t) (row : list string) : Prop :=
  List.length row = 8%nat
  /\ Forall2 (fun cell bound => Py.str_len cell <= snd bound - fst bound)
       (firstn 7 row) (firstn 7 (bounds_for (width self))).

(** Where the cells of a row on line [y] start when they are under
    their headers. *)
Definition cell_positions (self : Interface.t) (y : Z) : list (Z * Z) :=
  map (fun bound => (y, x_offset self + fst bound)) (bounds_for (width self)).

(** A write is in the focused-row palette exactly when it is on the line
    of the focused row. *)
Definition highlights_focus (self : Interface.t) (op : Screen.Op) : Prop :=
  op_y op = y_offset self + 1 + (focused self - row_offset self)
  <-> op_attr op = Some (palettes "focused_row").

Definition never_focused_palette (choose : string -> PaletteChoice) : Prop :=
  forall cell palette_name,
    choose cell = Named palette_name ->
    palettes palette_name <> palettes "focused_row".

(** The cells of [n] lines from [y] on, each written in two parts, the
    first [first] cells wide and the second [second]; and of [n] lines
    written in one part. *)
Fixpoint split_cells (first second y : Z) (n : nat) : list (Z * Z * Z) :=
  match n with
  | O => []
  | S n' =>
      (y, 0, first) :: (y, first, second)
      :: split_cells first second (y + 1) n'
  end.

Fixpoint full_cells (width y : Z) (n : nat) : list (Z * Z * Z) :=
  match n with
  | O => []
  | S n' => (y, 0, width) :: full_cells width (y + 1) n'
  end.

(** A text the help screen has room for on a screen [width] wide. *)
Definition help_entry_fits (width : Z) (entry : list Key.t * string) : Prop :=
  Py.str_len (String.concat " " (Keys.names (fst entry)) ++ ":") <= 8
  /\ Py.str_len (snd entry) <= width - 8.

(** *** Further sample states *)

(** The world a run is in when its script ends. *)
Definition ran (r : RunResult) : World :=
  match r with
  | Finished _ w => w
  | Running w => w
  end.

(** Remove-confirm mode on the second entry of the menu, for the first
    of the three tasks. *)
Definition confirming_removal : World :=
  with_ui three_rows
    (set_side_focused 1
       (set_follow (Some task_a) (set_state REMOVE_ASK (ui three_rows)))).

(** The three tasks, the last one followed. *)
Definition following_b : World :=
  with_ui three_rows (set_follow (Some task_b) (ui three_rows)).

(** A fresh interface after [set_screen] on a screen of 24 lines and 120
    columns. *)
Definition on_screen : Interface.t :=
  ui (world_of (set_screen (24, 120) fresh)).

(** One screen session of one frame: two events, and two tasks to
    fetch. *)
Definition one_frame : Session :=
  mkSession (24, 80)
    [mkFrameInput [KeyboardEvent (Py.ord "n"); MouseEvent 20 0 1]
       (Some [task_b; task_a])].

(** The three tasks sorted by the sixth column. *)
Definition sorted_by_up_speed : World :=
  with_ui three_rows (set_sort 5 (ui three_rows)).

(** The interface of [three_rows] after [set_screen] on a screen of 24
    lines and 120 columns. *)
Definition three_rows_on_screen : Interface.t :=
  ui (world_of (set_screen (24, 120) three_rows)).

(** ** Properties of the scroll writer *)

(** The writer on a header line scrolled by 6: the first text is skipped,
    the second loses its first two characters, the third is whole. *)
Example print_seq_scrolled_by_6 :
  map fst
    (HorizontalScroll.print_seq
       (HorizontalScroll.set_scroll (HorizontalScroll.init []) 6)
       [ HorizontalScroll.Build_Call "GID " 0 0 (Screen.Triple (0, 0, 2));
         HorizontalScroll.Build_Call "STATUS " 0 0 (Screen.Triple (0, 0, 2));
         HorizontalScroll.Build_Call "NAME" 5 0 (Screen.Triple (0, 0, 2)) ])
  = [0; 5; 4].
Proof. reflexivity. Qed.

Lemma str_drop_length (k : nat) (s : string) :
  String.length (Py.str_drop k s) = (String.length s - k)%nat.
Proof.
  revert s; induction k as [|k IH]; intros s; simpl.
  - lia.
  - destruct s as [|c s]; simpl; [reflexivity | apply IH].
Qed.

Lemma str_from_len (s : string) (n : Z) :
  0 <= n <= Py.str_len s -> Py.str_len (Py.str_from s n) = Py.str_len s - n.
Proof.
  intros Hn. unfold Py.str_from, Py.str_len, Py.slice_start in *.
  rewrite str_drop_length.
  destruct (Z.ltb_spec n 0); lia.
Qed.

Lemma print_seq_scrolled (calls : list HorizontalScroll.Call) :
  forall self : HorizontalScroll.t,
    0 <= HorizontalScroll.scroll self ->
    HorizontalScroll.total_written (HorizontalScroll.print_seq self calls)
    = Z.max 0 (HorizontalScroll.total_length calls - HorizontalScroll.scroll self)
    /\ Forall (fun r => 0 <= HorizontalScroll.scroll (snd r))
         (HorizontalScroll.print_seq self calls).
Proof.
  induction calls as [|c rest IH]; intros self Hs.
  - simpl. split; [lia | constructor].
  - cbn [HorizontalScroll.print_seq HorizontalScroll.total_written
         HorizontalScroll.total_length fold_right].
    fold (HorizontalScroll.total_written
            (HorizontalScroll.print_seq
               (snd (HorizontalScroll.print_at self (HorizontalScroll.text c)
                       (HorizontalScroll.x c) (HorizontalScroll.y c)
                       (HorizontalScroll.palette c))) rest)).
    fold (HorizontalScroll.total_length rest).
    assert (Hlen : 0 <= Py.str_len (HorizontalScroll.text c))
      by (unfold Py.str_len; lia).
    assert (Hrest : 0 <= HorizontalScroll.total_length rest).
    { clear. induction rest as [|d r IHr]; simpl; [lia|].
      unfold Py.str_len at 1. lia. }
    unfold HorizontalScroll.print_at.
    destruct (Z.eqb_spec (HorizontalScroll.scroll self) 0) as [E0|N0].
    + cbn [fst snd].
      match goal with
      | |- context [HorizontalScroll.print_seq ?s rest] =>
          destruct (IH s) as [IH1 IH2]; [cbn; lia|]
      end.
      cbn [HorizontalScroll.scroll] in *.
      split; [rewrite IH1; lia | constructor; [cbn; lia | exact IH2]].
    + cbv zeta.
      destruct (Z.gtb_spec (Py.str_len (HorizontalScroll.text c))
                  (HorizontalScroll.scroll self)) as [G|NG].
      * cbn [fst snd].
        match goal with
        | |- context [HorizontalScroll.print_seq ?s rest] =>
            destruct (IH s) as [IH1 IH2]; [cbn; lia|]
        end.
        cbn [HorizontalScroll.scroll] in *.
        rewrite str_from_len by lia.
        split; [rewrite IH1; lia | constructor; [cbn; lia | exact IH2]].
      * destruct (Z.eqb_spec (Py.str_len (HorizontalScroll.text c))
                    (HorizontalScroll.scroll self)) as [E|NE];
          cbn [fst snd];
          match goal with
          | |- context [HorizontalScroll.print_seq ?s rest] =>
              destruct (IH s) as [IH1 IH2]; [cbn; lia|]
          end;
          cbn [HorizontalScroll.scroll] in *;
          (split; [rewrite IH1; lia | constructor; [cbn; lia | exact IH2]]).
Qed.

(** C1. After [set_scroll S] with [0 <= S], a run of [print_at] calls whose
    texts have total length [L] returns values that add up to
    [max 0 (L - S)], and the writer's scroll counter is non-negative after
    every call of the run. *)
Theorem scroll_writer_total (self : HorizontalScroll.t) (S : Z)
    (calls : list HorizontalScroll.Call) :
  0 <= S ->
  let trace :=
    HorizontalScroll.print_seq (HorizontalScroll.set_scroll self S) calls in
  HorizontalScroll.total_written trace
  = Z.max 0 (HorizontalScroll.total_length calls - S)
  /\ 0 <= HorizontalScroll.scroll (HorizontalScroll.set_scroll self S)
  /\ Forall (fun r => 0 <= HorizontalScroll.scroll (snd r)) trace.
Proof.
  intros HS trace.
  destruct (print_seq_scrolled calls (HorizontalScroll.set_scroll self S) HS)
    as [H1 H2].
  repeat split; assumption.
Qed.

(** ** Properties of the view state machine *)

Lemma key_in_values (code : Z) (keys_list : list Key.t) :
  key_in code keys_list = true <-> In code (Keys.values keys_list).
Proof.
  unfold key_in, Keys.values. rewrite existsb_exists, in_map_iff.
  split; intros [k [H1 H2]]; exists k.
  - unfold Key.eq in H2. apply Z.eqb_eq in H2. tauto.
  - unfold Key.eq. rewrite Z.eqb_eq. tauto.
Qed.

Ltac key_cases H :=
  apply key_in_values in H; cbn in H;
  repeat (destruct H as [H|H]; [symmetry in H|]); try contradiction; subst.

Ltac step_m :=
  unfold process_event, process_keyboard_event, process_mouse_event,
    bind, get, modify, ret, raise, when, lookup_or; cbn.

(** C10. In Main mode, a left click on a row [y >= 1] while there are no
    rows and [row_offset] is 0 sets the focus index to
    [min (y - 1 + row_offset) (len rows - 1)], which is -1. *)
Theorem click_on_empty_rows_focuses_minus_one (w : World) (x y buttons : Z) :
  state (ui w) = MAIN ->
  Z.land buttons LEFT_CLICK <> 0 ->
  1 <= y ->
  rows (ui w) = [] ->
  row_offset (ui w) = 0 ->
  exists w',
    process_event (MouseEvent x y buttons) w = Returned tt w'
    /\ focused (ui w')
       = Z.min (y - 1 + row_offset (ui w)) (Py.len (rows (ui w)) - 1)
    /\ focused (ui w') = -1.
Proof.
  intros Hst Hb Hy Hrows Hoff.
  unfold process_event, process_mouse_event, bind, get. rewrite Hst.
  unfold process_mouse_event_main, when.
  destruct (Z.eqb_spec (Z.land buttons LEFT_CLICK) 0) as [E|_]; [contradiction|].
  cbn [negb].
  destruct (Z.eqb_spec y 0) as [E|_]; [lia|].
  unfold bind, modify, ret. cbn.
  eexists; split; [reflexivity|]. cbn.
  rewrite Hrows, Hoff. cbn. split; [reflexivity | lia].
Qed.

(** C7. In SelectSort mode, Enter sets the sort column index to the
    side-panel focus index, whatever that index is, resets the horizontal
    offset to 0 and returns to Main mode. *)
Theorem select_sort_enter_commits (w : World) (key_code : Z) :
  state (ui w) = SELECT_SORT ->
  key_in key_code Keys.ENTER = true ->
  exists w',
    process_event (KeyboardEvent key_code) w = Returned tt w'
    /\ sort (ui w') = side_focused (ui w)
    /\ x_offset (ui w') = 0
    /\ state (ui w') = MAIN.
Proof.
  intros Hst Hk. key_cases Hk.
  unfold process_event, process_keyboard_event, bind, get. rewrite Hst.
  eexists. split; [reflexivity|]. cbn. auto.
Qed.

(** C5. In Main mode with a focused task, Toggle-resume-pause sends
    [pause] when the task is active or waiting, [resume] when it is
    paused and nothing for any other status; whether the collaborator
    call returns or raises, no attribute of the interface changes. *)
Theorem toggle_resume_pause_commands (w : World) (key_code : Z)
    (d : Download.t) :
  state (ui w) = MAIN ->
  key_in key_code Keys.TOGGLE_RESUME_PAUSE = true ->
  Py.getitem (data (ui w)) (focused (ui w)) = Some d ->
  let w' := world_of (process_event (KeyboardEvent key_code) w) in
  sent w' = sent w ++ toggle_commands d
  /\ ui w' = ui w.
Proof.
  intros Hst Hk Hd. key_cases Hk.
  unfold process_event, process_keyboard_event, bind, get. rewrite Hst.
  unfold process_keyboard_event_main. cbn [key_in existsb Keys.MOVE_UP
    Keys.MOVE_DOWN Keys.MOVE_LEFT Keys.MOVE_RIGHT Keys.HELP Keys.SETUP
    Keys.TOGGLE_RESUME_PAUSE]. cbn -[Py.getitem].
  unfold focused_download, bind, get, lookup_or. rewrite Hd.
  unfold ret, toggle_commands, Download.is_active, Download.is_waiting,
    Download.is_paused, call.
  destruct (Download.status d); cbn;
    try (rewrite app_nil_r; destruct w; cbn; auto);
    match goal with
    | |- context [API.fails ?a ?b ?c] => destruct (API.fails a b c)
    end; cbn; auto.
Qed.

Lemma getitem_Some_lt {A} (l : list A) (i : Z) (a : A) :
  Py.getitem l i = Some a -> i < Py.len l.
Proof.
  unfold Py.getitem. intros H.
  destruct (Z.ltb_spec i (Py.len l)) as [L|L]; [exact L|].
  rewrite andb_false_r in H.
  destruct (Z.ltb_spec i 0) as [L0|L0].
  - unfold Py.len in *. lia.
  - rewrite andb_false_r in H. discriminate.
Qed.

Lemma getitem_nonneg {A} (l : list A) (i : Z) :
  0 <= i -> ((exists a, Py.getitem l i = Some a) <-> i < Py.len l).
Proof.
  intros H0. split.
  - intros [a Ha]. exact (getitem_Some_lt _ _ _ Ha).
  - intros L. unfold Py.getitem.
    destruct (Z.leb_spec 0 i); [|lia].
    destruct (Z.ltb_spec i (Py.len l)); [|lia]. cbn [andb].
    destruct (nth_error l (Z.to_nat i)) eqn:E; [eauto|].
    apply nth_error_None in E. unfold Py.len in L. lia.
Qed.

(** C6. In Main mode, Remove-ask changes the mode to RemoveConfirm exactly
    when a task is focused, that is when [data[focused]] exists (for a
    focus index that is not negative: when it is below the number of
    tasks); that task then becomes the followed one.  With no focused
    task, as with an empty task list, the world is left as it was. *)
Theorem remove_ask_needs_focused_task (w : World) (key_code : Z) :
  state (ui w) = MAIN ->
  key_in key_code Keys.REMOVE_ASK = true ->
  let w' := world_of (process_event (KeyboardEvent key_code) w) in
  (state (ui w') = REMOVE_ASK
   <-> exists d, Py.getitem (data (ui w)) (focused (ui w)) = Some d)
  /\ (forall d, Py.getitem (data (ui w)) (focused (ui w)) = Some d ->
        follow (ui w') = Some d)
  /\ (Py.getitem (data (ui w)) (focused (ui w)) = None -> w' = w)
  /\ (0 <= focused (ui w) ->
        ((exists d, Py.getitem (data (ui w)) (focused (ui w)) = Some d)
         <-> focused (ui w) < Py.len (data (ui w)))).
Proof.
  intros Hst Hk.
  key_cases Hk;
    (split; [|split; [|split; [|apply getitem_nonneg]]]);
    unfold process_event, process_keyboard_event, bind, get; rewrite Hst;
    unfold process_keyboard_event_main;
    cbn -[Py.getitem follow_focused];
    unfold follow_focused, bind, get, lookup_or;
    (destruct (Py.getitem (data (ui w)) (focused (ui w))) as [d|] eqn:Hd;
     [ apply getitem_Some_lt in Hd; apply Z.ltb_lt in Hd; rewrite Hd; cbn;
       destruct (last_remove_choice (ui w)); cbn;
       try split; intros; eauto; congruence
     | destruct (focused (ui w) <? Py.len (data (ui w))) eqn:Hlt; cbn;
       try split; try (intros [? ?]; discriminate);
       try (intros; congruence); try (destruct w; reflexivity) ]).
Qed.

Lemma up_down_step (w : World) (event : Event) :
  state (ui w) = MAIN ->
  focus_visible (ui w) ->
  is_up_down event = true ->
  exists w',
    process_event event w = Returned tt w'
    /\ state (ui w') = MAIN
    /\ focus_visible (ui w')
    /\ rows (ui w') = rows (ui w)
    /\ height (ui w') = height (ui w).
Proof.
  intros Hst [Hf Hv] Hev.
  destruct event as [key_code|]; [|discriminate]. cbn [is_up_down] in Hev.
  unfold process_event, process_keyboard_event, bind, get. rewrite Hst.
  unfold focus_visible.
  apply orb_true_iff in Hev. destruct Hev as [Hk|Hk]; key_cases Hk.
  - unfold process_keyboard_event_main. cbn [key_in existsb Keys.MOVE_UP].
    cbn -[Z.sub Z.add]. unfold bind, get, when.
    destruct (Z.gtb_spec (focused (ui w)) 0) as [G|G].
    + unfold bind, modify, ret. cbn -[Z.sub Z.add].
      destruct (Z.ltb_spec (focused (ui w) - 1) (row_offset (ui w))) as [L|L].
      * eexists; split; [reflexivity|]. cbn -[Z.sub Z.add]. repeat split; try assumption; lia.
      * destruct (Z.geb_spec (focused (ui w) - 1)
                    (row_offset (ui w) + (height (ui w) - 1))) as [L2|L2].
        -- lia.
        -- eexists; split; [reflexivity|]. cbn -[Z.sub Z.add].
           repeat split; try assumption; lia.
    + eexists; split; [reflexivity|]. repeat split; try assumption; lia.
  - unfold process_keyboard_event_main.
    cbn [key_in existsb Keys.MOVE_UP Keys.MOVE_DOWN].
    cbn -[Z.sub Z.add Py.len]. unfold bind, get, when.
    destruct (Z.ltb_spec (focused (ui w)) (Py.len (rows (ui w)) - 1)) as [G|G].
    + unfold bind, modify, ret. cbn -[Z.sub Z.add Py.len].
      destruct (Z.geb_spec (focused (ui w) + 1 - row_offset (ui w))
                  (height (ui w) - 1)) as [L|L].
      * eexists; split; [reflexivity|]. cbn -[Z.sub Z.add Py.len].
        repeat split; try assumption; lia.
      * eexists; split; [reflexivity|]. cbn -[Z.sub Z.add Py.len].
        repeat split; try assumption; lia.
    + eexists; split; [reflexivity|]. repeat split; try assumption; lia.
Qed.

(** C2. From a Main-mode state whose rows are not empty, whose focus index
    addresses a row and whose [row_offset] shows that row in the window of
    [height - 1] rows, every queue of Up and Down key events is processed
    to the end and leaves a Main-mode state with
    [0 <= focused < len rows] and
    [row_offset <= focused < row_offset + height - 1]. *)
Theorem up_down_keep_focus_visible (queue : list Event) :
  forall w : World,
    state (ui w) = MAIN ->
    rows (ui w) <> [] ->
    focus_visible (ui w) ->
    Forall (fun event => is_up_down event = true) queue ->
    exists w',
      drain queue w = Drained w'
      /\ state (ui w') = MAIN
      /\ 0 <= focused (ui w') < Py.len (rows (ui w'))
      /\ row_offset (ui w') <= focused (ui w')
         < row_offset (ui w') + height (ui w') - 1.
Proof.
  induction queue as [|event rest IH]; intros w Hst Hne Hinv Hq.
  - exists w. destruct Hinv as [H1 H2]. cbn. repeat split; try tauto; lia.
  - inversion Hq as [|? ? Hev Hrest]; subst.
    destruct (up_down_step w event Hst Hinv Hev)
      as [w1 [Hstep [Hst1 [Hinv1 [Hrows1 Hh1]]]]].
    cbn [drain]. rewrite Hstep.
    apply IH; try assumption. rewrite Hrows1. exact Hne.
Qed.

(** ** Properties of the event loop *)

Lemma exit_bind (P : Prop) {A B} (m : M A) (k : A -> M B) :
  exit_only_if P m -> (forall a, exit_only_if P (k a)) ->
  exit_only_if P (bind m k).
Proof.
  intros Hm Hk w w' H. unfold bind in H.
  destruct (m w) as [a w1|e w1] eqn:E.
  - exact (Hk a w1 w' H).
  - inversion H; subst. exact (Hm w w' E).
Qed.

Lemma exit_ret (P : Prop) {A} (a : A) : exit_only_if P (ret a).
Proof. intros w w' H. discriminate. Qed.

Lemma exit_get (P : Prop) : exit_only_if P get.
Proof. intros w w' H. discriminate. Qed.

Lemma exit_modify (P : Prop) f : exit_only_if P (modify f).
Proof. intros w w' H. discriminate. Qed.

Lemma exit_call (P : Prop) c : exit_only_if P (call c).
Proof.
  intros w w' H. unfold call in H.
  destruct (API.fails _ _ _); discriminate.
Qed.

Lemma exit_lookup_or (P : Prop) {A} (e : Exn) (o : option A) :
  e <> Exit -> exit_only_if P (lookup_or e o).
Proof.
  intros He w w' H. destruct o; cbn in H; [discriminate|].
  unfold raise in H. congruence.
Qed.

Lemma exit_known (P : Prop) {A} (m : M A) : P -> exit_only_if P m.
Proof. intros HP w w' _. exact HP. Qed.

Ltac exits :=
  repeat first
    [ apply exit_ret | apply exit_get | apply exit_modify | apply exit_call
    | apply exit_lookup_or; discriminate
    | apply exit_bind; [|intros ?]
    | assumption
    | match goal with
      | |- exit_only_if _ (when ?b _) => destruct b; unfold when
      | |- exit_only_if _ (if ?b then _ else _) => destruct b eqn:?
      | |- exit_only_if _ (match ?o with Some _ => _ | None => _ end) =>
          destruct o
      end ].

Lemma exit_follow_focused (P : Prop) : exit_only_if P follow_focused.
Proof. unfold follow_focused. exits. Qed.

Lemma exit_focused_download (P : Prop) : exit_only_if P focused_download.
Proof. unfold focused_download. exits. Qed.

Lemma exit_get_column_at_x (P : Prop) x : exit_only_if P (get_column_at_x x).
Proof. unfold get_column_at_x. exits. Qed.

Lemma main_exit_is_quit (key_code : Z) :
  exit_only_if (key_in key_code Keys.QUIT = true)
    (process_keyboard_event_main key_code).
Proof.
  unfold process_keyboard_event_main.
  pose proof (exit_follow_focused (key_in key_code Keys.QUIT = true)).
  pose proof (exit_focused_download (key_in key_code Keys.QUIT = true)).
  exits. apply exit_known. reflexivity.
Qed.

Lemma exit_is_quit (event : Event) (w w' : World) :
  process_event event w = Raised Exit w' ->
  exists key_code,
    event = KeyboardEvent key_code
    /\ state (ui w) = MAIN
    /\ key_in key_code Keys.QUIT = true.
Proof.
  destruct event as [key_code|x y buttons]; cbn [process_event].
  - unfold process_keyboard_event, bind, get.
    destruct (state (ui w)) eqn:Hst; intros H.
    + exists key_code. repeat split.
      exact (main_exit_is_quit key_code w w' H).
    + exfalso. revert H. apply (fun P => P w w').
      change (exit_only_if False (process_keyboard_event_help key_code)).
      unfold process_keyboard_event_help. exits.
    + discriminate.
    + exfalso. revert H. apply (fun P => P w w').
      change (exit_only_if False (process_keyboard_event_remove_ask key_code)).
      unfold process_keyboard_event_remove_ask. exits.
    + exfalso. revert H. apply (fun P => P w w').
      change (exit_only_if False (process_keyboard_event_select_sort key_code)).
      unfold process_keyboard_event_select_sort. exits.
  - unfold process_mouse_event, bind, get.
    destruct (state (ui w)); intros H; try discriminate.
    exfalso. revert H. apply (fun P => P w w').
    change (exit_only_if False (process_mouse_event_main x y buttons)).
    unfold process_mouse_event_main.
    pose proof (exit_get_column_at_x False x). exits.
Qed.

Lemma drain_app (before after : list Event) :
  forall w,
    drain (before ++ after) w
    = match drain before w with
      | Drained w1 => drain after w1
      | Exited w' => Exited w'
      end.
Proof.
  induction before as [|event rest IH]; intros w; cbn [app drain].
  - reflexivity.
  - destruct (process_event event w) as [[] w1|[] w1]; apply IH || reflexivity.
Qed.

Lemma drain_exited (queue : list Event) :
  forall w w',
    drain queue w = Exited w' ->
    exists before key_code after w1,
      queue = before ++ KeyboardEvent key_code :: after
      /\ key_in key_code Keys.QUIT = true
      /\ drain before w = Drained w1
      /\ state (ui w1) = MAIN
      /\ process_event (KeyboardEvent key_code) w1 = Raised Exit w'.
Proof.
  induction queue as [|event rest IH]; intros w w' H; cbn [drain] in H.
  - discriminate.
  - destruct (process_event event w) as [[] w1|e w1] eqn:E.
    + destruct (IH _ _ H) as [b [k [a [w2 [Hq [Hk [Hd [Hs Hp]]]]]]]].
      exists (event :: b), k, a, w2. subst rest.
      cbn [app drain]. rewrite E. auto.
    + destruct e;
        try (destruct (IH _ _ H) as [b [k [a [w2 [Hq [Hk [Hd [Hs Hp]]]]]]]];
             exists (event :: b), k, a, w2; subst rest;
             cbn [app drain]; rewrite E; auto).
      inversion H; subst.
      destruct (exit_is_quit _ _ _ E) as [k [-> [Hs Hk]]].
      exists [], k, rest, w. cbn. auto.
Qed.

(** C3. In the event loop of a frame, an exception other than [Exit]
    raised while one event is processed is logged and the loop goes on
    with the events queued behind it, from the state that event left;
    the loop is left early only through the [Exit] that a Quit key
    raises in Main mode. *)
Theorem event_errors_are_caught (queue : list Event) (w : World) :
  (forall before event after w1 error w2,
      queue = before ++ event :: after ->
      drain before w = Drained w1 ->
      process_event event w1 = Raised error w2 ->
      error <> Exit ->
      drain queue w = drain after (logger_exception error w2)
      /\ logged (logger_exception error w2) = logged w2 ++ [error])
  /\ (forall w',
        drain queue w = Exited w' ->
        exists before key_code after w1,
          queue = before ++ KeyboardEvent key_code :: after
          /\ key_in key_code Keys.QUIT = true
          /\ drain before w = Drained w1
          /\ state (ui w1) = MAIN
          /\ process_event (KeyboardEvent key_code) w1 = Raised Exit w')
  /\ ((forall key_code,
         In (KeyboardEvent key_code) queue ->
         key_in key_code Keys.QUIT = false) ->
      exists w', drain queue w = Drained w').
Proof.
  split; [|split].
  - intros before event after w1 error w2 -> Hb He Hne.
    rewrite drain_app, Hb. cbn [drain]. rewrite He.
    split; [|reflexivity]. destruct error; congruence.
  - intros w'. apply drain_exited.
  - intros Hq. destruct (drain queue w) as [w'|w'] eqn:E; [|eauto].
    destruct (drain_exited _ _ _ E) as [b [k [a [w1 [-> [Hk _]]]]]].
    rewrite Hq in Hk; [discriminate|].
    apply in_or_app. right. left. reflexivity.
Qed.

(** ** Properties of [sorted] *)

(** Sizes 10, 20, 5, 40, 15 in ascending and in descending order. *)
Example sorted_sizes :
  Py.sorted Z.ltb (fun n => n) [10; 20; 5; 40; 15] false = [5; 10; 15; 20; 40]
  /\ Py.sorted Z.ltb (fun n => n) [10; 20; 5; 40; 15] true
     = [40; 20; 15; 10; 5].
Proof. split; reflexivity. Qed.

(** Tasks of equal size keep their order in both directions. *)
Example sorted_is_stable :
  map Download.gid
    (Py.sorted Z.ltb Download.total_length [task_a; task_b; task_c] false)
  = ["a"; "c"; "b"]%string
  /\ map Download.gid
       (Py.sorted Z.ltb Download.total_length [task_a; task_b; task_c] true)
     = ["b"; "a"; "c"]%string.
Proof. split; reflexivity. Qed.

Section StableSort.
Context {A K : Type}.
Variable lt : K -> K -> bool.
Variable key : A -> K.

(** [<] on the keys is a strict weak order. *)
Hypothesis lt_asym : forall a b, lt a b = true -> lt b a = false.
Hypothesis lt_negtrans :
  forall a b c, lt a b = false -> lt b c = false -> lt a c = false.

Local Abbreviation le := (key_le lt key).
Local Abbreviation equiv := (key_equiv lt key).

Lemma lt_irrefl (a : K) : lt a a = false.
Proof.
  destruct (lt a a) eqn:E; [|reflexivity].
  pose proof (lt_asym _ _ E). congruence.
Qed.

Lemma equiv_refl (x : A) : equiv x x = true.
Proof. unfold key_equiv. rewrite lt_irrefl. reflexivity. Qed.

Lemma equiv_sym (x y : A) : equiv x y = equiv y x.
Proof. unfold key_equiv. apply andb_comm. Qed.

Lemma equiv_not_lt (z x y : A) :
  equiv z x = true -> equiv z y = true -> lt (key y) (key x) = false.
Proof.
  unfold key_equiv. rewrite !andb_true_iff, !negb_true_iff.
  intros [Hzx _] [_ Hyz]. exact (lt_negtrans _ _ _ Hyz Hzx).
Qed.

Lemma Forall_insert (P : A -> Prop) (x : A) (l : list A) :
  P x -> Forall P l -> Forall P (Py.insert lt key x l).
Proof.
  intros Hx Hl. induction Hl as [|y l' Hy Hl' IH]; cbn.
  - auto.
  - destruct (lt (key y) (key x)); auto.
Qed.

Lemma In_insert (a x : A) (l : list A) :
  In a (Py.insert lt key x l) <-> a = x \/ In a l.
Proof.
  induction l as [|y l' IH]; cbn.
  - intuition congruence.
  - destruct (lt (key y) (key x)); cbn; rewrite ?IH; intuition congruence.
Qed.

Lemma In_stable_sort (a : A) (l : list A) :
  In a (Py.stable_sort lt key l) <-> In a l.
Proof.
  induction l as [|x l' IH]; cbn; [tauto|].
  fold (Py.stable_sort lt key l'). rewrite In_insert, IH.
  intuition congruence.
Qed.

Lemma In_sorted (a : A) (l : list A) (reverse : bool) :
  In a (Py.sorted lt key l reverse) <-> In a l.
Proof.
  unfold Py.sorted. destruct reverse.
  - rewrite <- in_rev, In_stable_sort, <- in_rev. tauto.
  - apply In_stable_sort.
Qed.

Lemma filter_insert (z x : A) (l : list A) :
  filter (equiv z) (Py.insert lt key x l) = filter (equiv z) (x :: l).
Proof.
  induction l as [|y l' IH]; [reflexivity|].
  cbn [Py.insert]. destruct (lt (key y) (key x)) eqn:Hyx; [|reflexivity].
  cbn [filter] in *. rewrite IH.
  destruct (equiv z x) eqn:Ex, (equiv z y) eqn:Ey; try reflexivity.
  rewrite (equiv_not_lt z x y Ex Ey) in Hyx. discriminate.
Qed.

Lemma filter_stable_sort (z : A) (l : list A) :
  filter (equiv z) (Py.stable_sort lt key l) = filter (equiv z) l.
Proof.
  induction l as [|x l' IH]; [reflexivity|].
  cbn [Py.stable_sort fold_right]. fold (Py.stable_sort lt key l').
  rewrite filter_insert. cbn [filter]. rewrite IH. reflexivity.
Qed.

Lemma insert_sorted (x : A) (l : list A) :
  StronglySorted le l -> StronglySorted le (Py.insert lt key x l).
Proof.
  intros Hl. induction Hl as [|y l' Hl' IH Hy]; cbn.
  - repeat constructor.
  - destruct (lt (key y) (key x)) eqn:Hyx.
    + constructor; [exact IH|].
      apply Forall_insert; [|exact Hy]. exact (lt_asym _ _ Hyx).
    + constructor; [constructor; assumption|].
      constructor; [exact Hyx|].
      revert Hy. apply Forall_impl. intros a Ha.
      exact (lt_negtrans _ _ _ Ha Hyx).
Qed.

Lemma stable_sort_sorted (l : list A) :
  StronglySorted le (Py.stable_sort lt key l).
Proof.
  induction l as [|x l' IH]; cbn.
  - constructor.
  - apply insert_sorted. exact IH.
Qed.

Lemma filter_head_In (z a : A) (l1 l2 : list A) :
  filter (equiv z) l1 = a :: l2 -> In a l1.
Proof.
  intros H. assert (Hin : In a (filter (equiv z) l1)) by (rewrite H; left; reflexivity).
  apply filter_In in Hin. tauto.
Qed.

(** Two ascending lists that list the elements of every key class in
    the same order are the same list. *)
Lemma sorted_unique (l1 : list A) :
  forall l2,
    StronglySorted le l1 -> StronglySorted le l2 ->
    (forall z, filter (equiv z) l1 = filter (equiv z) l2) ->
    l1 = l2.
Proof.
  induction l1 as [|a l1' IH]; intros l2 H1 H2 Hf.
  - destruct l2 as [|b l2']; [reflexivity|].
    specialize (Hf b). cbn in Hf. rewrite equiv_refl in Hf. discriminate.
  - destruct l2 as [|b l2'].
    + specialize (Hf a). cbn in Hf. rewrite equiv_refl in Hf. discriminate.
    + inversion H1 as [|? ? H1' F1]; subst.
      inversion H2 as [|? ? H2' F2]; subst.
      assert (Hab : equiv a b = true).
      { destruct (equiv a b) eqn:E; [reflexivity|exfalso].
        pose proof (Hf a) as Ha. pose proof (Hf b) as Hb.
        cbn [filter] in Ha, Hb.
        rewrite equiv_refl in Ha, Hb. rewrite E in Ha.
        rewrite equiv_sym, E in Hb.
        symmetry in Ha. apply filter_head_In in Ha.
        apply filter_head_In in Hb.
        rewrite Forall_forall in F1, F2.
        pose proof (F1 _ Hb) as Lab. pose proof (F2 _ Ha) as Lba.
        unfold key_le in Lab, Lba. unfold key_equiv in E.
        rewrite Lab, Lba in E. discriminate. }
      assert (a = b).
      { pose proof (Hf a) as Ha. cbn [filter] in Ha.
        rewrite equiv_refl, Hab in Ha. congruence. }
      subst b. f_equal. apply IH; try assumption.
      intros z. specialize (Hf z). cbn [filter] in Hf.
      destruct (equiv z a); congruence.
Qed.

Lemma filter_sorted (z : A) (l : list A) (reverse : bool) :
  filter (equiv z) (Py.sorted lt key l reverse) = filter (equiv z) l.
Proof.
  unfold Py.sorted. destruct reverse; [|apply filter_stable_sort].
  rewrite filter_rev, filter_stable_sort, filter_rev, rev_involutive.
  reflexivity.
Qed.

(** Sorting, sorting the result in the other direction and sorting that
    in the first direction again gives what the first sort gave. *)
Lemma sorted_toggle_twice (l : list A) (reverse : bool) :
  Py.sorted lt key
    (Py.sorted lt key (Py.sorted lt key l reverse) (negb reverse)) reverse
  = Py.sorted lt key l reverse.
Proof.
  destruct reverse; cbn [negb].
  - unfold Py.sorted at 1 4. f_equal.
    apply sorted_unique; try apply stable_sort_sorted.
    intros z. rewrite !filter_stable_sort, filter_rev.
    change (Py.stable_sort lt key (Py.sorted lt key l true))
      with (Py.sorted lt key (Py.sorted lt key l true) false).
    rewrite !filter_sorted, filter_rev. reflexivity.
  - unfold Py.sorted at 1 4.
    apply sorted_unique; try apply stable_sort_sorted.
    intros z. rewrite !filter_stable_sort.
    change (Py.stable_sort lt key l) with (Py.sorted lt key l false).
    rewrite !filter_sorted. reflexivity.
Qed.

End StableSort.

(** *** The order of the sort keys of the columns *)

Lemma ascii_compare_lt_trans (a b c : ascii) :
  Ascii.compare a b = Lt -> Ascii.compare b c = Lt -> Ascii.compare a c = Lt.
Proof.
  unfold Ascii.compare. rewrite !N.compare_lt_iff. apply N.lt_trans.
Qed.

Lemma string_compare_lt_trans (a : string) :
  forall b c,
    String.compare a b = Lt -> String.compare b c = Lt ->
    String.compare a c = Lt.
Proof.
  induction a as [|x a IH]; intros [|y b] [|z c]; cbn; try congruence.
  destruct (Ascii.compare x y) eqn:Exy; try discriminate;
    destruct (Ascii.compare y z) eqn:Eyz; try discriminate; intros H1 H2.
  - apply Ascii.compare_eq_iff in Exy, Eyz. subst.
    rewrite (proj2 (N.compare_eq_iff _ _) eq_refl : Ascii.compare z z = Eq).
    eauto.
  - apply Ascii.compare_eq_iff in Exy. subst. rewrite Eyz. reflexivity.
  - apply Ascii.compare_eq_iff in Eyz. subst. rewrite Exy. reflexivity.
  - rewrite (ascii_compare_lt_trans _ _ _ Exy Eyz). reflexivity.
Qed.

Lemma string_ltb_strict_weak : strict_weak String.ltb.
Proof.
  assert (Hflip : forall a b, String.compare a b = Gt -> String.compare b a = Lt).
  { intros a b H. rewrite String.compare_antisym, H. reflexivity. }
  unfold String.ltb. split.
  - intros a b H. rewrite String.compare_antisym.
    destruct (String.compare a b); try discriminate. reflexivity.
  - intros a b c Hab Hbc.
    destruct (String.compare a c) eqn:Eac; try reflexivity. exfalso.
    destruct (String.compare a b) eqn:Eab; try discriminate.
    + apply String.compare_eq_iff in Eab. subst. rewrite Eac in Hbc.
      discriminate.
    + apply Hflip in Eab.
      rewrite (string_compare_lt_trans _ _ _ Eab Eac) in Hbc. discriminate.
Qed.

Lemma Z_ltb_strict_weak : strict_weak Z.ltb.
Proof.
  split; intros a b; [|intros c]; rewrite ?Z.ltb_lt, ?Z.ltb_ge; lia.
Qed.

Lemma Q_ltb_strict_weak : strict_weak Q_ltb.
Proof.
  assert (Hlt : forall a b, Q_ltb a b = true <-> (a < b)%Q).
  { intros a b. unfold Q_ltb. rewrite negb_true_iff.
    rewrite <- not_true_iff_false, Qle_bool_iff. split.
    - apply Qnot_le_lt.
    - apply Qlt_not_le. }
  assert (Hge : forall a b, Q_ltb a b = false <-> (b <= a)%Q).
  { intros a b. unfold Q_ltb. rewrite negb_false_iff. apply Qle_bool_iff. }
  split.
  - intros a b. rewrite Hlt, Hge. apply Qlt_le_weak.
  - intros a b c. rewrite !Hge. intros H1 H2. exact (Qle_trans _ _ _ H2 H1).
Qed.

Lemma columns_strict_weak (column_name : string) (column : Column) :
  columns column_name = Some column -> strict_weak (sort_lt column).
Proof.
  unfold columns, columns_table. cbn [lookup].
  repeat (destruct (String.eqb _ column_name);
          [intros H; inversion H; subst; cbn;
           first [ apply string_ltb_strict_weak | apply Z_ltb_strict_weak
                 | apply Q_ltb_strict_weak ] | ]).
  discriminate.
Qed.

(** ** Properties of sorting and refreshing *)

Lemma index_Some_iff {A} (eqb : A -> A -> bool) (l : list A) (x : A) :
  (exists i, Py.index eqb l x = Some i)
  <-> (exists y, In y l /\ eqb y x = true).
Proof.
  induction l as [|y l' IH]; cbn.
  - split; [intros [i H]; discriminate | intros [y [[] _]]].
  - destruct (eqb y x) eqn:E.
    + split; eauto.
    + split.
      * intros [i H]. destruct (Py.index eqb l' x) as [j|]; [|discriminate].
        destruct (proj1 IH (ex_intro _ j eq_refl)) as [z [Hz Ez]]. eauto.
      * intros [z [[->|Hz] Ez]]; [congruence|].
        destruct (proj2 IH (ex_intro _ z (conj Hz Ez))) as [j ->]. eauto.
Qed.

Lemma index_None_iff {A} (eqb : A -> A -> bool) (l : list A) (x : A) :
  Py.index eqb l x = None <-> (forall y, In y l -> eqb y x = false).
Proof.
  pose proof (index_Some_iff eqb l x) as H. split.
  - intros Hn y Hy. destruct (eqb y x) eqn:E; [|reflexivity].
    destruct (proj2 H (ex_intro _ y (conj Hy E))) as [i Hi]. congruence.
  - intros Hall. destruct (Py.index eqb l x) as [i|] eqn:E; [|reflexivity].
    destruct (proj1 H (ex_intro _ i eq_refl)) as [y [Hy Ey]].
    rewrite (Hall y Hy) in Ey. discriminate.
Qed.

Lemma update_rows_spec (w : World) :
  update_rows w
  = let w1 := with_ui w (set_rows (rows_of (data (ui w))) (ui w)) in
    match follow (ui w) with
    | None => Returned tt w1
    | Some d =>
        match Py.index Download.eqb (data (ui w)) d with
        | Some i => Returned tt (with_ui w (set_focused i (ui w1)))
        | None => Raised ValueError w1
        end
    end.
Proof.
  unfold update_rows, bind, lookup_or, modify, get, ret, raise. cbn.
  destruct (follow (ui w)) as [d|]; [|reflexivity].
  destruct (Py.index Download.eqb (data (ui w)) d); reflexivity.
Qed.

Lemma sort_data_spec (w : World) (column_name : string) (column : Column) :
  Py.getitem columns_order (sort (ui w)) = Some column_name ->
  columns column_name = Some column ->
  sort_data w
  = Returned tt
      (with_ui w
         (set_data
            (Py.sorted (sort_lt column) (get_sort column)
               (data (ui w)) (reverse (ui w))) (ui w))).
Proof.
  intros H1 H2. unfold sort_data, bind, get, lookup_or.
  rewrite H1. cbn [ret]. rewrite H2. reflexivity.
Qed.

Lemma sort_data_returned (w w' : World) :
  sort_data w = Returned tt w' ->
  exists column_name column,
    Py.getitem columns_order (sort (ui w)) = Some column_name
    /\ columns column_name = Some column.
Proof.
  unfold sort_data, bind, get, lookup_or.
  destruct (Py.getitem columns_order (sort (ui w))) as [n|];
    [|intros H; discriminate H].
  cbn [ret]. destruct (columns n) as [c|] eqn:Hc; [|intros H; discriminate H].
  intros _. exists n, c. split; [reflexivity | exact Hc].
Qed.

Lemma reverse_key_spec (w : World) :
  state (ui w) = MAIN ->
  process_event (KeyboardEvent (Py.ord "I")) w
  = Returned tt
      (with_ui w (set_refresh true (set_reverse (negb (reverse (ui w))) (ui w)))).
Proof.
  intros Hst. unfold process_event, process_keyboard_event, bind, get.
  rewrite Hst. reflexivity.
Qed.

Lemma reverse_and_resort_spec (w : World) (column_name : string)
    (column : Column) :
  state (ui w) = MAIN ->
  Py.getitem columns_order (sort (ui w)) = Some column_name ->
  columns column_name = Some column ->
  (forall d, follow (ui w) = Some d ->
     exists y, In y (data (ui w)) /\ Download.eqb y d = true) ->
  exists w',
    reverse_and_resort w = Returned tt w'
    /\ state (ui w') = MAIN
    /\ sort (ui w') = sort (ui w)
    /\ reverse (ui w') = negb (reverse (ui w))
    /\ follow (ui w') = follow (ui w)
    /\ data (ui w')
       = Py.sorted (sort_lt column) (get_sort column) (data (ui w))
           (negb (reverse (ui w)))
    /\ rows (ui w') = rows_of (data (ui w'))
    /\ (forall d, follow (ui w') = Some d ->
          Py.index Download.eqb (data (ui w')) d = Some (focused (ui w')))
    /\ (follow (ui w') = None -> focused (ui w') = focused (ui w)).
Proof.
  intros Hst Hn Hc Hf. unfold reverse_and_resort, bind.
  rewrite (reverse_key_spec w Hst).
  rewrite (sort_data_spec _ column_name column) by (cbn; assumption).
  rewrite update_rows_spec. cbn.
  destruct (follow (ui w)) as [d|] eqn:Hfol.
  - destruct (Hf d eq_refl) as [y [Hy Ey]].
    destruct (proj2 (index_Some_iff Download.eqb
                (Py.sorted (sort_lt column) (get_sort column) (data (ui w))
                   (negb (reverse (ui w)))) d)) as [i Hi].
    { exists y. split; [|exact Ey]. apply In_sorted. exact Hy. }
    rewrite Hi. eexists. split; [reflexivity|]. cbn.
    repeat split; try assumption; try congruence.
  - eexists. split; [reflexivity|]. cbn.
    repeat split; try assumption; try congruence.
Qed.

(** C4. Starting from a sorted view, pressing Reverse-sort twice, with
    the re-sort after each press, gives back exactly the task order and
    the rows of the start, for every task list, sort column and sort
    direction, tasks with equal sort keys included. *)
Theorem reverse_sort_twice_restores_order (w w0 : World) :
  state (ui w) = MAIN ->
  (sort_data ;; update_rows) w = Returned tt w0 ->
  exists w2,
    (reverse_and_resort ;; reverse_and_resort) w0 = Returned tt w2
    /\ data (ui w2) = data (ui w0)
    /\ rows (ui w2) = rows (ui w0)
    /\ focused (ui w2) = focused (ui w0)
    /\ reverse (ui w2) = reverse (ui w0)
    /\ sort (ui w2) = sort (ui w0).
Proof.
  intros Hst H0. unfold bind in H0.
  destruct (sort_data w) as [[] ws|] eqn:Hs; [|discriminate].
  destruct (sort_data_returned _ _ Hs) as [n [c [Hn Hc]]].
  rewrite (sort_data_spec w n c Hn Hc) in Hs. inversion Hs; subst ws; clear Hs.
  rewrite update_rows_spec in H0. cbn in H0.
  destruct (columns_strict_weak n c Hc) as [Hasym Hneg].
  set (sorted0 := Py.sorted (sort_lt c) (get_sort c) (data (ui w))
                    (reverse (ui w))) in *.
  assert (Hw0 : state (ui w0) = MAIN /\ sort (ui w0) = sort (ui w)
                /\ reverse (ui w0) = reverse (ui w)
                /\ follow (ui w0) = follow (ui w)
                /\ data (ui w0) = sorted0
                /\ rows (ui w0) = rows_of sorted0
                /\ (forall d, follow (ui w0) = Some d ->
                      Py.index Download.eqb sorted0 d
                      = Some (focused (ui w0)))).
  { destruct (follow (ui w)) as [d|] eqn:Hfol.
    - destruct (Py.index Download.eqb sorted0 d) as [i|] eqn:Hi;
        [|discriminate].
      inversion H0; subst w0; cbn.
      repeat split; try assumption. intros d' Hd'. congruence.
    - inversion H0; subst w0; cbn.
      repeat split; try assumption. intros d' Hd'. congruence. }
  destruct Hw0 as [Hst0 [Hsort0 [Hrev0 [Hfol0 [Hdata0 [Hrows0 Hidx0]]]]]].
  destruct (reverse_and_resort_spec w0 n c Hst0) as
    [w1 [Hrun1 [Hst1 [Hsort1 [Hrev1 [Hfol1 [Hdata1 [Hrows1 [Hidx1 Hfoc1]]]]]]]]].
  { rewrite Hsort0. exact Hn. }
  { exact Hc. }
  { intros d Hd. apply index_Some_iff. rewrite Hdata0. eauto. }
  destruct (reverse_and_resort_spec w1 n c Hst1) as
    [w2 [Hrun2 [Hst2 [Hsort2 [Hrev2 [Hfol2 [Hdata2 [Hrows2 [Hidx2 Hfoc2]]]]]]]]].
  { rewrite Hsort1, Hsort0. exact Hn. }
  { exact Hc. }
  { intros d Hd. apply index_Some_iff. eauto. }
  assert (Hdata : data (ui w2) = data (ui w0)).
  { rewrite Hdata2, Hdata1, Hrev1, Hdata0, Hrev0, negb_involutive.
    apply sorted_toggle_twice; assumption. }
  exists w2. unfold bind. rewrite Hrun1, Hrun2.
  split; [reflexivity|]. split; [exact Hdata|].
  split; [rewrite Hrows2, Hdata, Hrows0, Hdata0; reflexivity|].
  split; [|split; [rewrite Hrev2, Hrev1; apply negb_involutive | congruence]].
  destruct (follow (ui w2)) as [d|] eqn:Hf2.
  - pose proof (Hidx2 d eq_refl) as Hi2. rewrite Hdata, Hdata0 in Hi2.
    assert (Hd0 : follow (ui w0) = Some d) by congruence.
    pose proof (Hidx0 d Hd0). congruence.
  - rewrite (Hfoc2 eq_refl). apply Hfoc1. congruence.
Qed.

(** ** Properties of the render loop *)

Lemma run_frames_app (earlier later : list FrameInput) :
  forall w,
    run_frames (earlier ++ later) w
    = match run_frames earlier w with
      | Running w' => run_frames later w'
      | finished => finished
      end.
Proof.
  induction earlier as [|input rest IH]; intros w; cbn [app run_frames].
  - reflexivity.
  - destruct (run_frame input w); [apply IH | reflexivity | reflexivity].
Qed.

Lemma update_data_spec (w : World) (fetched : list Download.t) :
  update_data (Some fetched) w
  = sort_data (with_ui w (set_data fetched (ui w))).
Proof. reflexivity. Qed.

Lemma update_rows_raises (w : World) (followed : Download.t) :
  follow (ui w) = Some followed ->
  Py.index Download.eqb (data (ui w)) followed = None ->
  update_rows w
  = Raised ValueError (with_ui w (set_rows (rows_of (data (ui w))) (ui w))).
Proof.
  intros Hf Hi. rewrite update_rows_spec. cbv zeta. rewrite Hf, Hi.
  reflexivity.
Qed.

Lemma refresh_frame_raises (previous_sort : Z * bool)
    (fetched : option (list Download.t)) (w w4 w5 : World) (e : Exn) :
  frame (ui w) = 0 ->
  update_data fetched w = Returned tt w4 ->
  update_rows w4 = Raised e w5 ->
  refresh_frame previous_sort fetched w = Raised e w5.
Proof.
  intros Hframe Hdata Hrows. unfold refresh_frame.
  unfold bind at 1. unfold get at 1.
  unfold bind at 1. rewrite Hframe. unfold when at 1.
  change (0 =? 0) with true. cbv iota.
  unfold bind at 1. unfold bind at 1. rewrite Hdata.
  unfold bind at 1. rewrite Hrows. reflexivity.
Qed.

Lemma run_frame_uncaught (input : FrameInput) (w w3 w5 : World) (e : Exn) :
  drain (pending input) (with_ui w (set_refresh false (ui w))) = Drained w3 ->
  refresh_frame (sort (ui w), reverse (ui w)) (downloads input) w3
  = Raised e w5 ->
  run_frame input w = Uncaught e w5.
Proof.
  intros Hdrain Hrefresh. unfold run_frame.
  change (modify (set_refresh false) w)
    with (Returned tt (with_ui w (set_refresh false (ui w)))).
  cbv beta iota zeta. rewrite Hdrain, Hrefresh. reflexivity.
Qed.

Lemma refresh_frame_fetch_raises (previous_sort : Z * bool)
    (fetched : option (list Download.t)) (w w' : World) (e : Exn) :
  frame (ui w) = 0 ->
  update_data fetched w = Raised e w' ->
  refresh_frame previous_sort fetched w = Raised e w'.
Proof.
  intros Hframe Hdata. unfold refresh_frame.
  unfold bind at 1. unfold get at 1.
  unfold bind at 1. rewrite Hframe. unfold when at 1.
  change (0 =? 0) with true. cbv iota.
  unfold bind at 1. unfold bind at 1. rewrite Hdata. reflexivity.
Qed.

Lemma update_data_returned (w w4 : World) (fetched : list Download.t) :
  update_data (Some fetched) w = Returned tt w4 ->
  follow (ui w4) = follow (ui w)
  /\ (forall task, In task (data (ui w4)) -> In task fetched).
Proof.
  intros H. rewrite update_data_spec in H.
  destruct (sort_data_returned _ _ H) as [n [c [Hn Hc]]].
  rewrite (sort_data_spec _ n c Hn Hc) in H. inversion H; subst w4.
  split; [reflexivity|].
  intros task Ht. cbn [ui with_ui data set_data] in Ht.
  apply In_sorted in Ht. exact Ht.
Qed.

(** C9. When the followed task is not among the tasks fetched at a frame
    0, [run] returns [False]: once the task list is stored and sorted,
    [update_rows] raises the lookup error of [index]; the refresh is not
    under the handler of the event loop, so the error leaves the frame
    loop and the outermost handler logs it. *)
Theorem lost_follow_fails_run
    (w w1 w2 w3 : World) (screen_dimensions : Z * Z)
    (earlier later : list FrameInput) (input : FrameInput)
    (more : list Session) (followed : Download.t)
    (fetched : list Download.t) :
  (set_screen screen_dimensions ;; modify (set_frame 0)) w = Returned tt w1 ->
  run_frames earlier w1 = Running w2 ->
  drain (pending input) (with_ui w2 (set_refresh false (ui w2))) = Drained w3 ->
  frame (ui w3) = 0 ->
  follow (ui w3) = Some followed ->
  downloads input = Some fetched ->
  (forall task, In task fetched -> Download.eqb task followed = false) ->
  exists w',
    run (mkSession screen_dimensions (earlier ++ input :: later) :: more) w
    = Finished false w'
    /\ (forall w4,
          update_data (Some fetched) w3 = Returned tt w4 ->
          exists w5,
            update_rows w4 = Raised ValueError w5
            /\ run_frame input w2 = Uncaught ValueError w5
            /\ w' = logger_exception ValueError w5).
Proof.
  intros Hscreen Hearlier Hdrain Hframe Hfollow Hfetch Habsent.
  assert (Hrun : forall e w5,
            run_frame input w2 = Uncaught e w5 ->
            run (mkSession screen_dimensions (earlier ++ input :: later) :: more)
              w
            = Finished false (logger_exception e w5)).
  { intros e w5 H. cbn [run dimensions frame_inputs]. rewrite Hscreen.
    rewrite run_frames_app, Hearlier. cbn [run_frames]. rewrite H.
    reflexivity. }
  destruct (update_data (Some fetched) w3) as [[] w4|e w4] eqn:Hdata.
  - destruct (update_data_returned _ _ _ Hdata) as [Hfollow4 Hin].
    rewrite Hfollow in Hfollow4.
    assert (Hidx : Py.index Download.eqb (data (ui w4)) followed = None).
    { apply index_None_iff. intros y Hy. apply Habsent, Hin, Hy. }
    pose proof (update_rows_raises w4 followed Hfollow4 Hidx) as Hrows.
    assert (Hframe_run : run_frame input w2
              = Uncaught ValueError
                  (with_ui w4 (set_rows (rows_of (data (ui w4))) (ui w4)))).
    { apply (run_frame_uncaught input w2 w3); [exact Hdrain|].
      rewrite Hfetch.
      exact (refresh_frame_raises _ _ w3 w4 _ _ Hframe Hdata Hrows). }
    eexists. split; [exact (Hrun _ _ Hframe_run)|].
    intros w4' Hw4'. inversion Hw4'; subst w4'.
    eexists. split; [exact Hrows|]. split; [exact Hframe_run|reflexivity].
  - assert (Hframe_run : run_frame input w2 = Uncaught e w4).
    { apply (run_frame_uncaught input w2 w3); [exact Hdrain|].
      rewrite Hfetch.
      exact (refresh_frame_fetch_raises _ _ w3 w4 _ Hframe Hdata). }
    eexists. split; [exact (Hrun _ _ Hframe_run)|].
    intros w4' Hw4'. discriminate Hw4'.
Qed.

(** ** Properties of the column bounds *)

Lemma set_screen_bounds (w : World) (screen_dimensions : Z * Z) :
  exists w',
    set_screen screen_dimensions w = Returned tt w'
    /\ bounds (ui w') = bounds_for (snd screen_dimensions)
    /\ height (ui w') = fst screen_dimensions
    /\ width (ui w') = snd screen_dimensions.
Proof.
  destruct (set_screen screen_dimensions w) as [[] w'|e w'] eqn:E;
    vm_compute in E; inversion E; subst w'.
  eexists. split; [reflexivity|]. repeat split.
Qed.

Lemma increasing_bounds_for (width : Z) :
  increasing (bounds_for width) = (85 <=? width).
Proof.
  unfold bounds_for. cbn [increasing fst snd].
  destruct (85 <=? width); reflexivity.
Qed.

Ltac decide_leb :=
  repeat match goal with
    | |- context [?a <=? ?b] =>
        first [ rewrite (proj2 (Z.leb_le a b)) by lia
              | rewrite (proj2 (Z.leb_gt a b)) by lia ]
    end.

Lemma bounds_hit_test (width x : Z) :
  0 <= x <= Z.max 84 width ->
  exists i,
    column_at (bounds_for width) 0 x = Some i
    /\ columns_containing (bounds_for width) 0 x = [i].
Proof.
  intros Hx. unfold bounds_for, column_at, columns_containing. cbn [fst snd].
  assert (Hcase : x <= 16 \/ 17 <= x <= 26 \/ 27 <= x <= 35 \/ 36 <= x <= 47
                  \/ 48 <= x <= 61 \/ 62 <= x <= 75 \/ 76 <= x <= 84
                  \/ 85 <= x) by lia.
  repeat (destruct Hcase as [Hcase|Hcase];
          [decide_leb; cbn; eexists; split; reflexivity|]).
  decide_leb; cbn; eexists; split; reflexivity.
Qed.

(** C8, as stated, fails on a terminal of 24 rows and 80 columns: the
    last pair is [(85, 80)], which ends before it starts. *)
Lemma bounds_on_80_columns_not_increasing :
  exists w',
    set_screen (24, 80) fresh = Returned tt w'
    /\ bounds (ui w')
       = [(0, 16); (17, 26); (27, 35); (36, 47); (48, 61); (62, 75); (76, 84);
          (85, 80)]
    /\ ~ increasing_bounds (bounds (ui w')).
Proof.
  exists (world_of (set_screen (24, 80) fresh)).
  split; [vm_compute; reflexivity|]. split; [vm_compute; reflexivity|].
  intros [_ H]. vm_compute in H. discriminate.
Qed.

(** C8, amended. After [set_screen], for any screen dimensions, the
    bounds are one pair per column, with both ends included, each pair
    starting one past the end of the pair before it; the list is
    increasing exactly when the screen is at least 85 cells wide (on a
    narrower one the last pair, [(85, width)], ends before it starts);
    and for every width, every position [x] from 0 to [max 84 width]
    lies in exactly one pair, whose index [get_column_at_x] returns. *)
Theorem set_screen_bounds_partition (w : World) (screen_dimensions : Z * Z) :
  exists w',
    set_screen screen_dimensions w = Returned tt w'
    /\ bounds (ui w') = bounds_for (snd screen_dimensions)
    /\ Py.len (bounds (ui w')) = Py.len columns_order
    /\ adjacent (bounds (ui w')) = true
    /\ (increasing (bounds (ui w')) = true <-> 85 <= snd screen_dimensions)
    /\ (forall x,
          0 <= x <= Z.max 84 (snd screen_dimensions) ->
          exists i,
            get_column_at_x x w' = Returned i w'
            /\ columns_containing (bounds (ui w')) 0 x = [i]).
Proof.
  destruct (set_screen_bounds w screen_dimensions) as [w' [Hrun [Hb _]]].
  exists w'. split; [exact Hrun|]. rewrite Hb.
  split; [reflexivity|]. split; [reflexivity|]. split; [reflexivity|].
  split.
  - rewrite increasing_bounds_for. apply Z.leb_le.
  - intros x Hx. destruct (bounds_hit_test _ x Hx) as [i [Hi Hc]].
    exists i. split; [|exact Hc].
    unfold get_column_at_x, bind, get. rewrite Hb, Hi. reflexivity.
Qed.

(** ** The properties on the sample states *)

Lemma scroll_writer_total_witness :
  let calls :=
    [ HorizontalScroll.Build_Call "GID " 0 0 (Screen.Triple (0, 0, 2));
      HorizontalScroll.Build_Call "STATUS " 1 0 (Screen.Triple (0, 0, 2));
      HorizontalScroll.Build_Call "NAME" 5 0 (Screen.PerChar []) ] in
  let trace :=
    HorizontalScroll.print_seq
      (HorizontalScroll.set_scroll (HorizontalScroll.init []) 6) calls in
  HorizontalScroll.total_written trace
  = Z.max 0 (HorizontalScroll.total_length calls - 6)
  /\ 0 <= HorizontalScroll.scroll
            (HorizontalScroll.set_scroll (HorizontalScroll.init []) 6)
  /\ Forall (fun r => 0 <= HorizontalScroll.scroll (snd r)) trace.
Proof.
  intros calls trace.
  apply (scroll_writer_total (HorizontalScroll.init []) 6 calls). lia.
Defined.

Lemma up_down_keep_focus_visible_witness :
  exists w',
    drain [KeyboardEvent Screen.KEY_DOWN; KeyboardEvent Screen.KEY_DOWN;
           KeyboardEvent Screen.KEY_UP] three_rows = Drained w'
    /\ state (ui w') = MAIN
    /\ 0 <= focused (ui w') < Py.len (rows (ui w'))
    /\ row_offset (ui w') <= focused (ui w')
       < row_offset (ui w') + height (ui w') - 1.
Proof.
  apply (up_down_keep_focus_visible _ three_rows).
  - reflexivity.
  - discriminate.
  - unfold focus_visible. vm_compute. repeat split; discriminate.
  - repeat constructor.
Defined.

Lemma event_errors_are_caught_witness :
  drain [MouseEvent 500 0 1; KeyboardEvent (Py.ord "I")] three_rows
  = drain [KeyboardEvent (Py.ord "I")] (logger_exception ValueError three_rows)
  /\ logged (logger_exception ValueError three_rows)
     = logged three_rows ++ [ValueError].
Proof.
  apply (proj1 (event_errors_are_caught
                  [MouseEvent 500 0 1; KeyboardEvent (Py.ord "I")] three_rows)
           [] (MouseEvent 500 0 1) [KeyboardEvent (Py.ord "I")]
           three_rows ValueError three_rows).
  - reflexivity.
  - reflexivity.
  - vm_compute. reflexivity.
  - discriminate.
Defined.

Lemma reverse_sort_twice_restores_order_witness :
  let w0 := world_of ((sort_data ;; update_rows) three_rows) in
  exists w2,
    (reverse_and_resort ;; reverse_and_resort) w0 = Returned tt w2
    /\ data (ui w2) = data (ui w0)
    /\ rows (ui w2) = rows (ui w0)
    /\ focused (ui w2) = focused (ui w0)
    /\ reverse (ui w2) = reverse (ui w0)
    /\ sort (ui w2) = sort (ui w0).
Proof.
  intros w0. apply (reverse_sort_twice_restores_order three_rows w0).
  - reflexivity.
  - vm_compute. reflexivity.
Defined.

Lemma toggle_resume_pause_commands_witness :
  let w' := world_of (process_event (KeyboardEvent (Py.ord " ")) three_rows) in
  sent w' = sent three_rows ++ toggle_commands task_a
  /\ ui w' = ui three_rows.
Proof.
  apply (toggle_resume_pause_commands three_rows (Py.ord " ") task_a);
    reflexivity.
Defined.

Lemma remove_ask_needs_focused_task_witness :
  let w' :=
    world_of (process_event (KeyboardEvent Screen.KEY_F9) fresh) in
  (state (ui w') = REMOVE_ASK
   <-> exists d, Py.getitem (data (ui fresh)) (focused (ui fresh)) = Some d)
  /\ (forall d, Py.getitem (data (ui fresh)) (focused (ui fresh)) = Some d ->
        follow (ui w') = Some d)
  /\ (Py.getitem (data (ui fresh)) (focused (ui fresh)) = None -> w' = fresh)
  /\ (0 <= focused (ui fresh) ->
        ((exists d, Py.getitem (data (ui fresh)) (focused (ui fresh)) = Some d)
         <-> focused (ui fresh) < Py.len (data (ui fresh)))).
Proof.
  apply (remove_ask_needs_focused_task fresh Screen.KEY_F9); reflexivity.
Defined.

Lemma select_sort_enter_commits_witness :
  exists w',
    process_event (KeyboardEvent 10) selecting_sort = Returned tt w'
    /\ sort (ui w') = side_focused (ui selecting_sort)
    /\ x_offset (ui w') = 0
    /\ state (ui w') = MAIN.
Proof.
  apply (select_sort_enter_commits selecting_sort 10); reflexivity.
Defined.

Lemma set_screen_bounds_partition_witness :
  exists w',
    set_screen (24, 120) fresh = Returned tt w'
    /\ bounds (ui w') = bounds_for 120
    /\ adjacent (bounds (ui w')) = true
    /\ exists i,
         get_column_at_x 100 w' = Returned i w'
         /\ columns_containing (bounds (ui w')) 0 100 = [i].
Proof.
  destruct (set_screen_bounds_partition fresh (24, 120))
    as [w' [H1 [H2 [_ [H4 [_ H6]]]]]].
  exists w'. repeat split; try assumption.
  apply H6. cbn. lia.
Defined.

Lemma lost_follow_fails_run_witness :
  exists w',
    run [mkSession (24, 80) ([] ++ mkFrameInput [] (Some [task_b]) :: [])]
      following_a
    = Finished false w'
    /\ (forall w4,
          update_data (Some [task_b])
            (with_ui (world_of (set_screen (24, 80) following_a))
               (set_refresh false
                  (set_frame 0
                     (ui (world_of (set_screen (24, 80) following_a))))))
          = Returned tt w4 ->
          exists w5,
            update_rows w4 = Raised ValueError w5
            /\ run_frame (mkFrameInput [] (Some [task_b]))
                 (world_of
                    ((set_screen (24, 80) ;; modify (set_frame 0)) following_a))
               = Uncaught ValueError w5
            /\ w' = logger_exception ValueError w5).
Proof.
  apply (lost_follow_fails_run following_a
           (world_of ((set_screen (24, 80) ;; modify (set_frame 0)) following_a))
           (world_of ((set_screen (24, 80) ;; modify (set_frame 0)) following_a))
           (with_ui (world_of (set_screen (24, 80) following_a))
              (set_refresh false
                 (set_frame 0
                    (ui (world_of (set_screen (24, 80) following_a))))))
           (24, 80) [] [] (mkFrameInput [] (Some [task_b])) [] task_a
           [task_b]).
  - vm_compute. reflexivity.
  - reflexivity.
  - vm_compute. reflexivity.
  - vm_compute. reflexivity.
  - vm_compute. reflexivity.
  - reflexivity.
  - intros task [<-|[]]. vm_compute. reflexivity.
Defined.

(** On that run the error the outermost handler logs is the
    [ValueError]. *)
Example lost_follow_run_logs_ValueError :
  match run [mkSession (24, 80) [mkFrameInput [] (Some [task_b])]] following_a
  with
  | Finished result w' => result = false /\ logged w' = [ValueError]
  | Running _ => False
  end.
Proof. vm_compute. split; reflexivity. Qed.

Lemma click_on_empty_rows_focuses_minus_one_witness :
  exists w',
    process_event (MouseEvent 3 5 1) fresh = Returned tt w'
    /\ focused (ui w')
       = Z.min (5 - 1 + row_offset (ui fresh)) (Py.len (rows (ui fresh)) - 1)
    /\ focused (ui w') = -1.
Proof.
  apply (click_on_empty_rows_focuses_minus_one fresh 3 5 1).
  - reflexivity.
  - discriminate.
  - lia.
  - reflexivity.
  - reflexivity.
Defined.

(** ** Further properties of the render loop *)

Lemma column_at_range (bounds : list (Z * Z)) :
  forall i0 x i, column_at bounds i0 x = Some i -> i0 <= i < i0 + Py.len bounds.
Proof.
  induction bounds as [|b rest IH]; intros i0 x i H; cbn [column_at] in H.
  - discriminate.
  - unfold Py.len in *. cbn [List.length]. 
    destruct ((fst b <=? x) && (x <=? snd b)).
    + inversion H; subst. lia.
    + apply IH in H. lia.
Qed.

Ltac bool_to_Z :=
  repeat match goal with
    | H : context [(_ >? _)] |- _ => rewrite Z.gtb_ltb in H
    | H : context [(_ >=? _)] |- _ => rewrite Z.geb_leb in H
    | H : (_ <? _) = true |- _ => apply Z.ltb_lt in H
    | H : (_ <? _) = false |- _ => apply Z.ltb_ge in H
    | H : (_ <=? _) = true |- _ => apply Z.leb_le in H
    | H : (_ <=? _) = false |- _ => apply Z.leb_gt in H
    | H : (_ =? _) = true |- _ => apply Z.eqb_eq in H
    | H : (_ =? _) = false |- _ => apply Z.eqb_neq in H
    end.

Ltac split_cases :=
  repeat match goal with
    | |- context [if ?b then _ else _] => destruct b eqn:?
    | |- context [match ?o with Some _ => _ | None => _ end] =>
        destruct o eqn:?
    end.

Ltac run_handler :=
  unfold follow_focused, focused_download, get_column_at_x;
  unfold bind, get, modify, when, ret, raise, call, lookup_or;
  cbn [ui world_of].

Ltac finish_view :=
  repeat (progress (split_cases; cbn in *)); unfold view_ok; cbn in *;
  bool_to_Z;
  repeat split; try assumption; try lia; try (intros; congruence);
  try discriminate.

Lemma main_key_keeps_view (key_code : Z) (w : World) :
  state (ui w) = MAIN ->
  view_ok (ui w) ->
  view_ok (ui (world_of (process_keyboard_event_main key_code w))).
Proof.
  intros Hst [Hsort [Hx [Hside Hb]]].
  unfold process_keyboard_event_main.
  repeat match goal with
    | |- context [if key_in ?k ?l then _ else _] => destruct (key_in k l)
    end.
  all: run_handler.
  all: try finish_view.
Qed.

Lemma help_key_keeps_view (key_code : Z) (w : World) :
  state (ui w) = HELP ->
  view_ok (ui w) ->
  view_ok (ui (world_of (process_keyboard_event_help key_code w))).
Proof.
  intros Hst [Hsort [Hx [Hside Hb]]].
  unfold process_keyboard_event_help. run_handler. finish_view.
Qed.

Lemma remove_ask_key_keeps_view (key_code : Z) (w : World) :
  state (ui w) = REMOVE_ASK ->
  view_ok (ui w) ->
  view_ok (ui (world_of (process_keyboard_event_remove_ask key_code w))).
Proof.
  intros Hst [Hsort [Hx [Hside Hb]]].
  unfold process_keyboard_event_remove_ask.
  repeat match goal with
    | |- context [if key_in ?k ?l then _ else _] => destruct (key_in k l)
    end.
  all: run_handler.
  all: finish_view.
Qed.

Lemma select_sort_key_keeps_view (key_code : Z) (w : World) :
  state (ui w) = SELECT_SORT ->
  view_ok (ui w) ->
  view_ok (ui (world_of (process_keyboard_event_select_sort key_code w))).
Proof.
  intros Hst [Hsort [Hx [Hside Hb]]]. specialize (Hside Hst).
  unfold process_keyboard_event_select_sort.
  repeat match goal with
    | |- context [if key_in ?k ?l then _ else _] => destruct (key_in k l)
    end.
  all: run_handler.
  all: finish_view.
Qed.

Lemma main_mouse_keeps_view (x y buttons : Z) (w : World) :
  state (ui w) = MAIN ->
  view_ok (ui w) ->
  view_ok (ui (world_of (process_mouse_event_main x y buttons w))).
Proof.
  intros Hst [Hsort [Hx [Hside Hb]]].
  unfold process_mouse_event_main. run_handler.
  destruct (negb (Z.land buttons LEFT_CLICK =? 0)); [|finish_view].
  destruct (y =? 0); [|finish_view].
  destruct (column_at (bounds (ui w)) 0 x) as [i|] eqn:Hi; [|finish_view].
  rewrite Hb in Hi. apply column_at_range in Hi. cbn in Hi.
  finish_view.
Qed.

Lemma event_keeps_view (event : Event) (w : World) :
  view_ok (ui w) -> view_ok (ui (world_of (process_event event w))).
Proof.
  intros Hok. destruct event as [key_code|x y buttons]; cbn [process_event].
  - unfold process_keyboard_event, bind, get.
    destruct (state (ui w)) eqn:Hst.
    + apply main_key_keeps_view; assumption.
    + apply help_key_keeps_view; assumption.
    + exact Hok.
    + apply remove_ask_key_keeps_view; assumption.
    + apply select_sort_key_keeps_view; assumption.
  - unfold process_mouse_event, bind, get.
    destruct (state (ui w)) eqn:Hst; try exact Hok.
    apply main_mouse_keeps_view; assumption.
Qed.

Lemma drain_step (event : Event) (rest : list Event) (w : World) :
  drain (event :: rest) w = Exited (world_of (process_event event w))
  \/ (exists error,
        drain (event :: rest) w
        = drain rest (logger_exception error (world_of (process_event event w))))
  \/ drain (event :: rest) w = drain rest (world_of (process_event event w)).
Proof.
  cbn [drain]. destruct (process_event event w) as [[] w'|e w']; cbn [world_of].
  - right. right. reflexivity.
  - destruct e; first [left; reflexivity | right; left; eexists; reflexivity].
Qed.

Lemma drain_keeps_view (queue : list Event) :
  forall w : World,
    view_ok (ui w) -> view_ok (ui (drained (drain queue w))).
Proof.
  induction queue as [|event rest IH]; intros w Hok.
  - exact Hok.
  - pose proof (event_keeps_view event w Hok) as Hstep.
    destruct (drain_step event rest w) as [H|[[e H]|H]]; rewrite H.
    + exact Hstep.
    + apply IH. exact Hstep.
    + apply IH. exact Hstep.
Qed.

Lemma same_tables_refl (w : World) : same_tables w w.
Proof. unfold same_tables. tauto. Qed.

Lemma same_tables_trans (w1 w2 w3 : World) :
  same_tables w1 w2 -> same_tables w2 w3 -> same_tables w1 w3.
Proof.
  unfold same_tables. intros H1 H2.
  destruct H1 as [A1 [B1 [C1 [D1 [E1 [F1 G1]]]]]].
  destruct H2 as [A2 [B2 [C2 [D2 [E2 [F2 G2]]]]]].
  repeat split; try congruence.
  destruct G2 as [G2|G2]; [rewrite G2; exact G1 | right; exact G2].
Qed.

Ltac finish_tables :=
  repeat (progress (split_cases; cbn in *)); unfold same_tables; cbn;
  repeat split; try reflexivity; auto.

Lemma event_keeps_tables (event : Event) (w : World) :
  same_tables w (world_of (process_event event w)).
Proof.
  destruct event as [key_code|x y buttons]; cbn [process_event].
  - unfold process_keyboard_event, bind, get.
    destruct (state (ui w)).
    + unfold process_keyboard_event_main.
      repeat match goal with
        | |- context [if key_in ?k ?l then _ else _] => destruct (key_in k l)
        end.
      all: run_handler.
      all: finish_tables.
    + unfold process_keyboard_event_help. run_handler. finish_tables.
    + apply same_tables_refl.
    + unfold process_keyboard_event_remove_ask.
      repeat match goal with
        | |- context [if key_in ?k ?l then _ else _] => destruct (key_in k l)
        end.
      all: run_handler.
      all: finish_tables.
    + unfold process_keyboard_event_select_sort.
      repeat match goal with
        | |- context [if key_in ?k ?l then _ else _] => destruct (key_in k l)
        end.
      all: run_handler.
      all: finish_tables.
  - unfold process_mouse_event, bind, get.
    destruct (state (ui w)); try apply same_tables_refl.
    unfold process_mouse_event_main. run_handler. finish_tables.
Qed.

Lemma drain_keeps_tables (queue : list Event) :
  forall w : World, same_tables w (drained (drain queue w)).
Proof.
  induction queue as [|event rest IH]; intros w.
  - apply same_tables_refl.
  - pose proof (event_keeps_tables event w) as Hstep.
    destruct (drain_step event rest w) as [H|[[e H]|H]]; rewrite H.
    + exact Hstep.
    + eapply same_tables_trans; [exact Hstep|].
      apply (IH (logger_exception e (world_of (process_event event w)))).
    + eapply same_tables_trans; [exact Hstep|]. apply IH.
Qed.

Lemma refreshed_refl (w : World) : refreshed w w.
Proof. unfold refreshed. repeat split. Qed.

Lemma refreshed_trans (w1 w2 w3 : World) :
  refreshed w1 w2 -> refreshed w2 w3 -> refreshed w1 w3.
Proof.
  unfold refreshed. intros H1 H2.
  repeat match goal with H : _ /\ _ |- _ => destruct H end.
  repeat split; congruence.
Qed.

Lemma refreshes_bind {A B} (m : M A) (k : A -> M B) :
  only_refreshes m -> (forall a, only_refreshes (k a)) ->
  only_refreshes (bind m k).
Proof.
  intros Hm Hk w. unfold bind. specialize (Hm w).
  destruct (m w) as [a w1|e w1]; cbn [world_of] in *.
  - exact (refreshed_trans _ _ _ Hm (Hk a w1)).
  - exact Hm.
Qed.

Lemma refreshes_ret {A} (a : A) : only_refreshes (ret a).
Proof. intros w. apply refreshed_refl. Qed.

Lemma refreshes_get : only_refreshes get.
Proof. intros w. apply refreshed_refl. Qed.

Lemma refreshes_lookup_or {A} (e : Exn) (o : option A) :
  only_refreshes (lookup_or e o).
Proof. intros w. destruct o; apply refreshed_refl. Qed.

Lemma refreshes_when (b : bool) (m : M unit) :
  only_refreshes m -> only_refreshes (when b m).
Proof. intros Hm. destruct b; [exact Hm | apply refreshes_ret]. Qed.

Lemma refreshes_set_data d : only_refreshes (modify (set_data d)).
Proof. intros w. unfold refreshed. cbn. repeat split. Qed.

Lemma refreshes_set_rows f :
  only_refreshes (modify (fun self => set_rows (f self) self)).
Proof. intros w. unfold refreshed. cbn. repeat split. Qed.

Lemma refreshes_set_focused i : only_refreshes (modify (set_focused i)).
Proof. intros w. unfold refreshed. cbn. repeat split. Qed.

Lemma refreshes_set_refresh b : only_refreshes (modify (set_refresh b)).
Proof. intros w. unfold refreshed. cbn. repeat split. Qed.

Lemma refreshes_set_frame f :
  only_refreshes (modify (fun self => set_frame (f self) self)).
Proof. intros w. unfold refreshed. cbn. repeat split. Qed.

Ltac refreshes :=
  repeat first
    [ apply refreshes_ret | apply refreshes_get | apply refreshes_lookup_or
    | apply refreshes_set_data | apply refreshes_set_rows
    | apply refreshes_set_focused | apply refreshes_set_refresh
    | apply refreshes_set_frame
    | apply refreshes_when
    | apply refreshes_bind; [|intros ?]
    | assumption
    | match goal with
      | |- only_refreshes (match ?o with Some _ => _ | None => _ end) =>
          destruct o
      end ].

Lemma sort_data_only_refreshes : only_refreshes sort_data.
Proof. unfold sort_data. refreshes. Qed.

Lemma update_rows_only_refreshes : only_refreshes update_rows.
Proof. unfold update_rows. refreshes. Qed.

Lemma update_data_only_refreshes downloads :
  only_refreshes (update_data downloads).
Proof.
  unfold update_data. pose proof sort_data_only_refreshes. refreshes.
Qed.

Lemma refresh_frame_only_refreshes previous_sort downloads :
  only_refreshes (refresh_frame previous_sort downloads).
Proof.
  unfold refresh_frame.
  pose proof sort_data_only_refreshes. pose proof update_rows_only_refreshes.
  pose proof (update_data_only_refreshes downloads).
  refreshes.
Qed.

Lemma update_rows_syncs (w : World) :
  rows_in_sync (ui (world_of (update_rows w))).
Proof.
  rewrite update_rows_spec. cbv zeta.
  destruct (follow (ui w)) as [d|]; [|reflexivity].
  destruct (Py.index Download.eqb (data (ui w)) d); reflexivity.
Qed.

Lemma then_update_rows_syncs {A} (m : M A) (k : M unit) (w w' : World) :
  (forall w1 w2, k w1 = Returned tt w2 ->
     rows (ui w2) = rows (ui w1) /\ data (ui w2) = data (ui w1)) ->
  (m ;; update_rows ;; k) w = Returned tt w' ->
  rows_in_sync (ui w').
Proof.
  intros Hk. unfold bind.
  destruct (m w) as [a w1|]; [|discriminate].
  pose proof (update_rows_syncs w1) as Hs.
  destruct (update_rows w1) as [[] w2|]; [|discriminate].
  intros H. destruct (Hk _ _ H) as [Hr Hd].
  unfold rows_in_sync in *. cbn [world_of] in Hs. congruence.
Qed.

Lemma refresh_frame_keeps_sync previous_sort downloads (w w' : World) :
  refresh_frame previous_sort downloads w = Returned tt w' ->
  rows_in_sync (ui w) \/ frame (ui w) = 0 ->
  rows_in_sync (ui w').
Proof.
  unfold refresh_frame.
  unfold bind at 1. unfold get at 1. unfold bind at 1.
  intros H Hstart.
  assert (Hfirst : forall w1,
            when (frame (ui w) =? 0)
              (update_data downloads ;; update_rows ;;
               modify (set_refresh true)) w = Returned tt w1 ->
            rows_in_sync (ui w1)).
  { intros w1. unfold when. destruct (Z.eqb_spec (frame (ui w)) 0) as [E|N].
    - apply then_update_rows_syncs. intros wa wb Hm. inversion Hm. cbn. auto.
    - intros Hr. inversion Hr; subst w1. destruct Hstart; [assumption|lia]. }
  destruct (when (frame (ui w) =? 0) _ w) as [[] w1|] eqn:E1; [|discriminate].
  specialize (Hfirst w1 eq_refl).
  unfold bind at 1 in H. unfold get at 1 in H. unfold bind at 1 in H.
  assert (Hsecond : forall w2,
            when (refresh (ui w1))
              (when (negb ((sort (ui w1) =? fst previous_sort)
                           && Bool.eqb (reverse (ui w1)) (snd previous_sort))
                     && negb (frame (ui w1) =? 0))
                 (sort_data ;; update_rows)) w1 = Returned tt w2 ->
            rows_in_sync (ui w2)).
  { intros w2. unfold when.
    destruct (refresh (ui w1));
      [|intros Hr; inversion Hr; subst; assumption].
    destruct (negb _ && negb _);
      [|intros Hr; inversion Hr; subst; assumption].
    intros Hr.
    apply (then_update_rows_syncs sort_data (ret tt) w1 w2).
    - intros wa wb Hm. inversion Hm. auto.
    - unfold bind in *. destruct (sort_data w1) as [[] wa|]; [|discriminate].
      destruct (update_rows wa) as [[] wb|]; [|discriminate]. exact Hr. }
  destruct (when (refresh (ui w1)) _ w1) as [[] w2|] eqn:E2; [|discriminate].
  specialize (Hsecond w2 eq_refl).
  inversion H; subst w'. exact Hsecond.
Qed.

Lemma refresh_frame_counts previous_sort downloads (w w' : World) :
  refresh_frame previous_sort downloads w = Returned tt w' ->
  0 <= frame (ui w') < frames.
Proof.
  unfold refresh_frame.
  unfold bind at 1. unfold get at 1. unfold bind at 1.
  destruct (when (frame (ui w) =? 0) _ w) as [[] w1|]; [|discriminate].
  unfold bind at 1. unfold get at 1. unfold bind at 1.
  destruct (when (refresh (ui w1)) _ w1) as [[] w2|]; [|discriminate].
  intros H. inversion H; subst w'. cbn.
  apply Z.mod_pos_bound. reflexivity.
Qed.

Lemma refreshed_keeps_view (w w' : World) :
  refreshed w w' -> view_ok (ui w) -> view_ok (ui w').
Proof.
  unfold refreshed, view_ok. intros H Hok.
  repeat match goal with H : _ /\ _ |- _ => destruct H end.
  repeat match goal with
    | H : _ (ui w') = _ (ui w) |- _ => rewrite H
    end.
  tauto.
Qed.

Lemma run_frame_continue (input : FrameInput) (w w' : World) :
  run_frame input w = Continue w' ->
  exists w2,
    drain (pending input) (with_ui w (set_refresh false (ui w))) = Drained w2
    /\ refresh_frame (sort (ui w), reverse (ui w)) (downloads input) w2
       = Returned tt w'.
Proof.
  unfold run_frame.
  change (modify (set_refresh false) w)
    with (Returned tt (with_ui w (set_refresh false (ui w)))).
  cbv beta iota zeta.
  destruct (drain (pending input) _) as [|w2]; [discriminate|].
  destruct (refresh_frame _ _ w2) as [[] w3|] eqn:E; [|discriminate].
  intros H. inversion H; subst. eauto.
Qed.

Lemma view_ok_set_refresh (b : bool) (self : Interface.t) :
  view_ok self -> view_ok (set_refresh b self).
Proof. intros H. exact H. Qed.

Lemma frame_keeps_invariants_lemma (input : FrameInput) (w w' : World) :
  frame_ok (ui w) ->
  run_frame input w = Continue w' ->
  frame_ok (ui w').
Proof.
  intros [Hview [Hframe Hsync]] Hrun.
  destruct (run_frame_continue _ _ _ Hrun) as [w2 [Hdrain Hrefresh]].
  pose proof (drain_keeps_view (pending input)
                (with_ui w (set_refresh false (ui w)))
                (view_ok_set_refresh false _ Hview)) as Hview2.
  pose proof (drain_keeps_tables (pending input)
                (with_ui w (set_refresh false (ui w)))) as Htab.
  rewrite Hdrain in Hview2, Htab. cbn [drained] in Hview2, Htab.
  destruct Htab as [Hd [Hr _]]. cbn in Hd, Hr.
  split; [|split].
  - apply (refreshed_keeps_view w2 w'); [|exact Hview2].
    pose proof (refresh_frame_only_refreshes (sort (ui w), reverse (ui w))
                  (downloads input) w2) as H.
    rewrite Hrefresh in H. exact H.
  - exact (refresh_frame_counts _ _ _ _ Hrefresh).
  - apply (refresh_frame_keeps_sync _ _ _ _ Hrefresh). left.
    unfold rows_in_sync in *. congruence.
Qed.

Lemma set_screen_spec (w : World) (screen_dimensions : Z * Z) :
  set_screen screen_dimensions w
  = Returned tt
      (with_ui w
         (set_bounds (bounds_for (snd screen_dimensions))
            (set_scroller (Some (HorizontalScroll.init []))
               (set_width (snd screen_dimensions)
                  (set_height (fst screen_dimensions) (ui w)))))).
Proof. vm_compute. reflexivity. Qed.

Lemma frame_ok_start (self : Interface.t) :
  frame_ok self -> start_ok self.
Proof. unfold frame_ok, start_ok, view_ok. tauto. Qed.

Lemma run_frames_keep_invariants (inputs : list FrameInput) :
  forall w w',
    frame_ok (ui w) -> run_frames inputs w = Running w' -> frame_ok (ui w').
Proof.
  induction inputs as [|input rest IH]; intros w w' Hok; cbn [run_frames].
  - intros H. inversion H; subst. exact Hok.
  - destruct (run_frame input w) as [w1| |] eqn:E; try discriminate.
    apply IH. exact (frame_keeps_invariants_lemma input w w1 Hok E).
Qed.

Lemma session_start_ok (w w1 : World) (screen_dimensions : Z * Z) :
  start_ok (ui w) ->
  (set_screen screen_dimensions ;; modify (set_frame 0)) w = Returned tt w1 ->
  frame_ok (ui w1).
Proof.
  intros [Hsort [Hx [Hside Hsync]]]. unfold bind.
  rewrite set_screen_spec. intros H. inversion H; subst w1. cbn.
  unfold frame_ok, view_ok, rows_in_sync in *. cbn.
  repeat split; try tauto; try lia; try reflexivity; try apply Hside.
Qed.

(** X1. Whatever the screens, the events and the fetched task lists,
    while [run] is running the frame invariant holds at the end of every
    frame, provided the interface was started with a sort index from 0
    to 7, a non-negative scroll, rows in step with the task list and, in
    Select-sort mode, a side-panel focus on one of the eight entries: the
    sort index stays in that range, the scroll stays non-negative, the
    bounds are those of the current width, the frame counter is from 0
    to 199 and the rows are those of the task list. *)
Theorem run_keeps_invariants (sessions : list Session) :
  forall (session : Session) (w w' : World),
    start_ok (ui w) ->
    run (session :: sessions) w = Running w' ->
    frame_ok (ui w').
Proof.
  induction sessions as [|next rest IH]; intros session w w' Hok;
    cbn [run];
    destruct ((set_screen (dimensions session) ;; modify (set_frame 0)) w)
      as [[] w1|] eqn:E; try discriminate;
    pose proof (session_start_ok _ _ _ Hok E) as Hok1;
    destruct (run_frames (frame_inputs session) w1) as [|w2] eqn:E2;
    try discriminate;
    pose proof (run_frames_keep_invariants _ _ _ Hok1 E2) as Hok2.
  - intros H. inversion H; subst. exact Hok2.
  - intros H. apply (IH next w2 w'); [apply frame_ok_start; exact Hok2|].
    exact H.
Qed.

(** X2. The events of a frame, however many and whatever they are, and
    whether they end with [Exit] or not, never touch the task list, its
    rows, the width, the height, the bounds or the vertical offset; the
    frame counter is kept or reset to 0. *)
Theorem events_never_touch_tables (queue : list Event) (w : World) :
  same_tables w (drained (drain queue w)).
Proof. exact (drain_keeps_tables queue w). Qed.

(** X3. The refresh of a frame, whether it returns or raises, changes
    nothing but the task list, its rows, the focus index, the refresh
    flag and the frame counter: mode, sort column and direction, scroll,
    offsets, followed task and bounds stay, no command is sent and
    nothing is logged. *)
Theorem refresh_only_rebuilds_table (previous_sort : Z * bool)
    (downloads : option (list Download.t)) (w : World) :
  refreshed w (world_of (refresh_frame previous_sort downloads w)).
Proof. exact (refresh_frame_only_refreshes previous_sort downloads w). Qed.

Section SortedOrder.
Context {A K : Type}.
Variable lt : K -> K -> bool.
Variable key : A -> K.
Hypothesis lt_asym : forall a b, lt a b = true -> lt b a = false.
Hypothesis lt_negtrans :
  forall a b c, lt a b = false -> lt b c = false -> lt a c = false.

Lemma insert_permutation (x : A) (l : list A) :
  Permutation (Py.insert lt key x l) (x :: l).
Proof.
  induction l as [|y l' IH]; cbn.
  - reflexivity.
  - destruct (lt (key y) (key x)); [|reflexivity].
    rewrite IH. apply perm_swap.
Qed.

Lemma stable_sort_permutation (l : list A) :
  Permutation (Py.stable_sort lt key l) l.
Proof.
  induction l as [|x l' IH]; cbn.
  - reflexivity.
  - fold (Py.stable_sort lt key l'). rewrite insert_permutation.
    constructor. exact IH.
Qed.

Lemma sorted_permutation (l : list A) (reverse : bool) :
  Permutation (Py.sorted lt key l reverse) l.
Proof.
  unfold Py.sorted. destruct reverse.
  - rewrite <- Permutation_rev, stable_sort_permutation.
    symmetry. apply Permutation_rev.
  - apply stable_sort_permutation.
Qed.

Lemma StronglySorted_snoc (R : A -> A -> Prop) (l : list A) (a : A) :
  StronglySorted R l -> Forall (fun x => R x a) l ->
  StronglySorted R (l ++ [a]).
Proof.
  intros Hl. induction Hl as [|x l' Hl' IH Hx]; intros Ha; cbn.
  - repeat constructor.
  - inversion Ha; subst. constructor; [apply IH; assumption|].
    apply Forall_app. split; [exact Hx | repeat constructor; assumption].
Qed.

Lemma StronglySorted_rev (R : A -> A -> Prop) (l : list A) :
  StronglySorted R l -> StronglySorted (fun x y => R y x) (rev l).
Proof.
  intros Hl. induction Hl as [|x l' Hl' IH Hx]; cbn.
  - constructor.
  - apply StronglySorted_snoc; [exact IH|].
    apply Forall_rev. exact Hx.
Qed.

Lemma sorted_in_order (l : list A) (reverse : bool) :
  StronglySorted (in_order lt key reverse) (Py.sorted lt key l reverse).
Proof.
  unfold Py.sorted, in_order. destruct reverse.
  - apply (StronglySorted_rev (key_le lt key)).
    apply stable_sort_sorted; assumption.
  - apply stable_sort_sorted; assumption.
Qed.

End SortedOrder.

Lemma columns_order_lookup (i : Z) :
  0 <= i < Py.len columns_order ->
  exists column_name column,
    Py.getitem columns_order i = Some column_name
    /\ columns column_name = Some column.
Proof.
  cbn. intros H.
  assert (Hi : i = 0 \/ i = 1 \/ i = 2 \/ i = 3 \/ i = 4 \/ i = 5 \/ i = 6
               \/ i = 7) by lia.
  repeat (destruct Hi as [->|Hi]; [do 2 eexists; split; reflexivity|]).
  subst. do 2 eexists; split; reflexivity.
Qed.

Lemma getitem_out_of_range {A} (l : list A) (i : Z) :
  i < - Py.len l \/ Py.len l <= i -> Py.getitem l i = None.
Proof.
  intros H. unfold Py.getitem.
  destruct (Z.leb_spec 0 i), (Z.ltb_spec i (Py.len l)),
    (Z.leb_spec (- Py.len l) i), (Z.ltb_spec i 0); cbn [andb];
    try reflexivity; unfold Py.len in *; lia.
Qed.

(** X4. [sort_data] with a valid sort index keeps the tasks and orders them
    by the key of the sort column; with an index outside [-8 .. 7] it
    raises and leaves the task list as it was. *)
Theorem sort_data_orders (w : World) :
  (0 <= sort (ui w) < Py.len columns_order ->
   exists column_name column w',
     Py.getitem columns_order (sort (ui w)) = Some column_name
     /\ columns column_name = Some column
     /\ sort_data w = Returned tt w'
     /\ w' = with_ui w (set_data (data (ui w')) (ui w))
     /\ Permutation (data (ui w')) (data (ui w))
     /\ StronglySorted
          (in_order (sort_lt column) (get_sort column) (reverse (ui w)))
          (data (ui w')))
  /\ (sort (ui w) < - Py.len columns_order
      \/ Py.len columns_order <= sort (ui w) ->
      sort_data w = Raised IndexError w).
Proof.
  split.
  - intros Hsort.
    destruct (columns_order_lookup _ Hsort) as [n [c [Hn Hc]]].
    destruct (columns_strict_weak n c Hc) as [Hasym Hneg].
    exists n, c. eexists. split; [exact Hn|]. split; [exact Hc|].
    split; [exact (sort_data_spec w n c Hn Hc)|]. cbn.
    split; [reflexivity|].
    split; [apply sorted_permutation | apply sorted_in_order; assumption].
  - intros Hout. unfold sort_data, bind, get, lookup_or.
    rewrite (getitem_out_of_range _ _ Hout). reflexivity.
Qed.

Lemma getitem_cons_succ {A} (y : A) (l : list A) (i : Z) :
  0 <= i -> Py.getitem (y :: l) (i + 1) = Py.getitem l i.
Proof.
  intros Hi. unfold Py.getitem.
  replace (Py.len (y :: l)) with (Py.len l + 1)
    by (unfold Py.len; cbn [List.length]; lia).
  assert (Hlen : 0 <= Py.len l) by (unfold Py.len; lia).
  destruct (Z.leb_spec 0 (i + 1)); [|lia].
  destruct (Z.leb_spec 0 i); [|lia]. cbn [andb].
  destruct (Z.ltb_spec (i + 1) (Py.len l + 1)),
    (Z.ltb_spec i (Py.len l)); try lia.
  - replace (Z.to_nat (i + 1)) with (S (Z.to_nat i)) by lia. reflexivity.
  - destruct (Z.ltb_spec (i + 1) 0), (Z.ltb_spec i 0); try lia.
    rewrite !andb_false_r. reflexivity.
Qed.

Lemma index_Some_first {A} (eqb : A -> A -> bool) (x : A) (l : list A) :
  forall i,
    Py.index eqb l x = Some i ->
    0 <= i < Py.len l
    /\ (exists y, Py.getitem l i = Some y /\ eqb y x = true)
    /\ (forall j z, 0 <= j < i -> Py.getitem l j = Some z -> eqb z x = false).
Proof.
  induction l as [|y l' IH]; intros i H; cbn [Py.index] in H.
  - discriminate.
  - assert (Hlen : Py.len (y :: l') = Py.len l' + 1)
      by (unfold Py.len; cbn [List.length]; lia).
    assert (Hpos : 0 <= Py.len l') by (unfold Py.len; lia).
    destruct (eqb y x) eqn:E.
    + inversion H; subst i. split; [lia|]. split.
      * exists y. split; [reflexivity | exact E].
      * intros j z Hj. lia.
    + destruct (Py.index eqb l' x) as [k|]; [|discriminate].
      inversion H; subst i.
      destruct (IH k eq_refl) as [Hk [[z [Hz Ez]] Hfirst]].
      split; [lia|]. split.
      * exists z. rewrite getitem_cons_succ by lia. auto.
      * intros j z' Hj Hz'.
        destruct (Z.eq_dec j 0) as [->|Hj0].
        -- cbn in Hz'. inversion Hz'; subst. exact E.
        -- replace j with ((j - 1) + 1) in Hz' by lia.
           rewrite getitem_cons_succ in Hz' by lia.
           apply (Hfirst (j - 1) z'); [lia | exact Hz'].
Qed.

Lemma rows_of_shape (data : list Download.t) :
  Py.len (rows_of data) = Py.len data
  /\ Forall (fun row => Py.len row = Py.len columns_order) (rows_of data).
Proof.
  unfold rows_of, Py.len. rewrite length_map. split; [reflexivity|].
  apply Forall_forall. intros row Hrow. apply in_map_iff in Hrow.
  destruct Hrow as [d [<- _]]. reflexivity.
Qed.

(** X5. [update_rows] rebuilds one row of eight cells per task, in the order
    of the task list, and leaves the list alone.  With nothing followed
    it keeps the focus index.  With a followed task it moves the focus
    to the first task equal to it, or, when there is none, raises after
    the rows are rebuilt and keeps the focus index. *)
Theorem update_rows_follows (w : World) :
  let w' := world_of (update_rows w) in
  rows (ui w') = rows_of (data (ui w))
  /\ Py.len (rows (ui w')) = Py.len (data (ui w))
  /\ Forall (fun row => Py.len row = Py.len columns_order) (rows (ui w'))
  /\ data (ui w') = data (ui w)
  /\ match follow (ui w) with
     | None => update_rows w = Returned tt w' /\ focused (ui w') = focused (ui w)
     | Some followed =>
         (update_rows w = Returned tt w'
          /\ 0 <= focused (ui w') < Py.len (data (ui w))
          /\ (exists task,
                Py.getitem (data (ui w)) (focused (ui w')) = Some task
                /\ Download.eqb task followed = true)
          /\ (forall j task,
                0 <= j < focused (ui w') ->
                Py.getitem (data (ui w)) j = Some task ->
                Download.eqb task followed = false))
         \/ (update_rows w = Raised ValueError w'
             /\ (forall task, In task (data (ui w)) ->
                   Download.eqb task followed = false)
             /\ focused (ui w') = focused (ui w))
     end.
Proof.
  cbv zeta. rewrite update_rows_spec. cbv zeta.
  destruct (rows_of_shape (data (ui w))) as [Hlen Hcells].
  destruct (follow (ui w)) as [d|] eqn:Hf.
  - destruct (Py.index Download.eqb (data (ui w)) d) as [i|] eqn:Hi; cbn.
    + repeat split; try assumption. left.
      destruct (index_Some_first _ _ _ _ Hi) as [H1 [H2 H3]].
      repeat split; try assumption; lia.
    + repeat split; try assumption. right.
      repeat split. apply index_None_iff. exact Hi.
  - cbn. repeat split; assumption.
Qed.

Lemma dispatch_key (key_code : Z) (w : World) :
  process_event (KeyboardEvent key_code) w
  = match state (ui w) with
    | MAIN => process_keyboard_event_main key_code w
    | HELP => process_keyboard_event_help key_code w
    | SETUP => process_keyboard_event_setup key_code w
    | REMOVE_ASK => process_keyboard_event_remove_ask key_code w
    | SELECT_SORT => process_keyboard_event_select_sort key_code w
    end.
Proof.
  unfold process_event, process_keyboard_event, bind, get.
  destruct (state (ui w)); reflexivity.
Qed.

Lemma dispatch_mouse (x y buttons : Z) (w : World) :
  process_event (MouseEvent x y buttons) w
  = match state (ui w) with
    | MAIN => process_mouse_event_main x y buttons w
    | _ => Returned tt w
    end.
Proof.
  unfold process_event, process_mouse_event, bind, get.
  destruct (state (ui w)); reflexivity.
Qed.

(** X6. In Remove-confirm mode, Enter with a followed task and the
    side-panel focus on entry [i] of the menu sends one removal, forced
    for [i >= 2] and with files for odd [i]; when the daemon accepts it
    the view drops the followed task, records the choice, returns to
    Main mode with offset 0 and frame 0, and when it fails the view is
    untouched.  A focus outside [-4 .. 3] raises before anything is
    sent.  With nothing followed the view returns to Main mode and sends
    nothing. *)
Theorem remove_confirm_enter (w : World) (key_code : Z) :
  state (ui w) = REMOVE_ASK ->
  key_in key_code Keys.ENTER = true ->
  let w' := world_of (process_event (KeyboardEvent key_code) w) in
  let back_to_main self :=
    set_frame 0
      (set_x_offset 0
         (set_state MAIN
            (set_last_remove_choice (Some (side_focused (ui w))) self))) in
  match follow (ui w) with
  | None => w' = with_ui w (back_to_main (ui w))
  | Some followed =>
      (0 <= side_focused (ui w) < Py.len remove_ask_rows ->
       let command := remove_command (side_focused (ui w)) followed in
       sent w' = sent w ++ [command]
       /\ logged w' = logged w
       /\ ui w'
          = if API.fails (api (ui w)) (sent w) command then ui w
            else back_to_main (set_follow None (ui w)))
      /\ (side_focused (ui w) < - Py.len remove_ask_rows
          \/ Py.len remove_ask_rows <= side_focused (ui w) ->
          process_event (KeyboardEvent key_code) w = Raised IndexError w)
  end.
Proof.
  intros Hst Hk. key_cases Hk. cbv zeta. rewrite dispatch_key, Hst.
  remember (process_keyboard_event_remove_ask 10 w) as r eqn:Hr.
  unfold process_keyboard_event_remove_ask in Hr.
  change (key_in 10 Keys.CANCEL) with false in Hr.
  change (key_in 10 Keys.ENTER) with true in Hr. cbv iota in Hr.
  unfold bind at 1 in Hr. unfold get at 1 in Hr.
  destruct (follow (ui w)) as [d|] eqn:Hf.
  - split.
    + intros Hi. cbn in Hi.
      assert (Hcase : side_focused (ui w) = 0 \/ side_focused (ui w) = 1
                      \/ side_focused (ui w) = 2 \/ side_focused (ui w) = 3)
        by lia.
      unfold remove_command.
      destruct Hcase as [E|[E|[E|E]]]; rewrite E in *;
        match type of Hr with
        | context [Py.getitem ?l ?i] =>
            let v := eval vm_compute in (Py.getitem l i) in
            change (Py.getitem l i) with v in Hr
        end;
        unfold bind, lookup_or, ret, call, modify in Hr;
        cbn -[API.fails] in Hr |- *;
        match goal with
        | |- context [if ?c then ui w else _] => destruct c
        end; subst r; cbn; rewrite ?E; repeat split; reflexivity.
    + intros Hout. subst r. unfold bind at 1. unfold bind at 1.
      rewrite (getitem_out_of_range _ _ Hout). reflexivity.
  - subst r. reflexivity.
Qed.

(** X7. In Main mode with a focused task, a priority key does nothing
    when the task is active; otherwise it sends one move command, up or
    down by the key, and when the daemon accepts it the task becomes the
    followed one; when the command fails the view is untouched.  The
    handler logs nothing itself. *)
Theorem priority_keys_move_and_follow (w : World) (key_code : Z)
    (d : Download.t) :
  state (ui w) = MAIN ->
  key_in key_code Keys.PRIORITY_UP || key_in key_code Keys.PRIORITY_DOWN
  = true ->
  Py.getitem (data (ui w)) (focused (ui w)) = Some d ->
  let w' := world_of (process_event (KeyboardEvent key_code) w) in
  logged w' = logged w
  /\ if Download.is_active d then w' = w
     else
       sent w' = sent w ++ [priority_command key_code d]
       /\ ui w'
          = if API.fails (api (ui w)) (sent w) (priority_command key_code d)
            then ui w
            else set_follow (Some d) (ui w).
Proof.
  intros Hst Hk Hd. cbv zeta. rewrite dispatch_key, Hst.
  apply orb_true_iff in Hk.
  destruct Hk as [Hk|Hk]; key_cases Hk;
    match goal with
    | |- context [process_keyboard_event_main ?k w] =>
        remember (process_keyboard_event_main k w) as r eqn:Hr
    end;
    unfold process_keyboard_event_main in Hr;
    cbn -[Py.getitem focused_download] in Hr;
    unfold focused_download, bind, get, lookup_or in Hr; rewrite Hd in Hr;
    unfold ret, when, call, modify in Hr; unfold priority_command;
    destruct (Download.is_active d); cbn -[API.fails] in Hr |- *;
    try (subst r; split; [reflexivity | destruct w; reflexivity]);
    match goal with
    | |- context [if ?c then ui w else _] => destruct c
    end; subst r; cbn; repeat split; reflexivity.
Qed.

Lemma column_at_bounds_for_outside (width x : Z) :
  x < 0 \/ Z.max 84 width < x -> column_at (bounds_for width) 0 x = None.
Proof.
  intros Hx. unfold bounds_for, column_at. cbn [fst snd].
  decide_leb. rewrite ?andb_false_r. cbn.
  destruct Hx as [Hx|Hx]; decide_leb; rewrite ?andb_false_r; reflexivity.
Qed.

(** X8. A left click on the header line, with the bounds [set_screen] made:
    on a position from 0 to [max 84 width] it picks the one column whose
    bound holds the position, flips the direction if that column is the
    sort column and makes it the sort column otherwise; on any other
    position the lookup raises and nothing changes. *)
Theorem header_click_picks_column (w : World) (x buttons : Z) :
  state (ui w) = MAIN ->
  bounds (ui w) = bounds_for (width (ui w)) ->
  Z.land buttons LEFT_CLICK <> 0 ->
  (0 <= x <= Z.max 84 (width (ui w)) ->
   exists i,
     columns_containing (bounds (ui w)) 0 x = [i]
     /\ 0 <= i < Py.len columns_order
     /\ process_event (MouseEvent x 0 buttons) w
        = Returned tt
            (with_ui w
               (set_refresh true
                  (if i =? sort (ui w)
                   then set_reverse (negb (reverse (ui w))) (ui w)
                   else set_sort i (ui w)))))
  /\ (x < 0 \/ Z.max 84 (width (ui w)) < x ->
      process_event (MouseEvent x 0 buttons) w = Raised ValueError w).
Proof.
  intros Hst Hb Hbtn. rewrite dispatch_mouse, Hst.
  assert (Hrun : process_mouse_event_main x 0 buttons w
            = match column_at (bounds_for (width (ui w))) 0 x with
              | Some i =>
                  Returned tt
                    (with_ui w
                       (set_refresh true
                          (if i =? sort (ui w)
                           then set_reverse (negb (reverse (ui w))) (ui w)
                           else set_sort i (ui w))))
              | None => Raised ValueError w
              end).
  { unfold process_mouse_event_main, when.
    destruct (Z.eqb_spec (Z.land buttons LEFT_CLICK) 0) as [E|_];
      [contradiction|].
    cbn [negb Z.eqb]. unfold get_column_at_x, bind, get, lookup_or.
    rewrite Hb.
    destruct (column_at (bounds_for (width (ui w))) 0 x) as [i|];
      [|reflexivity].
    cbn. unfold with_ui. destruct (i =? sort (ui w)); reflexivity. }
  rewrite Hrun, Hb. split.
  - intros Hx. destruct (bounds_hit_test _ x Hx) as [i [Hi Hc]].
    exists i. split; [exact Hc|].
    split; [apply column_at_range in Hi; cbn in Hi |- *; lia|].
    rewrite Hi. reflexivity.
  - intros Hx. rewrite (column_at_bounds_for_outside _ _ Hx). reflexivity.
Qed.

(** X9. A left click on one of the [height - 1] lines under the header keeps
    the focus invariant: the focus goes to the clicked row, or to the
    last row when the click is under it; the row offset and the followed
    task stay. *)
Theorem row_click_keeps_focus_visible (w : World) (x y buttons : Z) :
  state (ui w) = MAIN ->
  Z.land buttons LEFT_CLICK <> 0 ->
  focus_visible (ui w) ->
  0 <= row_offset (ui w) ->
  1 <= y <= height (ui w) - 1 ->
  process_event (MouseEvent x y buttons) w
  = Returned tt
      (with_ui w
         (set_refresh true
            (set_focused
               (Z.min (y - 1 + row_offset (ui w)) (Py.len (rows (ui w)) - 1))
               (ui w))))
  /\ focus_visible (ui (world_of (process_event (MouseEvent x y buttons) w))).
Proof.
  intros Hst Hbtn [Hf Hv] Hoff Hy.
  assert (Hrun : process_event (MouseEvent x y buttons) w
            = Returned tt
                (with_ui w
                   (set_refresh true
                      (set_focused
                         (Z.min (y - 1 + row_offset (ui w))
                            (Py.len (rows (ui w)) - 1)) (ui w))))).
  { rewrite dispatch_mouse, Hst. unfold process_mouse_event_main, when.
    destruct (Z.eqb_spec (Z.land buttons LEFT_CLICK) 0) as [E|_];
      [contradiction|].
    cbn [negb]. destruct (Z.eqb_spec y 0) as [E|_]; [lia|]. reflexivity. }
  split; [exact Hrun|]. rewrite Hrun. unfold focus_visible. cbn. lia.
Qed.

Lemma key_in_app (code : Z) (l1 l2 : list Key.t) :
  key_in code (l1 ++ l2) = key_in code l1 || key_in code l2.
Proof. unfold key_in. apply existsb_app. Qed.

(** X10. In Main mode every key outside [main_keys], reserved or unknown,
    returns without changing anything. *)
Theorem other_keys_do_nothing (w : World) (key_code : Z) :
  state (ui w) = MAIN ->
  key_in key_code main_keys = false ->
  process_event (KeyboardEvent key_code) w = Returned tt w.
Proof.
  intros Hst Hk. rewrite dispatch_key, Hst.
  unfold main_keys in Hk. rewrite !key_in_app in Hk.
  repeat match type of Hk with
    | _ || _ = false => apply orb_false_iff in Hk; destruct Hk as [? Hk]
    end.
  unfold process_keyboard_event_main.
  repeat match goal with
    | H : key_in key_code ?l = false |- _ => rewrite H; clear H
    end.
  repeat match goal with
    | |- context [if key_in ?k ?l then _ else _] => destruct (key_in k l)
    end; reflexivity.
Qed.

Lemma select_sort_move (u : Interface.t) (s : Z) (event : Event)
    (w : World) :
  ui w = in_select_sort u s ->
  is_up_down event = true ->
  exists s',
    process_event event w
    = Returned tt (with_ui w (in_select_sort u s')).
Proof.
  intros Hui Hev. destruct event as [key_code|]; [|discriminate].
  cbn [is_up_down] in Hev. rewrite dispatch_key.
  destruct w as [self snt lg]. cbn [ui] in Hui. subst self. cbn [ui state].
  unfold in_select_sort at 1. cbn [state set_refresh set_x_offset
    set_side_focused set_state].
  apply orb_true_iff in Hev. destruct Hev as [Hk|Hk]; key_cases Hk.
  - unfold process_keyboard_event_select_sort.
    change (key_in Screen.KEY_UP Keys.CANCEL) with false.
    change (key_in Screen.KEY_UP Keys.ENTER) with false.
    change (key_in Screen.KEY_UP Keys.MOVE_UP) with true. cbv iota.
    unfold bind, get, when, modify, ret. cbn [ui side_focused in_select_sort
      set_refresh set_x_offset set_side_focused set_state].
    destruct (s >? 0); eexists; reflexivity.
  - unfold process_keyboard_event_select_sort.
    change (key_in Screen.KEY_DOWN Keys.CANCEL) with false.
    change (key_in Screen.KEY_DOWN Keys.ENTER) with false.
    change (key_in Screen.KEY_DOWN Keys.MOVE_UP) with false.
    change (key_in Screen.KEY_DOWN Keys.MOVE_DOWN) with true. cbv iota.
    unfold bind, get, when, modify, ret. cbn [ui side_focused in_select_sort
      set_refresh set_x_offset set_side_focused set_state].
    destruct (s <? Py.len select_sort_rows - 1); eexists; reflexivity.
Qed.

Lemma select_sort_moves (u : Interface.t) (moves : list Event) :
  forall (s : Z) (w : World) (rest : list Event),
    ui w = in_select_sort u s ->
    Forall (fun event => is_up_down event = true) moves ->
    exists s',
      drain (moves ++ rest) w = drain rest (with_ui w (in_select_sort u s')).
Proof.
  induction moves as [|event more IH]; intros s w rest Hui Hmoves.
  - exists s. cbn [app]. rewrite <- Hui. destruct w; reflexivity.
  - inversion Hmoves as [|? ? Hev Hmore]; subst.
    destruct (select_sort_move u s event w Hui Hev) as [s1 Hstep].
    cbn [app drain]. rewrite Hstep.
    destruct (IH s1 (with_ui w (in_select_sort u s1)) rest eq_refl Hmore)
      as [s2 Hrest].
    exists s2. exact Hrest.
Qed.

(** X11. Opening the Select-sort panel from Main mode, moving in it with Up
    and Down as one likes and leaving it with Cancel changes nothing but
    the side-panel focus, the refresh flag and the horizontal offset,
    which is 0 afterwards: the sort column and direction stay. *)
Theorem select_sort_cancel_restores (w : World) (select cancel : Z)
    (moves : list Event) :
  state (ui w) = MAIN ->
  key_in select Keys.SELECT_SORT = true ->
  key_in cancel Keys.CANCEL = true ->
  Forall (fun event => is_up_down event = true) moves ->
  exists s,
    drain (KeyboardEvent select :: moves ++ [KeyboardEvent cancel]) w
    = Drained
        (with_ui w
           (set_refresh true (set_x_offset 0 (set_side_focused s (ui w))))).
Proof.
  intros Hst Hsel Hcan Hmoves. key_cases Hsel. key_cases Hcan.
  cbn [drain]. rewrite dispatch_key, Hst.
  assert (Hopen : process_keyboard_event_main Screen.KEY_F6 w
            = Returned tt (with_ui w (in_select_sort (ui w) (sort (ui w)))))
    by reflexivity.
  rewrite Hopen.
  destruct (select_sort_moves (ui w) moves (sort (ui w))
              (with_ui w (in_select_sort (ui w) (sort (ui w))))
              [KeyboardEvent Screen.KEY_ESCAPE] eq_refl Hmoves) as [s Hrun].
  rewrite Hrun. exists s. cbn [drain]. rewrite dispatch_key.
  cbn. unfold with_ui. cbn. rewrite <- Hst.
  destruct w as [[]]; reflexivity.
Qed.




Lemma string_app_assoc (a b c : string) :
  ((a ++ b) ++ c = a ++ (b ++ c))%string.
Proof. induction a as [|x a IH]; cbn; [reflexivity | rewrite IH; reflexivity]. Qed.

Lemma string_app_nil_r (a : string) : (a ++ "")%string = a.
Proof. induction a as [|x a IH]; cbn; [reflexivity | rewrite IH; reflexivity]. Qed.

Lemma screen_text_app (a b : Screen.t) :
  screen_text (a ++ b) = (screen_text a ++ screen_text b)%string.
Proof.
  unfold screen_text. induction a as [|op a IH]; cbn; [reflexivity|].
  rewrite IH, string_app_assoc. reflexivity.
Qed.

Lemma str_drop_app (k : nat) (a b : string) :
  (k <= String.length a)%nat ->
  Py.str_drop k (a ++ b) = (Py.str_drop k a ++ b)%string.
Proof.
  revert a. induction k as [|k IH]; intros a Hk; [reflexivity|].
  destruct a as [|x a]; cbn in *; [lia|]. apply IH. lia.
Qed.

Lemma str_drop_app_past (k : nat) (a b : string) :
  (String.length a <= k)%nat ->
  Py.str_drop k (a ++ b) = Py.str_drop (k - String.length a) b.
Proof.
  revert k. induction a as [|x a IH]; intros k Hk; cbn in *.
  - rewrite Nat.sub_0_r. reflexivity.
  - destruct k as [|k]; [lia|]. cbn. apply IH. lia.
Qed.

Lemma str_drop_all (k : nat) (a : string) :
  (String.length a <= k)%nat -> Py.str_drop k a = EmptyString.
Proof.
  revert a. induction k as [|k IH]; intros a Hk.
  - destruct a; cbn in *; [reflexivity | lia].
  - destruct a as [|x a]; cbn in *; [reflexivity|]. apply IH. lia.
Qed.

Lemma str_from_drop (s : string) (n : Z) :
  0 <= n -> Py.str_from s n = Py.str_drop (Z.to_nat n) s.
Proof.
  intros Hn. unfold Py.str_from, Py.slice_start, Py.str_len.
  destruct (Z.ltb_spec n 0); [lia|].
  destruct (Z.le_gt_cases n (Z.of_nat (String.length s))) as [L|G].
  - rewrite Z.min_l by lia. reflexivity.
  - rewrite Z.min_r by lia. rewrite Nat2Z.id.
    rewrite !str_drop_all by lia. reflexivity.
Qed.

Lemma string_length_app (a b : string) :
  String.length (a ++ b) = (String.length a + String.length b)%nat.
Proof. induction a as [|x a IH]; cbn; [reflexivity | rewrite IH; reflexivity]. Qed.

Lemma write_text (scr : Screen.t) (text : string) (x y : Z)
    (palette : Screen.Palette) :
  screen_text (HorizontalScroll.write scr text x y palette)
  = (screen_text scr ++ text)%string.
Proof.
  unfold HorizontalScroll.write. destruct palette;
    rewrite screen_text_app; cbn; rewrite string_app_nil_r; reflexivity.
Qed.

Lemma str_len_app (a b : string) :
  Py.str_len (a ++ b) = Py.str_len a + Py.str_len b.
Proof. unfold Py.str_len. rewrite string_length_app. lia. Qed.

Lemma str_from_app (a b : string) (n : Z) :
  0 <= n ->
  Py.str_from (a ++ b) n
  = if n <=? Py.str_len a then (Py.str_from a n ++ b)%string
    else Py.str_from b (n - Py.str_len a).
Proof.
  intros Hn. unfold Py.str_len.
  destruct (Z.leb_spec n (Z.of_nat (String.length a))) as [L|G].
  - rewrite !str_from_drop by lia. apply str_drop_app. lia.
  - rewrite !str_from_drop by lia. rewrite str_drop_app_past by lia.
    f_equal. lia.
Qed.

Lemma str_from_0 (a : string) : Py.str_from a 0 = a.
Proof. rewrite str_from_drop by lia. reflexivity. Qed.

Lemma str_from_all (a : string) : Py.str_from a (Py.str_len a) = EmptyString.
Proof.
  unfold Py.str_len. rewrite str_from_drop by lia.
  apply str_drop_all. lia.
Qed.

Lemma after_prints_text (calls : list HorizontalScroll.Call) :
  forall self : HorizontalScroll.t,
    0 <= HorizontalScroll.scroll self ->
    screen_text (HorizontalScroll.screen (after_prints self calls))
    = (screen_text (HorizontalScroll.screen self)
       ++ Py.str_from (line_of calls) (HorizontalScroll.scroll self))%string
    /\ HorizontalScroll.scroll (after_prints self calls)
       = Z.max 0 (HorizontalScroll.scroll self - Py.str_len (line_of calls)).
Proof.
  induction calls as [|c rest IH]; intros self Hs.
  - cbn [after_prints line_of fold_right].
    rewrite str_from_drop by exact Hs.
    rewrite str_drop_all by (cbn; lia).
    rewrite string_app_nil_r. unfold Py.str_len. cbn.
    split; [reflexivity | lia].
  - cbn [after_prints line_of fold_right]. fold (line_of rest).
    assert (Hlen : 0 <= Py.str_len (HorizontalScroll.text c))
      by (unfold Py.str_len; lia).
    rewrite str_from_app, str_len_app by exact Hs.
    unfold HorizontalScroll.print_at.
    destruct (Z.eqb_spec (HorizontalScroll.scroll self) 0) as [E0|N0].
    + cbn [snd].
      match goal with
      | |- context [after_prints ?s rest] =>
          destruct (IH s) as [IH1 IH2]; [cbn; lia|]
      end.
      rewrite IH1, IH2. cbn [HorizontalScroll.screen HorizontalScroll.scroll].
      rewrite write_text, E0.
      destruct (Z.leb_spec 0 (Py.str_len (HorizontalScroll.text c))); [|lia].
      rewrite !str_from_0, string_app_assoc.
      assert (0 <= Py.str_len (line_of rest)) by (unfold Py.str_len; lia).
      split; [reflexivity | lia].
    + cbv zeta.
      destruct (Z.gtb_spec (Py.str_len (HorizontalScroll.text c))
                  (HorizontalScroll.scroll self)) as [G|NG].
      * cbn [snd].
        match goal with
        | |- context [after_prints ?s rest] =>
            destruct (IH s) as [IH1 IH2]; [cbn; lia|]
        end.
        rewrite IH1, IH2.
        cbn [HorizontalScroll.screen HorizontalScroll.scroll].
        rewrite write_text, str_from_0.
        destruct (Z.leb_spec (HorizontalScroll.scroll self)
                    (Py.str_len (HorizontalScroll.text c))); [|lia].
        rewrite string_app_assoc.
        assert (0 <= Py.str_len (line_of rest)) by (unfold Py.str_len; lia).
        split; [reflexivity | lia].
      * destruct (Z.eqb_spec (Py.str_len (HorizontalScroll.text c))
                    (HorizontalScroll.scroll self)) as [E|NE]; cbn [snd];
          match goal with
          | |- context [after_prints ?s rest] =>
              destruct (IH s) as [IH1 IH2]; [cbn; lia|]
          end;
          rewrite IH1, IH2;
          cbn [HorizontalScroll.screen HorizontalScroll.scroll].
        -- rewrite <- E.
           destruct (Z.leb_spec (Py.str_len (HorizontalScroll.text c))
                       (Py.str_len (HorizontalScroll.text c))); [|lia].
           rewrite str_from_all, str_from_0.
           split; [reflexivity | lia].
        -- destruct (Z.leb_spec (HorizontalScroll.scroll self)
                       (Py.str_len (HorizontalScroll.text c))); [lia|].
           split; [reflexivity | lia].
Qed.

(** X14. After [set_scroll S] with [0 <= S], the characters a run of
    [print_at] calls puts on the screen are the logical line of the run
    without its first [S] characters, and the counter is left at what of
    [S] the line did not use up. *)
Theorem scrolled_line_is_suffix (self : HorizontalScroll.t) (S : Z)
    (calls : list HorizontalScroll.Call) :
  0 <= S ->
  let final := after_prints (HorizontalScroll.set_scroll self S) calls in
  screen_text (HorizontalScroll.screen final)
  = (screen_text (HorizontalScroll.screen self)
     ++ Py.str_from (line_of calls) S)%string
  /\ HorizontalScroll.scroll final = Z.max 0 (S - Py.str_len (line_of calls)).
Proof.
  intros HS. exact (after_prints_text calls (HorizontalScroll.set_scroll self S) HS).
Qed.

Lemma list_from_len {A} (l : list A) (n : Z) :
  Py.len (Py.list_from l n) = Py.len l - Z.of_nat (Py.slice_start n (Py.len l)).
Proof.
  unfold Py.list_from, Py.len. rewrite length_skipn.
  unfold Py.slice_start, Py.len.
  destruct (Z.ltb_spec n 0); lia.
Qed.

Lemma str_from_len_any (s : string) (n : Z) :
  Py.str_len (Py.str_from s n)
  = Py.str_len s - Z.of_nat (Py.slice_start n (Py.str_len s)).
Proof.
  unfold Py.str_from, Py.str_len. rewrite str_drop_length.
  unfold Py.slice_start. destruct (Z.ltb_spec n 0); lia.
Qed.

(** X15. A per-character palette as long as its text stays aligned with it:
    whatever the scroll counter, [print_at] paints nothing, or one text
    with a colour map of the same length, which is the value returned. *)
Theorem per_character_palette_stays_aligned (self : HorizontalScroll.t)
    (text : string) (x y : Z) (colours : list Screen.Attr) :
  Py.len colours = Py.str_len text ->
  let r := HorizontalScroll.print_at self text x y (Screen.PerChar colours) in
  (fst r = 0 /\ HorizontalScroll.screen (snd r) = HorizontalScroll.screen self)
  \/ exists painted colour_map,
       HorizontalScroll.screen (snd r)
       = HorizontalScroll.screen self ++ [Screen.Paint painted x y colour_map]
       /\ Py.len colour_map = Py.str_len painted
       /\ fst r = Py.str_len painted.
Proof.
  intros Hlen. cbv zeta. unfold HorizontalScroll.print_at.
  destruct (HorizontalScroll.scroll self =? 0).
  - right. exists text, colours. cbn. auto.
  - cbv zeta. destruct (Py.str_len text >? HorizontalScroll.scroll self).
    + right. eexists. eexists. cbn. split; [reflexivity|].
      split; [|reflexivity].
      rewrite list_from_len, str_from_len_any, Hlen. reflexivity.
    + destruct (Py.str_len text =? HorizontalScroll.scroll self);
        left; split; reflexivity.
Qed.


Lemma spaces_len (n : Z) : Py.str_len (spaces n) = Z.max 0 n.
Proof.
  unfold spaces, Py.str_len.
  assert (H : forall k, String.length (string_of_list_ascii (repeat " "%char k)) = k).
  { induction k as [|k IH]; cbn; [reflexivity | rewrite IH; reflexivity]. }
  rewrite H. lia.
Qed.

Lemma format_left_len (s : string) (width : Z) :
  Py.str_len (format_left s width) = Z.max (Py.str_len s) width.
Proof.
  unfold format_left.
  assert (H : forall a b, Py.str_len (a ++ b) = Py.str_len a + Py.str_len b).
  { intros a b. unfold Py.str_len. rewrite string_length_app. lia. }
  rewrite H, spaces_len. lia.
Qed.

Lemma print_side_rows_cells (self : Interface.t) (padding : Z)
    (labels : list string) :
  forall (i y : Z) (painter : HorizontalScroll.t),
    0 <= padding ->
    Forall (fun label => Py.str_len label <= padding) labels ->
    exists ops,
      HorizontalScroll.screen
        (snd (print_side_rows self labels padding i y painter))
      = HorizontalScroll.screen painter ++ ops
      /\ HorizontalScroll.scroll
           (snd (print_side_rows self labels padding i y painter))
         = HorizontalScroll.scroll painter
      /\ fst (print_side_rows self labels padding i y painter)
         = y + Z.of_nat (List.length labels)
      /\ map op_cells ops = entry_cells padding (y + 1) (List.length labels).
Proof.
  induction labels as [|label rest IH]; intros i y painter Hp Hl.
  - exists []. cbn. rewrite app_nil_r. repeat split; lia.
  - inversion Hl as [|? ? Hlabel Hrest]; subst.
    cbn [print_side_rows]. cbv zeta.
    match goal with
    | |- context [print_side_rows self rest padding ?i' ?y' ?p'] =>
        destruct (IH i' y' p' Hp Hrest) as [ops [Hs [Hc [Hy Hcells]]]]
    end.
    exists (Screen.PrintAt (format_left label padding) 0 (y + 1)
              (if i =? side_focused self
               then palettes "side_column_focused_row"
               else palettes "side_column_row")
            :: Screen.PrintAt " " (Py.str_len (format_left label padding))
                 (y + 1) (palettes "default")
            :: ops).
    rewrite Hs, Hc, Hy. cbn [screen_print_at HorizontalScroll.screen
      HorizontalScroll.scroll].
    rewrite <- !app_assoc. split; [reflexivity|]. split; [reflexivity|].
    split; [cbn [List.length]; lia|].
    cbn [app map List.length entry_cells]. rewrite Hcells.
    unfold op_cells. cbn [op_y op_x op_text].
    rewrite !format_left_len.
    replace (Z.max (Py.str_len label) padding) with padding by lia.
    reflexivity.
Qed.

Lemma blank_lines_cells (padding : Z) (text : string) (y : Z) (count : nat) :
  Py.str_len text = padding + 1 ->
  forall (first : Z) (painter : HorizontalScroll.t),
    exists ops,
      HorizontalScroll.screen (blank_lines text 0 y first count painter)
      = HorizontalScroll.screen painter ++ ops
      /\ HorizontalScroll.scroll (blank_lines text 0 y first count painter)
         = HorizontalScroll.scroll painter
      /\ map op_cells ops = blank_cells padding (y + first) count.
Proof.
  intros Htext. induction count as [|count IH]; intros first painter.
  - exists []. cbn. rewrite app_nil_r. auto.
  - cbn [blank_lines].
    destruct (IH (first + 1)
                (screen_print_at painter text 0 (y + first) default_attr))
      as [ops [Hs [Hc Hcells]]].
    exists (Screen.PrintAt text 0 (y + first) default_attr :: ops).
    rewrite Hs, Hc. cbn [screen_print_at HorizontalScroll.screen
      HorizontalScroll.scroll].
    rewrite <- app_assoc. split; [reflexivity|]. split; [reflexivity|].
    cbn [app map blank_cells]. rewrite Hcells.
    unfold op_cells. cbn [op_y op_x op_text].
    rewrite Htext. f_equal. f_equal. lia.
Qed.

Lemma print_side_column_cells (header : string) (labels : list string)
    (padding : Z) (self : Interface.t) (painter : HorizontalScroll.t) :
  0 <= padding ->
  Py.str_len header <= padding ->
  Forall (fun label => Py.str_len label <= padding) labels ->
  exists ops,
    print_side_column header labels padding self painter
    = Some (HorizontalScroll.mk (HorizontalScroll.screen painter ++ ops)
              (HorizontalScroll.scroll painter))
    /\ map op_cells ops
       = side_column_cells padding (y_offset self) (height self)
           (List.length labels).
Proof.
  intros Hp Hh Hl. unfold print_side_column. cbv zeta.
  match goal with
  | |- context [print_side_rows self labels padding 0 ?y ?p] =>
      destruct (print_side_rows_cells self padding labels 0 y p Hp Hl)
        as [ops1 [Hs1 [Hc1 [Hy1 Hcells1]]]]
  end.
  rewrite Hy1.
  match goal with
  | |- context [blank_lines ?t 0 ?y 1 ?n ?p] =>
      destruct (blank_lines_cells padding t y n
                  ltac:(rewrite spaces_len; lia) 1 p)
        as [ops2 [Hs2 [Hc2 Hcells2]]]
  end.
  exists (Screen.PrintAt (format_left header padding) 0 (y_offset self)
            (palettes "side_column_header")
          :: Screen.PrintAt " " (Py.str_len (format_left header padding))
               (y_offset self) (palettes "default")
          :: ops1 ++ ops2).
  split.
  - f_equal.
    match goal with
    | |- ?b = _ => destruct b as [scr sc] eqn:E
    end.
    cbn [HorizontalScroll.screen HorizontalScroll.scroll] in Hs2, Hc2.
    rewrite Hs2, Hc2, Hs1, Hc1.
    cbn [screen_print_at HorizontalScroll.screen HorizontalScroll.scroll].
    rewrite <- !app_assoc. reflexivity.
  - unfold side_column_cells.
    cbn [map entry_cells app]. rewrite map_app, Hcells1, Hcells2.
    unfold op_cells. cbn [op_y op_x op_text].
    rewrite !format_left_len.
    replace (Z.max (Py.str_len header) padding) with padding by lia.
    do 3 f_equal.
Qed.

Lemma headers_step_fixed (self : Interface.t) (column_name : string)
    (column : Column) (formatted text : string) (rest : list string)
    (x c c' n : Z) (scr : Screen.t) :
  columns column_name = Some column ->
  String.eqb (padding column) "100%" = false ->
  format_str (header column) (padding column) = Some formatted ->
  (formatted ++ " ")%string = text ->
  Py.str_len text = n ->
  c + 1 = c' ->
  print_headers_from self (column_name :: rest) x c (HorizontalScroll.mk scr 0)
  = print_headers_from self rest (x + n) c'
      (HorizontalScroll.mk
         (scr ++ [Screen.PrintAt text x (y_offset self)
                    (if c =? sort self then palettes "focused_header"
                     else palettes "header")])
         0).
Proof.
  intros Hc Hp Hf Ht Hn Hc'. cbn [print_headers_from].
  rewrite Hc, Hp, Hf, Ht. cbv zeta.
  unfold HorizontalScroll.print_at.
  cbn [HorizontalScroll.scroll HorizontalScroll.screen Z.eqb fst snd
       HorizontalScroll.write].
  rewrite Hn, Hc'. reflexivity.
Qed.

Lemma headers_step_fill (self : Interface.t) (column_name : string)
    (column : Column) (x c n : Z) (scr : Screen.t) :
  columns column_name = Some column ->
  String.eqb (padding column) "100%" = true ->
  Py.str_len (header column) = n ->
  print_headers_from self [column_name] x c (HorizontalScroll.mk scr 0)
  = Some
      (HorizontalScroll.mk
         (scr
          ++ [Screen.PrintAt (header column) x (y_offset self)
                (if c =? sort self then palettes "focused_header"
                 else palettes "header");
              Screen.PrintAt (spaces (Z.max 0 (width self - x - n))) (x + n)
                (y_offset self) (palettes "header")])
         0).
Proof.
  intros Hc Hp Hn. cbn [print_headers_from].
  rewrite Hc, Hp. cbv zeta.
  unfold HorizontalScroll.print_at.
  cbn [HorizontalScroll.scroll HorizontalScroll.screen Z.eqb fst snd
       HorizontalScroll.write].
  rewrite Hn, <- app_assoc. reflexivity.
Qed.

Ltac header_step :=
  match goal with
  | |- context [print_headers_from ?self (?name :: ?rest) ?x ?c
                  (HorizontalScroll.mk ?scr 0)] =>
      let col := eval vm_compute in (columns name) in
      match col with
      | Some ?column =>
          let f := eval vm_compute in
                     (format_str (header column) (padding column)) in
          match f with
          | Some ?formatted =>
              let t := eval vm_compute in (formatted ++ " ")%string in
              let n := eval vm_compute in (Py.str_len t) in
              let c' := eval vm_compute in (c + 1) in
              rewrite (headers_step_fixed self name column formatted t rest
                         x c c' n scr)
                by (vm_compute; reflexivity)
          end
      end
  end.

(** X16. With no horizontal scroll, [print_headers] writes the eight
    headers and one fill on line [y_offset]: header number [c] starts at
    [x_offset] plus the left end of bound [c] of [set_screen], each of
    the first seven is as long as its bound is wide, the header of the
    sort column is in the focused palette and the others in the header
    palette, and the fill runs from column [x_offset + 89] to the width
    of the screen. *)
Theorem headers_line_up_with_bounds (self : Interface.t)
    (painter : HorizontalScroll.t) :
  x_scroll self = 0 ->
  scroller self = Some painter ->
  exists ops fill,
    print_headers self
    = Some (set_scroller
              (Some (HorizontalScroll.mk
                       (HorizontalScroll.screen painter ++ ops ++ [fill]) 0))
              self)
    /\ map op_x ops
       = map (fun bound => x_offset self + fst bound) (bounds_for (width self))
    /\ map (fun op => Py.str_len (op_text op)) (firstn 7 ops)
       = map (fun bound => snd bound - fst bound + 1)
           (firstn 7 (bounds_for (width self)))
    /\ map op_attr ops
       = map (fun c => Some (if c =? sort self then palettes "focused_header"
                             else palettes "header"))
           [0; 1; 2; 3; 4; 5; 6; 7]
    /\ Forall (fun op => op_y op = y_offset self) (ops ++ [fill])
    /\ op_x fill = x_offset self + 89
    /\ Py.str_len (op_text fill) = Z.max 0 (width self - x_offset self - 89).
Proof.
  intros Hx Hsc. unfold print_headers, painting. rewrite Hsc.
  unfold HorizontalScroll.set_scroll. rewrite Hx.
  unfold columns_order.
  do 7 header_step.
  match goal with
  | |- context [print_headers_from ?self [?name] ?x ?c
                  (HorizontalScroll.mk ?scr 0)] =>
      let col := eval vm_compute in (columns name) in
      match col with
      | Some ?column =>
          rewrite (headers_step_fill self name column x c 4 scr)
            by (vm_compute; reflexivity)
      end
  end.
  rewrite <- !app_assoc. cbn [app header].
  match goal with
  | |- context [HorizontalScroll.screen painter
                ++ ?o0 :: ?o1 :: ?o2 :: ?o3 :: ?o4 :: ?o5 :: ?o6 :: ?o7
                   :: [?f]] =>
      exists [o0; o1; o2; o3; o4; o5; o6; o7], f
  end.
  split; [reflexivity|].
  unfold bounds_for.
  cbn [map op_x op_text op_attr op_y firstn fst snd app].
  split; [repeat (f_equal; try lia)|].
  split; [reflexivity|].
  split; [reflexivity|].
  split; [repeat constructor|].
  split; [lia|].
  rewrite spaces_len by lia. lia.
Qed.

Ltac decide_panel :=
  unfold covers, in_panel;
  repeat match goal with
         | |- context [?a =? ?b] => destruct (Z.eqb_spec a b)
         | |- context [?a <=? ?b] => destruct (Z.leb_spec a b)
         | |- context [?a <? ?b] => destruct (Z.ltb_spec a b)
         end;
  cbn [andb List.length filter]; try reflexivity; try lia.

Lemma entry_cells_once (padding y x : Z) (n : nat) :
  0 <= padding ->
  forall top,
    List.length (filter (covers y x) (entry_cells padding top n))
    = if in_panel top (top + Z.of_nat n) padding y x then 1%nat else 0%nat.
Proof.
  intros Hp. induction n as [|n IH]; intros top.
  - cbn [entry_cells filter List.length]. decide_panel.
  - cbn [entry_cells filter]. rewrite Nat2Z.inj_succ.
    destruct (covers y x (top, 0, padding)) eqn:E1;
      destruct (covers y x (top, padding, 1)) eqn:E2;
      cbn [List.length]; rewrite (IH (top + 1));
      revert E1 E2; decide_panel; intros; try discriminate; try lia.
Qed.

Lemma blank_cells_once (padding y x : Z) (n : nat) :
  0 <= padding ->
  forall top,
    List.length (filter (covers y x) (blank_cells padding top n))
    = if in_panel top (top + Z.of_nat n) padding y x then 1%nat else 0%nat.
Proof.
  intros Hp. induction n as [|n IH]; intros top.
  - cbn [blank_cells filter List.length]. decide_panel.
  - cbn [blank_cells filter]. rewrite Nat2Z.inj_succ.
    destruct (covers y x (top, 0, padding + 1)) eqn:E1;
      cbn [List.length]; rewrite (IH (top + 1));
      revert E1; decide_panel; intros; try discriminate; try lia.
Qed.

Lemma side_column_cells_once (padding top height y x : Z) (n : nat) :
  0 <= padding ->
  List.length (filter (covers y x) (side_column_cells padding top height n))
  = if in_panel top (Z.max height (top + Z.of_nat n + 1)) padding y x
    then 1%nat else 0%nat.
Proof.
  intros Hp. unfold side_column_cells.
  rewrite filter_app, length_app, entry_cells_once, blank_cells_once by lia.
  rewrite Nat2Z.inj_succ.
  replace (top + Z.of_nat n + 1
           + Z.of_nat (Z.to_nat (height - (top + Z.of_nat n) - 1)))
    with (Z.max height (top + Z.of_nat n + 1)) by lia.
  decide_panel.
Qed.

Lemma side_panel_tiles (header : string) (labels : list string)
    (padding : Z) (self : Interface.t) (painter : HorizontalScroll.t) :
  0 <= padding ->
  Py.str_len header <= padding ->
  Forall (fun label => Py.str_len label <= padding) labels ->
  scroller self = Some painter ->
  exists ops,
    painting (print_side_column header labels padding) self
    = Some (set_scroller
              (Some (HorizontalScroll.mk
                       (HorizontalScroll.screen painter ++ ops)
                       (HorizontalScroll.scroll painter)))
              self)
    /\ forall y x,
         times_written ops y x
         = if in_panel (y_offset self)
                (Z.max (height self)
                   (y_offset self + Z.of_nat (List.length labels) + 1))
                padding y x
           then 1%nat else 0%nat.
Proof.
  intros Hp Hh Hl Hsc.
  destruct (print_side_column_cells header labels padding self painter
              Hp Hh Hl) as [ops [Hrun Hcells]].
  exists ops. unfold painting. rewrite Hsc, Hrun.
  split; [reflexivity|].
  intros y x. unfold times_written. rewrite Hcells.
  apply side_column_cells_once. exact Hp.
Qed.

(** X17. [print_select_sort_column] writes every cell of the lines from
    [y_offset] to the bottom of the screen, and at least the nine lines
    of the header and the eight entries, in the columns 0 to 12 exactly
    once, and no other cell: the panel is as wide as the offset the
    table is moved by. *)
Theorem select_sort_panel_tiles (self : Interface.t)
    (painter : HorizontalScroll.t) :
  scroller self = Some painter ->
  exists ops,
    print_select_sort_column self
    = Some (set_scroller
              (Some (HorizontalScroll.mk
                       (HorizontalScroll.screen painter ++ ops)
                       (HorizontalScroll.scroll painter)))
              self)
    /\ forall y x,
         times_written ops y x
         = if in_panel (y_offset self)
                (Z.max (height self) (y_offset self + 9))
                (width_select_sort) y x
           then 1%nat else 0%nat.
Proof.
  intros Hsc.
  destruct (side_panel_tiles select_sort_header select_sort_rows
              width_select_sort self painter) as [ops [Hrun Hcount]];
    [vm_compute; discriminate | vm_compute; discriminate
     | repeat constructor; vm_compute; discriminate | exact Hsc |].
  exists ops. split; [exact Hrun|].
  intros y x. rewrite Hcount.
  replace (y_offset self + Z.of_nat (List.length select_sort_rows) + 1)
    with (y_offset self + 9) by (vm_compute (List.length _); lia).
  reflexivity.
Qed.

(** X18. [print_remove_ask_column] writes every cell of the lines from
    [y_offset] to the bottom of the screen, and at least the five lines
    of the header and the four entries, in the columns 0 to 23 exactly
    once, and no other cell. *)
Theorem remove_ask_panel_tiles (self : Interface.t)
    (painter : HorizontalScroll.t) :
  scroller self = Some painter ->
  exists ops,
    print_remove_ask_column self
    = Some (set_scroller
              (Some (HorizontalScroll.mk
                       (HorizontalScroll.screen painter ++ ops)
                       (HorizontalScroll.scroll painter)))
              self)
    /\ forall y x,
         times_written ops y x
         = if in_panel (y_offset self)
                (Z.max (height self) (y_offset self + 5))
                (width_remove_ask) y x
           then 1%nat else 0%nat.
Proof.
  intros Hsc.
  destruct (side_panel_tiles remove_ask_header (map fst remove_ask_rows)
              width_remove_ask self painter) as [ops [Hrun Hcount]];
    [vm_compute; discriminate | vm_compute; discriminate
     | repeat constructor; vm_compute; discriminate | exact Hsc |].
  exists ops. split; [exact Hrun|].
  intros y x. rewrite Hcount.
  replace (y_offset self + Z.of_nat (List.length (map fst remove_ask_rows)) + 1)
    with (y_offset self + 5) by (vm_compute (List.length _); lia).
  reflexivity.
Qed.


(** ** Further properties of the keys and of the paint routines *)

(** Evaluate the key tests of a handler on a known key code, and run the
    assignments that follow. *)
Ltac eval_keys :=
  repeat match goal with
    | |- context [key_in ?c ?l] =>
        let v := eval vm_compute in (key_in c l) in
        change (key_in c l) with v
    end;
  cbv iota.

Ltac assign :=
  cbv beta iota zeta delta
      [bind get when modify ret with_ui
       set_state set_frame set_focused set_side_focused set_sort set_reverse
       set_x_scroll set_x_offset set_row_offset set_refresh set_width
       set_height set_data set_rows set_scroller set_follow set_bounds
       set_last_remove_choice
       ui sent logged state frame focused side_focused sort reverse x_scroll
       x_offset y_offset row_offset refresh width height data rows scroller
       follow bounds last_remove_choice api].

Ltac fields w :=
  destruct w as [[st fr fo sf so rv xs xo yo ro rf wd ht dt rw sc fl bd lrc ap]
                   snt lg];
  cbn [ui sent logged state frame focused side_focused sort reverse x_scroll
       x_offset y_offset row_offset refresh width height data rows scroller
       follow bounds last_remove_choice api] in *.

Lemma scroll_rights (right : Z) (n : nat) :
  key_in right Keys.MOVE_RIGHT = true ->
  forall (w : World) (rest : list Event),
    state (ui w) = MAIN ->
    exists asked,
      drain (repeat (KeyboardEvent right) n ++ rest) w
      = drain rest
          (with_ui w
             (scrolled_to (ui w) (x_scroll (ui w) + 5 * Z.of_nat n) asked)).
Proof.
  intros Hk. key_cases Hk.
  induction n as [|n IH]; intros w rest Hst.
  - exists (refresh (ui w)). cbn [repeat app]. f_equal.
    fields w. unfold scrolled_to. assign.
    rewrite Z.add_0_r. reflexivity.
  - cbn [repeat app drain]. rewrite dispatch_key, Hst.
    fields w. subst st.
    unfold process_keyboard_event_main. eval_keys. assign.
    match goal with
    | |- context [drain _ ?w1] =>
        destruct (IH w1 rest eq_refl) as [asked Hrest]
    end.
    rewrite Hrest. exists asked. f_equal.
    unfold scrolled_to. assign.
    f_equal. f_equal. lia.
Qed.

Lemma scroll_lefts (left : Z) (m : nat) :
  key_in left Keys.MOVE_LEFT = true ->
  forall (w : World) (rest : list Event),
    state (ui w) = MAIN ->
    0 <= x_scroll (ui w) ->
    exists asked,
      drain (repeat (KeyboardEvent left) m ++ rest) w
      = drain rest
          (with_ui w
             (scrolled_to (ui w)
                (Z.max 0 (x_scroll (ui w) - 5 * Z.of_nat m)) asked)).
Proof.
  intros Hk. key_cases Hk.
  induction m as [|m IH]; intros w rest Hst Hx.
  - exists (refresh (ui w)). cbn [repeat app]. f_equal.
    fields w. unfold scrolled_to. assign.
    f_equal. f_equal. lia.
  - cbn [repeat app drain]. rewrite dispatch_key, Hst.
    fields w. subst st.
    unfold process_keyboard_event_main. eval_keys. assign.
    destruct (xs >? 0) eqn:Hpos.
    + match goal with
      | |- context [drain _ ?w1] =>
          destruct (IH w1 rest eq_refl) as [asked Hrest]; [cbn; lia|]
      end.
      rewrite Hrest. exists asked. f_equal.
      unfold scrolled_to. assign.
      f_equal. f_equal. lia.
    + match goal with
      | |- context [drain _ ?w1] =>
          destruct (IH w1 rest eq_refl Hx) as [asked Hrest]
      end.
      rewrite Hrest. exists asked. f_equal.
      rewrite Z.gtb_ltb in Hpos. apply Z.ltb_ge in Hpos.
      unfold scrolled_to. assign.
      f_equal. f_equal. lia.
Qed.

(** X19. In Main mode, with a scroll that is not negative, [n] Right keys
    followed by [m] Left keys move the scroll by five columns each way
    and stop at 0; nothing else changes but the refresh flag.  As many
    Left as Right keys restore the scroll. *)
Theorem horizontal_scroll_keys (w : World) (right left : Z) (n m : nat) :
  state (ui w) = MAIN ->
  0 <= x_scroll (ui w) ->
  key_in right Keys.MOVE_RIGHT = true ->
  key_in left Keys.MOVE_LEFT = true ->
  exists asked,
    drain (repeat (KeyboardEvent right) n ++ repeat (KeyboardEvent left) m) w
    = Drained
        (with_ui w
           (scrolled_to (ui w)
              (Z.max 0 (x_scroll (ui w) + 5 * Z.of_nat n - 5 * Z.of_nat m))
              asked))
    /\ (n = m ->
        x_scroll (scrolled_to (ui w)
                    (Z.max 0 (x_scroll (ui w) + 5 * Z.of_nat n
                              - 5 * Z.of_nat m)) asked)
        = x_scroll (ui w)).
Proof.
  intros Hst Hx Hr Hl.
  destruct (scroll_rights right n Hr w (repeat (KeyboardEvent left) m) Hst)
    as [a1 H1].
  rewrite H1.
  match goal with
  | |- context [drain _ ?w1] =>
      destruct (scroll_lefts left m Hl w1 []) as [a2 H2];
        [fields w; exact Hst | fields w; unfold scrolled_to; assign; lia |]
  end.
  rewrite app_nil_r in H2. rewrite H2. cbn [drain].
  exists a2. split.
  - reflexivity.
  - intros ->. fields w. unfold scrolled_to. assign. lia.
Qed.

Ltac run_event :=
  cbn [drain]; rewrite ?dispatch_key, ?dispatch_mouse; assign;
  cbv delta [process_keyboard_event_main process_keyboard_event_help
             process_keyboard_event_setup process_keyboard_event_remove_ask
             process_keyboard_event_select_sort process_mouse_event_main];
  cbv beta; eval_keys;
  cbv beta iota zeta delta
      [follow_focused focused_download get_column_at_x lookup_or raise];
  assign.

(** X20. In Main mode Next-sort and Previous-sort undo each other between the
    first and the last column, and stop there: Next-sort does nothing on
    the last column, Previous-sort nothing on the first. *)
Theorem next_previous_sort_keys (w : World) (next previous : Z) :
  state (ui w) = MAIN ->
  key_in next Keys.NEXT_SORT = true ->
  key_in previous Keys.PREVIOUS_SORT = true ->
  (0 <= sort (ui w) < Py.len columns_order - 1 ->
   drain [KeyboardEvent next; KeyboardEvent previous] w
   = Drained (with_ui w (set_refresh true (ui w))))
  /\ (0 < sort (ui w) <= Py.len columns_order - 1 ->
      drain [KeyboardEvent previous; KeyboardEvent next] w
      = Drained (with_ui w (set_refresh true (ui w))))
  /\ (Py.len columns_order - 1 <= sort (ui w) ->
      drain [KeyboardEvent next] w = Drained w)
  /\ (sort (ui w) <= 0 -> drain [KeyboardEvent previous] w = Drained w).
Proof.
  intros Hst Hn Hp. fields w. subst st.
  change (Py.len columns_order - 1) with 7.
  assert (Hnext : forall s r,
            drain [KeyboardEvent next]
              (mkWorld (mk MAIN fr fo sf s rv xs xo yo ro r wd ht dt rw sc fl
                          bd lrc ap) snt lg)
            = Drained
                (mkWorld
                   (if s <? 7
                    then mk MAIN fr fo sf (s + 1) rv xs xo yo ro true wd ht dt
                           rw sc fl bd lrc ap
                    else mk MAIN fr fo sf s rv xs xo yo ro r wd ht dt rw sc fl
                           bd lrc ap) snt lg)).
  { intros s r. key_cases Hn; run_event;
      change (Py.len columns_table - 1) with 7;
      destruct (s <? 7); reflexivity. }
  assert (Hprev : forall s r,
            drain [KeyboardEvent previous]
              (mkWorld (mk MAIN fr fo sf s rv xs xo yo ro r wd ht dt rw sc fl
                          bd lrc ap) snt lg)
            = Drained
                (mkWorld
                   (if s >? 0
                    then mk MAIN fr fo sf (s - 1) rv xs xo yo ro true wd ht dt
                           rw sc fl bd lrc ap
                    else mk MAIN fr fo sf s rv xs xo yo ro r wd ht dt rw sc fl
                           bd lrc ap) snt lg)).
  { intros s r. key_cases Hp; run_event; destruct (s >? 0); reflexivity. }
  assert (Hcat : forall a b w0,
            drain [a; b] w0
            = match drain [a] w0 with
              | Drained w1 => drain [b] w1
              | Exited w1 => Exited w1
              end).
  { intros a b w0. cbn [drain].
    destruct (process_event a w0) as [[] w1|[] w1]; reflexivity. }
  repeat split.
  - intros Hs. rewrite Hcat, Hnext.
    destruct (so <? 7) eqn:E; [|apply Z.ltb_ge in E; lia].
    rewrite Hprev.
    destruct (so + 1 >? 0) eqn:E2;
      [|rewrite Z.gtb_ltb in E2; apply Z.ltb_ge in E2; lia].
    assign. do 3 f_equal. lia.
  - intros Hs. rewrite Hcat, Hprev.
    destruct (so >? 0) eqn:E;
      [|rewrite Z.gtb_ltb in E; apply Z.ltb_ge in E; lia].
    rewrite Hnext.
    destruct (so - 1 <? 7) eqn:E2; [|apply Z.ltb_ge in E2; lia].
    assign. do 3 f_equal. lia.
  - intros Hs. rewrite Hnext.
    destruct (so <? 7) eqn:E; [apply Z.ltb_lt in E; lia|]. reflexivity.
  - intros Hs. rewrite Hprev.
    destruct (so >? 0) eqn:E;
      [rewrite Z.gtb_ltb in E; apply Z.ltb_lt in E; lia|]. reflexivity.
Qed.

Lemma help_ignores_mouse (clicks : list Event) :
  Forall (fun event => is_mouse event = true) clicks ->
  forall (w : World) (rest : list Event),
    state (ui w) = HELP ->
    drain (clicks ++ rest) w = drain rest w.
Proof.
  induction clicks as [|event more IH]; intros Hall w rest Hst.
  - reflexivity.
  - inversion Hall as [|? ? Hev Hmore]; subst.
    destruct event as [|x y buttons]; [discriminate|].
    cbn [app drain]. rewrite dispatch_mouse, Hst.
    apply IH; assumption.
Qed.

(** X21. The help screen is left by any key and by nothing else: opened from
    Main mode, it ignores mouse events, and the next key, whichever it
    is, brings Main mode back with nothing changed but the refresh
    flag. *)
Theorem help_screen_round_trip (w : World) (help any : Z)
    (clicks : list Event) :
  state (ui w) = MAIN ->
  key_in help Keys.HELP = true ->
  Forall (fun event => is_mouse event = true) clicks ->
  drain (KeyboardEvent help :: clicks) w
  = Drained (with_ui w (set_refresh true (set_state HELP (ui w))))
  /\ drain (KeyboardEvent help :: clicks ++ [KeyboardEvent any]) w
     = Drained (with_ui w (set_refresh true (ui w))).
Proof.
  intros Hst Hh Hclicks. fields w. subst st.
  assert (Hopen : forall rest,
            drain (KeyboardEvent help :: rest)
              (mkWorld (mk MAIN fr fo sf so rv xs xo yo ro rf wd ht dt rw sc
                          fl bd lrc ap) snt lg)
            = drain rest
                (mkWorld (mk HELP fr fo sf so rv xs xo yo ro true wd ht dt rw
                            sc fl bd lrc ap) snt lg)).
  { intros rest. key_cases Hh; run_event; reflexivity. }
  split.
  - rewrite Hopen.
    rewrite <- (app_nil_r clicks), help_ignores_mouse by (assumption || reflexivity).
    reflexivity.
  - rewrite Hopen, help_ignores_mouse by (assumption || reflexivity).
    run_event. reflexivity.
Qed.

(** X22. With no tasks listed, a left click under the header line leaves a
    negative focus index, and the next Follow-row or Remove-ask key
    fails on it: the lookup of the focused task raises, the event loop
    logs the error and goes on, and nothing is followed. *)
Theorem follow_after_click_on_empty_list (w : World) (x y buttons key : Z) :
  state (ui w) = MAIN ->
  data (ui w) = [] ->
  rows (ui w) = [] ->
  Z.land buttons LEFT_CLICK <> 0 ->
  y <> 0 ->
  key_in key (Keys.FOLLOW_ROW ++ Keys.REMOVE_ASK) = true ->
  drain [MouseEvent x y buttons; KeyboardEvent key] w
  = Drained
      (logger_exception IndexError
         (with_ui w
            (set_refresh true
               (set_focused (Z.min (y - 1 + row_offset (ui w)) (-1))
                  (ui w))))).
Proof.
  intros Hst Hdata Hrows Hbtn Hy Hkey. fields w. subst st dt rw.
  apply Z.eqb_neq in Hbtn, Hy.
  assert (Hnone : forall i : Z, Py.getitem (@nil Download.t) i = None).
  { intros i. apply getitem_out_of_range. cbn. lia. }
  assert (Hlt : (Z.min (y - 1 + ro) (-1) <? 0) = true)
    by (apply Z.ltb_lt; lia).
  key_cases Hkey; run_event; rewrite Hbtn, Hy; cbn [negb]; assign;
    change (Py.len (@nil (list string)) - 1) with (-1);
    cbn [drain]; rewrite dispatch_key; assign;
    cbv delta [process_keyboard_event_main]; cbv beta; eval_keys;
    cbv beta iota zeta delta [follow_focused lookup_or raise]; assign;
    change (Py.len (@nil Download.t)) with 0;
    rewrite Hlt, Hnone; reflexivity.
Qed.

Lemma getitem_Some_guard {A} (l : list A) (i : Z) (a : A) :
  Py.getitem l i = Some a -> (i <? Py.len l) = true.
Proof.
  intros H. apply Z.ltb_lt.
  destruct (Z_lt_ge_dec i (Py.len l)) as [Hlt|Hge]; [exact Hlt|].
  rewrite getitem_out_of_range in H by lia. discriminate.
Qed.

(** X23. The Remove-confirm menu opens on the entry the side focus was left
    on when no removal was confirmed before.  After the Select-sort
    panel that is the index of the sort column: with a sort column from
    the fifth on, opening the menu and pressing Enter looks up an entry
    the menu does not have, the error is logged, no command is sent and
    the menu stays open. *)
Theorem select_sort_focus_leaks_into_remove_menu (w : World)
    (select cancel ask enter : Z) (d : Download.t) :
  state (ui w) = MAIN ->
  last_remove_choice (ui w) = None ->
  Py.getitem (data (ui w)) (focused (ui w)) = Some d ->
  Py.len remove_ask_rows <= sort (ui w) ->
  key_in select Keys.SELECT_SORT = true ->
  key_in cancel Keys.CANCEL = true ->
  key_in ask Keys.REMOVE_ASK = true ->
  key_in enter Keys.ENTER = true ->
  drain [KeyboardEvent select; KeyboardEvent cancel; KeyboardEvent ask;
         KeyboardEvent enter] w
  = Drained
      (logger_exception IndexError
         (with_ui w
            (set_refresh true
               (set_x_offset (width_remove_ask + 1)
                  (set_state REMOVE_ASK
                     (set_follow (Some d)
                        (set_side_focused (sort (ui w)) (ui w)))))))).
Proof.
  intros Hst Hlast Hd Hsort Hsel Hcan Hask Henter.
  pose proof (getitem_Some_guard _ _ _ Hd) as Hguard.
  fields w. subst st lrc.
  assert (Hrow : Py.getitem remove_ask_rows so = None).
  { apply getitem_out_of_range. right. exact Hsort. }
  key_cases Hsel. key_cases Hcan. key_cases Henter.
  key_cases Hask; do 3 run_event; rewrite Hguard, Hd; assign;
    run_event; rewrite Hrow; reflexivity.
Qed.

(** X24. A confirmed choice is remembered: after Enter in the Remove-confirm
    menu has returned, the menu opens on the entry it was confirmed on,
    also when the Select-sort panel moved the side focus in between. *)
Theorem remove_menu_remembers_choice (w w1 : World)
    (enter select cancel ask : Z) (d : Download.t) :
  state (ui w) = REMOVE_ASK ->
  key_in enter Keys.ENTER = true ->
  process_event (KeyboardEvent enter) w = Returned tt w1 ->
  Py.getitem (data (ui w)) (focused (ui w)) = Some d ->
  key_in select Keys.SELECT_SORT = true ->
  key_in cancel Keys.CANCEL = true ->
  key_in ask Keys.REMOVE_ASK = true ->
  exists w',
    drain [KeyboardEvent select; KeyboardEvent cancel; KeyboardEvent ask] w1
    = Drained w'
    /\ state (ui w') = REMOVE_ASK
    /\ side_focused (ui w') = side_focused (ui w)
    /\ last_remove_choice (ui w') = Some (side_focused (ui w))
    /\ follow (ui w') = Some d
    /\ sent w' = sent w1.
Proof.
  intros Hst Henter Hrun Hd Hsel Hcan Hask.
  pose proof (getitem_Some_guard _ _ _ Hd) as Hguard.
  fields w. subst st.
  key_cases Henter. key_cases Hsel. key_cases Hcan.
  rewrite dispatch_key in Hrun. revert Hrun. assign.
  cbv delta [process_keyboard_event_remove_ask]. cbv beta. eval_keys.
  cbv beta iota zeta delta [lookup_or raise call]. assign.
  destruct fl as [followed|].
  - destruct (Py.getitem remove_ask_rows sf) as [row|]; [|discriminate].
    assign.
    match goal with
    | |- context [if ?c then _ else _] => destruct c
    end; [discriminate|].
    intros Hrun. inversion Hrun; subst w1; clear Hrun.
    eexists.
    split; [key_cases Hask; do 3 run_event; rewrite Hguard, Hd; assign;
            reflexivity|].
    repeat split.
  - intros Hrun. inversion Hrun; subst w1; clear Hrun.
    eexists.
    split; [key_cases Hask; do 3 run_event; rewrite Hguard, Hd; assign;
            reflexivity|].
    repeat split.
Qed.


Lemma NoDup_app_disjoint {A} (l1 l2 : list A) (a : A) :
  NoDup (l1 ++ l2) -> In a l1 -> In a l2 -> False.
Proof.
  induction l1 as [|b l1 IH]; intros Hnd H1 H2; [contradiction|].
  cbn in Hnd. inversion Hnd as [|? ? Hnot Hrest]; subst.
  destruct H1 as [->|H1].
  - apply Hnot. apply in_or_app. right. exact H2.
  - exact (IH Hrest H1 H2).
Qed.

Lemma key_codes_NoDup : NoDup (flat_map Keys.values all_key_lists).
Proof.
  assert (H : nodup Z.eq_dec (flat_map Keys.values all_key_lists)
              = flat_map Keys.values all_key_lists) by (vm_compute; reflexivity).
  rewrite <- H. apply NoDup_nodup.
Qed.

Lemma key_lists_apart (code : Z) (before between after : list (list Key.t))
    (keys keys' : list Key.t) :
  all_key_lists = before ++ keys :: between ++ keys' :: after ->
  In code (Keys.values keys) -> In code (Keys.values keys') -> False.
Proof.
  intros Hsplit Hin Hin'.
  pose proof key_codes_NoDup as Hnd. rewrite Hsplit in Hnd.
  rewrite flat_map_app in Hnd. apply NoDup_app_remove_l in Hnd.
  cbn [flat_map] in Hnd. rewrite flat_map_app in Hnd. cbn [flat_map] in Hnd.
  apply (NoDup_app_disjoint _ _ code Hnd Hin).
  apply in_or_app. right. apply in_or_app. left. exact Hin'.
Qed.

Lemma nth_error_two_split {A} (l : list A) (i j : nat) (a b : A) :
  (i < j)%nat ->
  nth_error l i = Some a ->
  nth_error l j = Some b ->
  exists before between after, l = before ++ a :: between ++ b :: after.
Proof.
  intros Hlt Hi Hj.
  destruct (nth_error_split l i Hi) as [l1 [l2 [-> Hlen]]].
  rewrite nth_error_app2 in Hj by lia.
  destruct (j - List.length l1)%nat as [|k] eqn:Hk; [lia|].
  cbn [nth_error] in Hj.
  destruct (nth_error_split l2 k Hj) as [l3 [l4 [-> _]]].
  exists l1, l3, l4. reflexivity.
Qed.

(** X29. No key code is registered for two actions: a code that is in one
    key list of the registry is in no other, so the order in which a
    handler tests the lists does not matter. *)
Theorem key_codes_name_one_action (code : Z) (i j : nat)
    (keys keys' : list Key.t) :
  nth_error all_key_lists i = Some keys ->
  nth_error all_key_lists j = Some keys' ->
  i <> j ->
  key_in code keys = true ->
  key_in code keys' = false.
Proof.
  intros Hi Hj Hne Hin.
  destruct (key_in code keys') eqn:Hin'; [exfalso|reflexivity].
  apply key_in_values in Hin, Hin'.
  destruct (Nat.lt_total i j) as [Hlt|[Heq|Hgt]]; [|contradiction|].
  - destruct (nth_error_two_split _ _ _ _ _ Hlt Hi Hj)
      as [before [between [after Hsplit]]].
    exact (key_lists_apart code _ _ _ _ _ Hsplit Hin Hin').
  - destruct (nth_error_two_split _ _ _ _ _ Hgt Hj Hi)
      as [before [between [after Hsplit]]].
    exact (key_lists_apart code _ _ _ _ _ Hsplit Hin' Hin).
Qed.


Lemma format_str_aligned (s digits : string) (align : ascii) (w : Z) :
  match digits with String "0"%char _ => False | _ => True end ->
  Py.int digits = Some w ->
  align = "<"%char \/ align = ">"%char ->
  exists formatted,
    format_str s (String align digits) = Some formatted
    /\ Py.str_len formatted = Z.max (Py.str_len s) w.
Proof.
  intros Hz Hint Halign. unfold format_str.
  assert (Hlen : forall a b, Py.str_len (a ++ b) = Py.str_len a + Py.str_len b).
  { intros a b. unfold Py.str_len. rewrite string_length_app. lia. }
  destruct digits as [|d ds]; [discriminate Hint|].
  destruct (Ascii.eqb_spec d "0"%char) as [->|Hd]; [contradiction|].
  replace (match d with
           | "0"%char => None
           | _ =>
               match Py.int (String d ds) with
               | Some width =>
                   if (align =? "<")%char
                   then Some (s ++ spaces (width - Py.str_len s))%string
                   else if (align =? ">")%char
                        then Some (spaces (width - Py.str_len s) ++ s)%string
                        else None
               | None => None
               end
           end)
    with (match Py.int (String d ds) with
          | Some width =>
              if (align =? "<")%char
              then Some (s ++ spaces (width - Py.str_len s))%string
              else if (align =? ">")%char
                   then Some (spaces (width - Py.str_len s) ++ s)%string
                   else None
          | None => None
          end).
  - rewrite Hint. destruct Halign as [->| ->]; cbn [Ascii.eqb]; eexists;
      (split; [reflexivity|]); rewrite Hlen, spaces_len; lia.
  - destruct d as [[] [] [] [] [] [] [] []]; try reflexivity.
    exfalso. apply Hd. reflexivity.
Qed.

Lemma print_at_appends (painter : HorizontalScroll.t) (text : string)
    (x y : Z) (palette : Screen.Palette) :
  exists ops,
    HorizontalScroll.screen
      (snd (HorizontalScroll.print_at painter text x y palette))
    = HorizontalScroll.screen painter ++ ops
    /\ Forall (fun op => op_y op = y) ops.
Proof.
  unfold HorizontalScroll.print_at, HorizontalScroll.write,
    HorizontalScroll.slice_palette.
  destruct (HorizontalScroll.scroll painter =? 0).
  - destruct palette; eexists; cbn; split; try reflexivity;
      repeat constructor.
  - cbv zeta. destruct (Py.str_len text >? HorizontalScroll.scroll painter).
    + destruct palette; eexists; cbn; split; try reflexivity;
        repeat constructor.
    + destruct (Py.str_len text =? HorizontalScroll.scroll painter);
        exists []; cbn; rewrite app_nil_r; split; constructor.
Qed.

Lemma paintable_columns : Forall paintable columns_order.
Proof.
  unfold columns_order.
  repeat constructor;
    (do 2 eexists; split; [reflexivity|]; split; [reflexivity|];
     first
       [ left; reflexivity
       | right; split; [reflexivity|];
         intros s;
         match goal with
         | |- context [format_str s (padding ?c)] =>
             let p := eval vm_compute in (padding c) in
             change (padding c) with p
         end;
         match goal with
         | |- context [format_str s (String ?a ?ds)] =>
             let w := eval vm_compute in (Py.int ds) in
             match w with
             | Some ?n =>
                 destruct (format_str_aligned s ds a n I eq_refl
                             ltac:(first [left; reflexivity
                                         | right; reflexivity]))
                   as [formatted [Hf _]];
                 exists formatted; exact Hf
             end
         end ]).
Qed.

Lemma print_row_total (self : Interface.t) (y : Z) (row : list string)
    (names : list string) :
  Forall paintable names ->
  forall (i : nat) (x : Z) (painter : HorizontalScroll.t),
    (i + List.length names <= List.length row)%nat ->
    exists ops painter',
      print_row_from self y row names i x painter = Some painter'
      /\ HorizontalScroll.screen painter'
         = HorizontalScroll.screen painter ++ ops
      /\ Forall (fun op => op_y op = y) ops.
Proof.
  induction 1 as [|column_name rest Hname Hrest IH]; intros i x painter Hlen.
  - exists [], painter. cbn. rewrite app_nil_r. repeat split. constructor.
  - destruct Hname as [column [choose [Hc [Hp Hpad]]]].
    cbn [print_row_from List.length] in *. rewrite Hc, Hp.
    destruct (nth_error row i) as [cell|] eqn:Hcell;
      [|apply nth_error_None in Hcell; lia].
    assert (Hfield : exists text, field_string self column x cell = Some text).
    { unfold field_string. destruct Hpad as [->|[-> Hf]].
      - eexists. reflexivity.
      - destruct (Hf cell) as [formatted ->]. eexists. reflexivity. }
    destruct Hfield as [text ->]. cbv zeta.
    destruct (print_at_appends painter text x y
                (cell_palette self y choose cell)) as [ops1 [Hs1 Hy1]].
    match goal with
    | |- context [print_row_from self y row rest (S i) ?x' ?p'] =>
        destruct (IH (S i) x' p' ltac:(lia)) as [ops2 [painter' [Hrun [Hs2 Hy2]]]]
    end.
    exists (ops1 ++ ops2), painter'. split; [exact Hrun|].
    split; [rewrite Hs2, Hs1, app_assoc; reflexivity|].
    apply Forall_app. split; assumption.
Qed.

Lemma print_rows_total (self : Interface.t) (window : list (list string)) :
  Forall (fun row => (8 <= List.length row)%nat) window ->
  forall (y : Z) (painter : HorizontalScroll.t),
    exists ops painter',
      print_rows_from self window y painter
      = Some (y + Py.len window, painter')
      /\ HorizontalScroll.screen painter'
         = HorizontalScroll.screen painter ++ ops
      /\ Forall (fun op => y <= op_y op < y + Py.len window) ops.
Proof.
  induction 1 as [|row rest Hrow Hrest IH]; intros y painter.
  - exists [], painter. cbn. rewrite app_nil_r, Z.add_0_r.
    repeat split. constructor.
  - cbn [print_rows_from].
    destruct (print_row_total self y row columns_order paintable_columns 0
                (x_offset self)
                (HorizontalScroll.set_scroll painter (x_scroll self)))
      as [ops1 [p1 [Hrun1 [Hs1 Hy1]]]]; [cbn; lia|].
    rewrite Hrun1.
    destruct (IH (y + 1) p1) as [ops2 [p2 [Hrun2 [Hs2 Hy2]]]].
    rewrite Hrun2. exists (ops1 ++ ops2), p2.
    unfold Py.len in *. cbn [List.length]. rewrite Nat2Z.inj_succ.
    split; [do 2 f_equal; lia|].
    split; [rewrite Hs2, Hs1, app_assoc; reflexivity|].
    apply Forall_app. split.
    + eapply Forall_impl; [|exact Hy1]. cbn. intros op ->. lia.
    + eapply Forall_impl; [|exact Hy2]. cbn. intros op Hop. lia.
Qed.

Lemma print_headers_total (self : Interface.t) (names : list string) :
  Forall paintable names ->
  forall (x c : Z) (painter : HorizontalScroll.t),
    exists ops painter',
      print_headers_from self names x c painter = Some painter'
      /\ HorizontalScroll.screen painter'
         = HorizontalScroll.screen painter ++ ops
      /\ Forall (fun op => op_y op = y_offset self) ops.
Proof.
  induction 1 as [|column_name rest Hname Hrest IH]; intros x c painter.
  - exists [], painter. cbn. rewrite app_nil_r. repeat split. constructor.
  - destruct Hname as [column [choose [Hc [_ Hpad]]]].
    cbn [print_headers_from]. rewrite Hc. cbv zeta.
    destruct Hpad as [->|[-> Hf]].
    + match goal with
      | |- context [HorizontalScroll.print_at painter ?t ?x0 ?y0 ?p] =>
          destruct (print_at_appends painter t x0 y0 p) as [ops1 [Hs1 Hy1]];
          remember (HorizontalScroll.print_at painter t x0 y0 p) as r1 eqn:E1
      end.
      match goal with
      | |- context [HorizontalScroll.print_at (snd r1) ?t ?x0 ?y0 ?p] =>
          destruct (print_at_appends (snd r1) t x0 y0 p) as [ops2 [Hs2 Hy2]];
          remember (HorizontalScroll.print_at (snd r1) t x0 y0 p) as r2 eqn:E2
      end.
      destruct (IH (x + fst r1) (c + 1) (snd r2))
        as [ops3 [painter' [Hrun [Hs3 Hy3]]]].
      exists (ops1 ++ ops2 ++ ops3), painter'. split; [exact Hrun|].
      split; [rewrite Hs3, Hs2, Hs1, <- !app_assoc; reflexivity|].
      repeat (apply Forall_app; split); assumption.
    + destruct (Hf (header column)) as [formatted ->].
      match goal with
      | |- context [HorizontalScroll.print_at painter ?t ?x0 ?y0 ?p] =>
          destruct (print_at_appends painter t x0 y0 p) as [ops1 [Hs1 Hy1]];
          remember (HorizontalScroll.print_at painter t x0 y0 p) as r1 eqn:E1
      end.
      destruct (IH (x + fst r1) (c + 1) (snd r1))
        as [ops3 [painter' [Hrun [Hs3 Hy3]]]].
      exists (ops1 ++ ops3), painter'. split; [exact Hrun|].
      split; [rewrite Hs3, Hs1, <- !app_assoc; reflexivity|].
      repeat (apply Forall_app; split); assumption.
Qed.

Lemma blank_lines_ops (text : string) (x y : Z) (count : nat) :
  forall (first : Z) (painter : HorizontalScroll.t),
    blank_lines text x y first count painter
    = HorizontalScroll.mk
        (HorizontalScroll.screen painter
         ++ map (fun k => Screen.PrintAt text x (y + first + Z.of_nat k)
                            default_attr)
              (seq 0 count))
        (HorizontalScroll.scroll painter).
Proof.
  induction count as [|count IH]; intros first painter.
  - cbn. rewrite app_nil_r. destruct painter; reflexivity.
  - cbn [blank_lines]. rewrite IH.
    cbn [screen_print_at HorizontalScroll.screen HorizontalScroll.scroll].
    rewrite <- app_assoc. do 2 f_equal.
    cbn [seq map app]. rewrite Z.add_0_r. f_equal.
    rewrite <- seq_shift, map_map.
    apply map_ext. intros k. f_equal. lia.
Qed.

Lemma Forall_firstn_of {A} (P : A -> Prop) (n : nat) :
  forall l : list A, Forall P l -> Forall P (firstn n l).
Proof.
  induction n as [|n IH]; intros l H; [constructor|].
  destruct H as [|a l Ha Hl]; cbn; constructor; auto.
Qed.

Lemma Forall_skipn_of {A} (P : A -> Prop) (n : nat) :
  forall l : list A, Forall P l -> Forall P (skipn n l).
Proof.
  induction n as [|n IH]; intros l H; [exact H|].
  destruct H as [|a l Ha Hl]; cbn; [constructor | auto].
Qed.

Lemma Forall_slice {A} (P : A -> Prop) (l : list A) (start stop : Z) :
  Forall P l -> Forall P (list_slice l start stop).
Proof.
  intros H. unfold list_slice.
  apply Forall_firstn_of, Forall_skipn_of. exact H.
Qed.

Lemma rows_of_cells (tasks : list Download.t) :
  Forall (fun row => (8 <= List.length row)%nat) (rows_of tasks).
Proof.
  unfold rows_of. apply Forall_forall. intros row Hrow.
  apply in_map_iff in Hrow. destruct Hrow as [d [<- _]]. cbn. lia.
Qed.

Lemma print_table_total (self : Interface.t)
    (painter : HorizontalScroll.t) :
  scroller self = Some painter ->
  rows_in_sync self ->
  exists ops painter',
    print_table self = Some (set_scroller (Some painter') self)
    /\ HorizontalScroll.screen painter'
       = HorizontalScroll.screen painter ++ ops
    /\ Forall (fun op => y_offset self <= op_y op) ops.
Proof.
  intros Hsc Hsync. unfold print_table, print_headers, painting at 1.
  rewrite Hsc.
  destruct (print_headers_total self columns_order paintable_columns
              (x_offset self) 0
              (HorizontalScroll.set_scroll painter (x_scroll self)))
    as [ops1 [p1 [Hrun1 [Hs1 Hy1]]]].
  rewrite Hrun1. unfold print_rows, painting.
  cbn [scroller set_scroller rows row_offset height y_offset width x_offset].
  assert (Hwindow : Forall (fun row => (8 <= List.length row)%nat)
                      (list_slice (rows self) (row_offset self)
                         (row_offset self + height self))).
  { apply Forall_slice. rewrite Hsync. apply rows_of_cells. }
  destruct (print_rows_total (set_scroller (Some p1) self) _ Hwindow
              (y_offset self + 1) p1) as [ops2 [p2 [Hrun2 [Hs2 Hy2]]]].
  rewrite Hrun2. rewrite blank_lines_ops.
  eexists. eexists. split; [reflexivity|].
  cbn [HorizontalScroll.screen]. rewrite Hs2, Hs1.
  cbn [HorizontalScroll.screen HorizontalScroll.set_scroll].
  rewrite <- !app_assoc. split; [reflexivity|].
  repeat (apply Forall_app; split).
  - eapply Forall_impl; [|exact Hy1]. cbn. intros op ->. lia.
  - eapply Forall_impl; [|exact Hy2]. cbn. intros op Hop. lia.
  - apply Forall_forall. intros op Hop. apply in_map_iff in Hop.
    destruct Hop as [k [<- _]]. cbn [op_y]. 
    unfold Py.len. lia.
Qed.

Lemma row_step (self : Interface.t) (y : Z) (row : list string)
    (column_name : string) (rest : list string) (i : nat) (x : Z)
    (scr : Screen.t) (column : Column) (choose : string -> PaletteChoice)
    (cell text : string) :
  columns column_name = Some column ->
  get_palette column_name = Some choose ->
  nth_error row i = Some cell ->
  field_string self column x cell = Some text ->
  print_row_from self y row (column_name :: rest) i x
    (HorizontalScroll.mk scr 0)
  = print_row_from self y row rest (S i) (x + Py.str_len text)
      (HorizontalScroll.mk
         (scr ++ [written_op text x y (cell_palette self y choose cell)]) 0).
Proof.
  intros Hc Hp Hcell Hf. cbn [print_row_from]. rewrite Hc, Hp, Hcell, Hf.
  cbv zeta. unfold HorizontalScroll.print_at.
  cbn [HorizontalScroll.scroll HorizontalScroll.screen Z.eqb fst snd].
  unfold HorizontalScroll.write, written_op.
  destruct (cell_palette self y choose cell); reflexivity.
Qed.

Lemma status_palette_not_focused (value : string) :
  palettes ("status_" ++ value) <> palettes "focused_row".
Proof.
  change (palettes "focused_row")
    with (Colour.COLOUR_BLACK, Colour.A_NORMAL, Colour.COLOUR_CYAN).
  unfold palettes, palettes_table. cbn [palette_lookup].
  repeat match goal with
    | |- context [if String.eqb ?k ?n then _ else _] =>
        destruct (String.eqb_spec k n) as [E|E];
        [try (cbn [append] in E; discriminate E); clear E|clear E]
    end; vm_compute; discriminate.
Qed.

Lemma column_palettes_never_focused (column_name : string)
    (choose : string -> PaletteChoice) :
  get_palette column_name = Some choose -> never_focused_palette choose.
Proof.
  unfold get_palette, get_palette_table. cbn [get_palette_lookup].
  repeat match goal with
    | |- (if String.eqb ?a column_name then _ else _) = _ -> _ =>
        destruct (String.eqb a column_name);
        [intros H; inversion H; subst; clear H|]
    end; try discriminate; intros cell n Hn.
  all: try (inversion Hn; subst; vm_compute; discriminate).
  - unfold Palette.status in Hn. inversion Hn; subst.
    apply status_palette_not_focused.
  - unfold Palette.name in Hn.
    destruct (String.prefix "[METADATA]" cell); inversion Hn; subst.
    vm_compute. discriminate.
Qed.

Lemma written_op_highlights (self : Interface.t) (y x : Z)
    (choose : string -> PaletteChoice) (cell text : string) :
  never_focused_palette choose ->
  highlights_focus self
    (written_op text x y (cell_palette self y choose cell)).
Proof.
  intros Hnever. unfold highlights_focus, cell_palette.
  destruct (Z.eqb_spec (focused self) (y - y_offset self - 1 + row_offset self))
    as [Heq|Hneq]; cbn [written_op op_y op_attr].
  - split; [reflexivity | lia].
  - destruct (choose cell) as [n|l] eqn:Hn; cbn [written_op op_y op_attr];
      split; try lia; intros H; try discriminate.
    inversion H as [H1]. exfalso. exact (Hnever cell n Hn H1).
Qed.

Lemma op_y_written (text : string) (x y : Z) (palette : Screen.Palette) :
  op_y (written_op text x y palette) = y.
Proof. destruct palette; reflexivity. Qed.

Lemma op_x_written (text : string) (x y : Z) (palette : Screen.Palette) :
  op_x (written_op text x y palette) = x.
Proof. destruct palette; reflexivity. Qed.

Ltac cell_step :=
  match goal with
  | |- context [print_row_from ?self ?y ?row (?name :: ?rest) ?i ?x
                  (HorizontalScroll.mk ?scr 0)] =>
      let col := eval cbv beta iota delta
                   [columns lookup columns_table String.eqb Ascii.eqb
                    Bool.eqb] in (columns name) in
      let cho := eval cbv beta iota delta
                   [get_palette get_palette_lookup get_palette_table
                    String.eqb Ascii.eqb Bool.eqb] in (get_palette name) in
      let cel := eval cbn in (nth_error row i) in
      match col with
      | Some ?column =>
          match cho with
          | Some ?choose =>
              match cel with
              | Some ?cell =>
                  let p := eval vm_compute in (padding column) in
                  match p with
                  | String ?a ?ds =>
                      let w := eval vm_compute in (Py.int ds) in
                      match w with
                      | Some ?n =>
                          let f := fresh "formatted" in
                          let Hf := fresh "Hf" in
                          let Hl := fresh "Hl" in
                          destruct (format_str_aligned cell ds a n I eq_refl
                                      ltac:(first [left; reflexivity
                                                  | right; reflexivity]))
                            as [f [Hf Hl]];
                          rewrite (row_step self y row name rest i x scr
                                     column choose cell (f ++ " ")%string
                                     eq_refl eq_refl eq_refl)
                            by (unfold field_string;
                                change (padding column) with (String a ds);
                                rewrite Hf; reflexivity);
                          pose proof (written_op_highlights self y x choose
                                        cell (f ++ " ")%string
                                        (column_palettes_never_focused name
                                           choose eq_refl));
                          rewrite (str_len_app f " "), Hl
                      end
                  end
              end
          end
      end
  end.

Lemma print_row_layout (self : Interface.t) (y : Z) (row : list string)
    (scr : Screen.t) :
  fits self row ->
  exists ops,
    print_row_from self y row columns_order 0 (x_offset self)
      (HorizontalScroll.mk scr 0)
    = Some (HorizontalScroll.mk (scr ++ ops) 0)
    /\ map (fun op => (op_y op, op_x op)) ops = cell_positions self y
    /\ Forall (highlights_focus self) ops.
Proof.
  intros [Hlen Hfit].
  do 8 (destruct row as [|? row]; [discriminate Hlen|]).
  destruct row; [|discriminate Hlen]. clear Hlen.
  unfold bounds_for in Hfit. cbn [firstn] in Hfit.
  repeat match goal with
    | H : Forall2 _ (_ :: _) (_ :: _) |- _ =>
        inversion H; subst; clear H
    end.
  cbn [fst snd] in *.
  unfold columns_order.
  do 7 cell_step.
  match goal with
  | |- context [print_row_from ?self ?y ?row [?name] ?i ?x
                  (HorizontalScroll.mk ?scr 0)] =>
      let col := eval cbv beta iota delta
                   [columns lookup columns_table String.eqb Ascii.eqb
                    Bool.eqb] in (columns name) in
      let cho := eval cbv beta iota delta
                   [get_palette get_palette_lookup get_palette_table
                    String.eqb Ascii.eqb Bool.eqb] in (get_palette name) in
      let cel := eval cbn in (nth_error row i) in
      match col with
      | Some ?column =>
          match cho with
          | Some ?choose =>
              match cel with
              | Some ?cell =>
                  rewrite (row_step self y row name [] i x scr column choose
                             cell
                             (format_left cell (Z.max 0 (width self - x))
                              ++ " ")%string eq_refl eq_refl eq_refl eq_refl);
                  pose proof (written_op_highlights self y x choose cell
                                (format_left cell (Z.max 0 (width self - x))
                                 ++ " ")%string
                                (column_palettes_never_focused name choose
                                   eq_refl))
              end
          end
      end
  end.
  cbn [print_row_from]. rewrite <- !app_assoc. cbn [app].
  eexists. split; [reflexivity|].
  split.
  - repeat match goal with
      | H : highlights_focus _ _ |- _ => clear H
      end.
    unfold cell_positions, bounds_for. cbn [map fst].
    rewrite !op_y_written, !op_x_written.
    change (Py.str_len " ") with 1.
    repeat (apply (f_equal2 cons);
            [apply (f_equal2 pair); [reflexivity|lia]|]).
    reflexivity.
  - repeat (constructor; [assumption|]). constructor.
Qed.

Lemma flat_map_map {A B C} (f : B -> list C) (g : A -> B) (l : list A) :
  flat_map f (map g l) = flat_map (fun a => f (g a)) l.
Proof.
  induction l as [|a l IH]; cbn; [reflexivity | rewrite IH; reflexivity].
Qed.

Lemma print_rows_layout_from (self : Interface.t)
    (window : list (list string)) :
  x_scroll self = 0 ->
  Forall (fits self) window ->
  forall (y : Z) (painter : HorizontalScroll.t),
    exists ops painter',
      print_rows_from self window y painter
      = Some (y + Py.len window, painter')
      /\ HorizontalScroll.screen painter'
         = HorizontalScroll.screen painter ++ ops
      /\ map (fun op => (op_y op, op_x op)) ops
         = flat_map (fun k => cell_positions self (y + Z.of_nat k))
             (seq 0 (List.length window))
      /\ Forall (highlights_focus self) ops.
Proof.
  intros Hx. induction 1 as [|row rest Hrow Hrest IH]; intros y painter.
  - exists [], painter. cbn. rewrite app_nil_r, Z.add_0_r.
    repeat split. constructor.
  - cbn [print_rows_from]. unfold HorizontalScroll.set_scroll. rewrite Hx.
    destruct (print_row_layout self y row (HorizontalScroll.screen painter)
                Hrow) as [ops1 [Hrun1 [Hpos1 Hfocus1]]].
    rewrite Hrun1.
    destruct (IH (y + 1)
                (HorizontalScroll.mk (HorizontalScroll.screen painter ++ ops1)
                   0))
      as [ops2 [p2 [Hrun2 [Hs2 [Hpos2 Hfocus2]]]]].
    rewrite Hrun2. exists (ops1 ++ ops2), p2.
    unfold Py.len. cbn [List.length]. rewrite Nat2Z.inj_succ.
    split; [do 2 f_equal; unfold Py.len; lia|].
    split; [rewrite Hs2; cbn [HorizontalScroll.screen];
            rewrite app_assoc; reflexivity|].
    split; [|apply Forall_app; split; assumption].
    rewrite map_app, Hpos1, Hpos2. cbn [seq flat_map].
    rewrite Z.add_0_r. f_equal.
    rewrite <- seq_shift, flat_map_map.
    apply flat_map_ext. intros k. f_equal. lia.
Qed.

(** X25. With no horizontal scroll and rows the columns have room for,
    [print_rows] returns, and writes the rows of the window
    [rows[row_offset : row_offset + height]] from line [y_offset + 1]
    on, one line each, every cell starting where the header of its
    column starts; a write is in the focused-row palette exactly when it
    is on the line of the focused row; under the last row, blank lines
    as wide as the screen go down to line [height - 1]. *)
Theorem print_rows_layout (self : Interface.t)
    (painter : HorizontalScroll.t) :
  scroller self = Some painter ->
  x_scroll self = 0 ->
  let window :=
    list_slice (rows self) (row_offset self)
      (row_offset self + height self) in
  Forall (fits self) window ->
  exists row_ops painter',
    print_rows self = Some (set_scroller (Some painter') self)
    /\ HorizontalScroll.screen painter'
       = HorizontalScroll.screen painter ++ row_ops
         ++ map (fun k =>
                   Screen.PrintAt (spaces (width self)) (x_offset self)
                     (y_offset self + 1 + Py.len window + Z.of_nat k)
                     default_attr)
              (seq 0 (Z.to_nat (height self
                                - (y_offset self + 1 + Py.len window))))
    /\ map (fun op => (op_y op, op_x op)) row_ops
       = flat_map
           (fun k => cell_positions self (y_offset self + 1 + Z.of_nat k))
           (seq 0 (List.length window))
    /\ Forall (highlights_focus self) row_ops.
Proof.
  intros Hsc Hx window Hfit. unfold print_rows, painting. rewrite Hsc.
  destruct (print_rows_layout_from self window Hx Hfit (y_offset self + 1)
              painter) as [ops [p1 [Hrun [Hs [Hpos Hfocus]]]]].
  fold window. rewrite Hrun, blank_lines_ops.
  exists ops. eexists. split; [reflexivity|].
  cbn [HorizontalScroll.screen]. rewrite Hs, <- app_assoc.
  split; [|split; assumption].
  do 2 f_equal. apply map_ext. intros k. f_equal. lia.
Qed.

Lemma prefix_app (p s : string) :
  String.prefix p s = true -> exists rest, s = (p ++ rest)%string.
Proof.
  revert s. induction p as [|a p IH]; intros s H.
  - exists s. reflexivity.
  - destruct s as [|b s]; [discriminate|]. cbn [String.prefix] in H.
    destruct (ascii_dec a b) as [->|]; [|discriminate].
    destruct (IH s H) as [rest ->]. exists rest. reflexivity.
Qed.

Lemma rstrip_space_length (s : string) :
  Py.str_len (rstrip_space s) <= Py.str_len s.
Proof.
  unfold Py.str_len. induction s as [|c s IH]; [cbn; lia|].
  cbn [rstrip_space]. destruct (rstrip_space s) as [|k kept].
  - destruct (is_space c); cbn [String.length] in *; lia.
  - cbn [String.length] in *. lia.
Qed.

Lemma rstrip_space_keeps (c : ascii) (s : string) :
  is_space c = false ->
  rstrip_space (String c s) = String c (rstrip_space s).
Proof.
  intros H. cbn [rstrip_space]. rewrite H.
  destruct (rstrip_space s); reflexivity.
Qed.

Lemma strip_metadata (rest : string) :
  strip ("[METADATA]" ++ rest) = ("[METADATA]" ++ rstrip_space rest)%string.
Proof.
  unfold strip. cbn [append lstrip_space].
  change (is_space "[") with false. cbv iota.
  repeat (rewrite rstrip_space_keeps by reflexivity). reflexivity.
Qed.

(** X26. The colour list of a metadata name has one colour per character of
    the stripped name and one more; the text of the cell is the name
    padded to the room left, and a space.  So the list is never longer
    than the text, and it is shorter whenever the name is padded. *)
Theorem metadata_colours_fall_short (self : Interface.t) (column : Column)
    (x : Z) (value text : string) :
  String.prefix "[METADATA]" value = true ->
  columns "name" = Some column ->
  field_string self column x value = Some text ->
  exists colour_map,
    Palette.name value = Colours colour_map
    /\ Py.len colour_map = Py.str_len (strip value) + 1
    /\ Py.str_len text = Z.max (Py.str_len value) (width self - x) + 1
    /\ Py.len colour_map <= Py.str_len text
    /\ (Py.str_len value < width self - x ->
        Py.len colour_map < Py.str_len text).
Proof.
  intros Hprefix Hcolumn Hfield.
  inversion Hcolumn; subst column; clear Hcolumn.
  unfold field_string in Hfield. cbn [padding String.eqb Ascii.eqb Bool.eqb]
    in Hfield.
  inversion Hfield; subst text; clear Hfield.
  unfold Palette.name. rewrite Hprefix. eexists. split; [reflexivity|].
  destruct (prefix_app _ _ Hprefix) as [rest ->].
  rewrite strip_metadata.
  pose proof (rstrip_space_length rest) as Hrest.
  rewrite !str_len_app, format_left_len, !str_len_app.
  change (Py.str_len "[METADATA]") with 10. change (Py.str_len " ") with 1.
  assert (Hnn : 0 <= Py.str_len (rstrip_space rest))
    by (unfold Py.str_len; lia).
  unfold Py.len. rewrite !length_app, !repeat_length. cbn [List.length].
  repeat split; lia.
Qed.


Lemma format_width_some (s : string) (right : bool) (width : Z) :
  0 <= width ->
  exists formatted,
    format_width s right width = Some formatted
    /\ Py.str_len formatted = Z.max (Py.str_len s) width.
Proof.
  intros Hw. unfold format_width.
  destruct (Z.ltb_spec width 0); [lia|].
  destruct right; eexists; (split; [reflexivity|]).
  - rewrite str_len_app, spaces_len. lia.
  - apply format_left_len.
Qed.

Lemma format_width_none (s : string) (right : bool) (width : Z) :
  width < 0 -> format_width s right width = None.
Proof.
  intros Hw. unfold format_width.
  destruct (Z.ltb_spec width 0); [reflexivity | lia].
Qed.

Lemma print_keys_text_narrow (keys_text text : string) (y : Z)
    (self : Interface.t) (painter : HorizontalScroll.t) :
  width self < 8 -> print_keys_text keys_text text y self painter = None.
Proof.
  intros Hw. unfold print_keys_text. cbv zeta.
  destruct (format_width keys_text true 8); [|reflexivity].
  rewrite format_width_none by lia. reflexivity.
Qed.

Lemma print_keys_text_ops (keys_text text : string) (y : Z)
    (self : Interface.t) (painter : HorizontalScroll.t) :
  8 <= width self ->
  exists ops,
    print_keys_text keys_text text y self painter
    = Some (HorizontalScroll.mk (HorizontalScroll.screen painter ++ ops)
              (HorizontalScroll.scroll painter))
    /\ map op_cells ops
       = [(y, 0, Z.max (Py.str_len keys_text) 8);
          (y, 8, Z.max (Py.str_len text) (width self - 8))]
    /\ map op_attr ops = [Some (palettes "bright_help");
                          Some (palettes "default")].
Proof.
  intros Hw. unfold print_keys_text. cbv zeta.
  destruct (format_width_some keys_text true 8 ltac:(lia)) as [k [-> Hk]].
  destruct (format_width_some text false (width self - 8) ltac:(lia))
    as [t [-> Ht]].
  eexists. unfold screen_print_at.
  cbn [HorizontalScroll.screen HorizontalScroll.scroll].
  rewrite <- app_assoc. split; [reflexivity|].
  cbn [app map op_cells op_attr op_y op_x op_text]. unfold op_cells.
  cbn [op_y op_x op_text]. rewrite Hk, Ht. split; reflexivity.
Qed.

Lemma print_help_lines_ops (self : Interface.t) (lines : list string) :
  0 <= width self ->
  Forall (fun line => Py.str_len line <= width self) lines ->
  forall (y : Z) (painter : HorizontalScroll.t),
    exists ops,
      print_help_lines lines y self painter
      = Some (y + Py.len lines,
              HorizontalScroll.mk (HorizontalScroll.screen painter ++ ops)
                (HorizontalScroll.scroll painter))
      /\ map op_cells ops = full_cells (width self) y (List.length lines).
Proof.
  intros Hw. induction 1 as [|line rest Hline Hrest IH]; intros y painter.
  - exists []. cbn. rewrite app_nil_r, Z.add_0_r.
    destruct painter; split; reflexivity.
  - cbn [print_help_lines].
    destruct (format_width_some line false (width self) Hw) as [l [-> Hl]].
    destruct (IH (y + 1)
                (screen_print_at painter l 0 y (palettes "bright_help")))
      as [ops [Hrun Hcells]].
    rewrite Hrun. eexists. unfold screen_print_at.
    cbn [HorizontalScroll.screen HorizontalScroll.scroll].
    rewrite <- app_assoc. split.
    + unfold Py.len. cbn [List.length]. rewrite Nat2Z.inj_succ.
      cbn [app]. do 2 f_equal. unfold Py.len. lia.
    + cbn [app map List.length full_cells]. rewrite Hcells.
      unfold op_cells at 1. cbn [op_y op_x op_text]. rewrite Hl.
      do 2 f_equal. lia.
Qed.

Lemma print_help_entries_ops (self : Interface.t)
    (entries : list (list Key.t * string)) :
  8 <= width self ->
  Forall (help_entry_fits (width self)) entries ->
  forall (y : Z) (painter : HorizontalScroll.t),
    exists ops,
      print_help_entries entries y self painter
      = Some (y + Py.len entries,
              HorizontalScroll.mk (HorizontalScroll.screen painter ++ ops)
                (HorizontalScroll.scroll painter))
      /\ map op_cells ops
         = split_cells 8 (width self - 8) y (List.length entries).
Proof.
  intros Hw. induction 1 as [|[keys text] rest [Hk Ht] Hrest IH];
    intros y painter.
  - exists []. cbn. rewrite app_nil_r, Z.add_0_r.
    destruct painter; split; reflexivity.
  - cbn [print_help_entries]. unfold print_keys.
    cbn [fst snd] in Hk, Ht.
    destruct (print_keys_text_ops
                (String.concat " " (Keys.names keys) ++ ":") text y self
                painter Hw) as [ops1 [-> [Hcells1 _]]].
    match goal with
    | |- context [print_help_entries rest (y + 1) self ?p] =>
        destruct (IH (y + 1) p) as [ops2 [Hrun Hcells2]]
    end.
    rewrite Hrun. exists (ops1 ++ ops2).
    cbn [HorizontalScroll.screen HorizontalScroll.scroll].
    rewrite <- app_assoc. split.
    + unfold Py.len. cbn [List.length]. rewrite Nat2Z.inj_succ.
      do 2 f_equal. unfold Py.len. lia.
    + rewrite map_app, Hcells1, Hcells2. cbn [List.length split_cells app].
      rewrite !Z.max_r by lia. reflexivity.
Qed.

Lemma print_help_entries_some (self : Interface.t)
    (entries : list (list Key.t * string)) :
  8 <= width self ->
  forall (y : Z) (painter : HorizontalScroll.t),
    exists result, print_help_entries entries y self painter = Some result.
Proof.
  intros Hw. induction entries as [|[keys text] rest IH]; intros y painter.
  - eexists. reflexivity.
  - cbn [print_help_entries]. unfold print_keys.
    destruct (print_keys_text_ops
                (String.concat " " (Keys.names keys) ++ ":") text y self
                painter Hw) as [ops1 [-> _]].
    apply IH.
Qed.

Lemma print_help_lines_some (self : Interface.t) (lines : list string) :
  0 <= width self ->
  forall (y : Z) (painter : HorizontalScroll.t),
    exists result, print_help_lines lines y self painter = Some result.
Proof.
  intros Hw. induction lines as [|line rest IH]; intros y painter.
  - eexists. reflexivity.
  - cbn [print_help_lines].
    destruct (format_width_some line false (width self) Hw) as [l [-> _]].
    apply IH.
Qed.

Lemma print_help_narrow (banner : string)
    (self : Interface.t) (painter : HorizontalScroll.t) :
  scroller self = Some painter ->
  (print_help banner self = None <-> width self < 8).
Proof.
  intros Hsc. unfold print_help, painting. rewrite Hsc.
  destruct (Z_lt_ge_dec (width self) 8) as [Hn|Hw].
  - split; [intros _; exact Hn|]. intros _.
    destruct (print_help_lines _ 0 self painter) as [[y p]|]; [|reflexivity].
    rewrite print_keys_text_narrow by exact Hn. reflexivity.
  - split; [|lia]. intros H. exfalso. revert H.
    destruct (print_help_lines_some self
                [banner; "Released under the ISC license."; ""]%string
                ltac:(lia) 0 painter) as [[y p] ->].
    destruct (print_keys_text_ops "Arrows:" " scroll downloads list" y self p
                ltac:(lia)) as [ops [-> _]].
    match goal with
    | |- context [print_help_entries help_entries ?y0 self ?p0] =>
        destruct (print_help_entries_some self help_entries ltac:(lia) y0 p0)
          as [[y1 p1] ->]
    end.
    cbv zeta.
    destruct (format_width_some "Press any key to return." false (width self)
                ltac:(lia)) as [l [-> _]].
    discriminate.
Qed.

Lemma in_panel_spec (top bottom last y x : Z) :
  in_panel top bottom last y x = true
  <-> top <= y < bottom /\ 0 <= x <= last.
Proof.
  unfold in_panel. rewrite !andb_true_iff, !Z.leb_le, Z.ltb_lt. tauto.
Qed.

Lemma covers_spec (y x line first len : Z) :
  covers y x (line, first, len) = true
  <-> line = y /\ first <= x < first + len.
Proof.
  unfold covers. rewrite !andb_true_iff, Z.eqb_eq, Z.leb_le, Z.ltb_lt. tauto.
Qed.

Ltac panel_cases :=
  repeat match goal with
    | |- context [in_panel ?a ?b ?l ?y ?x] =>
        let E := fresh "E" in
        destruct (in_panel a b l y x) eqn:E;
        [apply in_panel_spec in E
        |apply not_true_iff_false in E; rewrite in_panel_spec in E]
    | |- context [covers ?y ?x (?a, ?b, ?c)] =>
        let E := fresh "E" in
        destruct (covers y x (a, b, c)) eqn:E;
        [apply covers_spec in E
        |apply not_true_iff_false in E; rewrite covers_spec in E]
    end;
  cbn [List.length filter]; try reflexivity; try lia.

Lemma full_cells_once (width y x : Z) (n : nat) :
  forall top,
    List.length (filter (covers y x) (full_cells width top n))
    = if in_panel top (top + Z.of_nat n) (width - 1) y x
      then 1%nat else 0%nat.
Proof.
  induction n as [|n IH]; intros top.
  - cbn [full_cells filter List.length]. panel_cases.
  - cbn [full_cells filter]. rewrite Nat2Z.inj_succ.
    destruct (covers y x (top, 0, width)) eqn:E1;
      [apply covers_spec in E1
      |apply not_true_iff_false in E1; rewrite covers_spec in E1];
      cbn [List.length]; rewrite (IH (top + 1)); panel_cases.
Qed.

Lemma split_cells_once (first second y x : Z) (n : nat) :
  0 <= first -> 0 <= second ->
  forall top,
    List.length (filter (covers y x) (split_cells first second top n))
    = if in_panel top (top + Z.of_nat n) (first + second - 1) y x
      then 1%nat else 0%nat.
Proof.
  intros Hf Hs. induction n as [|n IH]; intros top.
  - cbn [split_cells filter List.length]. panel_cases.
  - cbn [split_cells filter]. rewrite Nat2Z.inj_succ.
    destruct (covers y x (top, 0, first)) eqn:E1;
      [apply covers_spec in E1
      |apply not_true_iff_false in E1; rewrite covers_spec in E1];
      (destruct (covers y x (top, first, second)) eqn:E2;
       [apply covers_spec in E2
       |apply not_true_iff_false in E2; rewrite covers_spec in E2]);
      cbn [List.length]; rewrite (IH (top + 1)); panel_cases.
Qed.

Lemma help_entries_fit (width : Z) :
  32 <= width -> Forall (help_entry_fits width) help_entries.
Proof.
  intros Hw. unfold help_entries.
  repeat constructor; cbn [fst snd];
    match goal with
    | |- Py.str_len ?s <= _ =>
        let n := eval vm_compute in (Py.str_len s) in
        change (Py.str_len s) with n; lia
    end.
Qed.

(** X27. On a screen at least 32 columns wide that has room for the banner,
    [print_help] writes every cell of the screen exactly once, the
    eighteen lines of the help text also where the screen is shorter,
    and no other cell: nothing of the frame before is left. *)
Theorem help_screen_tiles (banner : string) (self : Interface.t)
    (painter : HorizontalScroll.t) :
  scroller self = Some painter ->
  32 <= width self ->
  Py.str_len banner <= width self ->
  exists ops,
    print_help banner self
    = Some (set_scroller
              (Some (HorizontalScroll.mk
                       (HorizontalScroll.screen painter ++ ops)
                       (HorizontalScroll.scroll painter)))
              self)
    /\ forall y x,
         times_written ops y x
         = if in_panel 0 (Z.max (height self) 18) (width self - 1) y x
           then 1%nat else 0%nat.
Proof.
  intros Hsc Hw Hbanner. unfold print_help, painting. rewrite Hsc.
  destruct (print_help_lines_ops self
              [banner; "Released under the ISC license."; ""]%string
              ltac:(lia)
              ltac:(repeat constructor; try exact Hbanner;
                    match goal with
                    | |- Py.str_len ?s <= _ =>
                        let n := eval vm_compute in (Py.str_len s) in
                        change (Py.str_len s) with n; lia
                    end)
              0 painter) as [ops1 [-> Hcells1]].
  change (0 + Py.len [banner; "Released under the ISC license."; ""]%string)
    with 3.
  match goal with
  | |- context [print_keys_text ?k ?t 3 self ?p] =>
      destruct (print_keys_text_ops k t 3 self p ltac:(lia))
        as [ops2 [-> [Hcells2 _]]]
  end.
  match goal with
  | |- context [print_help_entries help_entries ?y0 self ?p0] =>
      destruct (print_help_entries_ops self help_entries ltac:(lia)
                  (help_entries_fit _ Hw) y0 p0) as [ops3 [-> Hcells3]]
  end.
  change (3 + 1 + Py.len help_entries) with 16. cbv zeta.
  destruct (format_width_some "Press any key to return." false (width self)
              ltac:(lia)) as [l [-> Hl]].
  rewrite blank_lines_ops. unfold screen_print_at.
  cbn [HorizontalScroll.screen HorizontalScroll.scroll].
  rewrite <- !app_assoc. cbn [app].
  eexists. split; [reflexivity|].
  intros y x. unfold times_written.
  rewrite !map_app, Hcells1, Hcells2, Hcells3.
  cbn [map]. unfold op_cells at 1 2. cbn [op_y op_x op_text].
  rewrite map_map. unfold op_cells. cbn [op_y op_x op_text].
  rewrite Hl, spaces_len.
  change (Py.str_len "Arrows:") with 7.
  change (Py.str_len " scroll downloads list") with 22.
  change (Py.str_len "Press any key to return.") with 24.
  rewrite !Z.max_r by lia.
  change (List.length [banner; "Released under the ISC license."; ""]%string)
    with 3%nat.
  change (List.length help_entries) with 12%nat.
  assert (Hblank :
            map (fun k : nat => (16 + 2 + 0 + Z.of_nat k, 0, width self))
              (seq 0 (Z.to_nat (height self - (16 + 2))))
            = full_cells (width self) 18 (Z.to_nat (height self - 18))).
  { change (16 + 2) with 18. generalize (Z.to_nat (height self - 18)).
    intros n.
    assert (Hgen : forall k,
              map (fun j : nat => (18 + 0 + Z.of_nat j, 0, width self))
                (seq k n)
              = full_cells (width self) (18 + Z.of_nat k) n).
    { induction n as [|n IH]; intros k; [reflexivity|].
      cbn [seq map full_cells]. rewrite IH.
      replace (18 + 0 + Z.of_nat k) with (18 + Z.of_nat k) by lia.
      replace (18 + Z.of_nat (S k)) with (18 + Z.of_nat k + 1) by lia.
      reflexivity. }
    rewrite Hgen. reflexivity. }
  rewrite Hblank.
  change [(3, 0, 8); (3, 8, width self - 8)]
    with (split_cells 8 (width self - 8) 3 1).
  change ((16, 0, width self) :: (16 + 1, 0, width self)
          :: full_cells (width self) 18 (Z.to_nat (height self - 18)))
    with (full_cells (width self) 16 2
          ++ full_cells (width self) 18 (Z.to_nat (height self - 18))).
  rewrite !filter_app, !length_app, !full_cells_once,
    !split_cells_once by lia.
  replace (8 + (width self - 8) - 1) with (width self - 1) by lia.
  panel_cases.
Qed.


Lemma side_column_then_table (header : string) (labels : list string)
    (padding : Z) (self : Interface.t) (painter : HorizontalScroll.t) :
  scroller self = Some painter ->
  rows_in_sync self ->
  exists self',
    print_all [painting (print_side_column header labels padding); print_table]
      self
    = Some self'.
Proof.
  intros Hsc Hsync. cbn [print_all]. unfold painting at 1. rewrite Hsc.
  unfold print_side_column at 1. cbv zeta.
  match goal with
  | |- context [set_scroller (Some ?p) self] =>
      destruct (print_table_total (set_scroller (Some p) self) p eq_refl Hsync)
        as [ops [p' [-> _]]]
  end.
  eexists. reflexivity.
Qed.

(** X28. The paint step of a frame raises in one case only: the help screen
    on a screen less than eight columns wide.  In every other mode, on
    a state whose rows are those of the task list, as [run] keeps them,
    every print function returns. *)
Theorem paint_fails_only_on_narrow_help (banner : string)
    (self : Interface.t) (painter : HorizontalScroll.t) :
  scroller self = Some painter ->
  rows_in_sync self ->
  (paint banner self = None <-> state self = HELP /\ width self < 8).
Proof.
  intros Hsc Hsync. unfold paint.
  destruct (state self) eqn:Hst; cbn [print_functions].
  - cbn [print_all].
    destruct (print_table_total self painter Hsc Hsync) as [ops [p' [-> _]]].
    split; [discriminate | intros [H _]; discriminate H].
  - cbn [print_all].
    pose proof (print_help_narrow banner self painter Hsc) as Hhelp.
    destruct (print_help banner self) as [self'|].
    + split; [discriminate|]. intros [_ Hw]. apply Hhelp in Hw. discriminate.
    + split; [|reflexivity]. intros _. split; [reflexivity|].
      apply Hhelp. reflexivity.
  - cbn [print_all]. split; [discriminate | intros [H _]; discriminate H].
  - destruct (side_column_then_table remove_ask_header
                (map fst remove_ask_rows) width_remove_ask self painter Hsc
                Hsync) as [self' Hrun].
    unfold print_remove_ask_column. rewrite Hrun.
    split; [discriminate | intros [H _]; discriminate H].
  - destruct (side_column_then_table select_sort_header select_sort_rows
                width_select_sort self painter Hsc Hsync) as [self' Hrun].
    unfold print_select_sort_column. rewrite Hrun.
    split; [discriminate | intros [H _]; discriminate H].
Qed.


(** ** The further properties on the sample states *)

Lemma run_keeps_invariants_witness :
  frame_ok (ui (ran (run [one_frame] fresh))).
Proof.
  apply (run_keeps_invariants [] one_frame fresh).
  - unfold start_ok, rows_in_sync. cbn.
    split; [lia|]. split; [lia|]. split; [discriminate | reflexivity].
  - vm_compute. reflexivity.
Defined.

Lemma sort_data_orders_witness :
  exists column_name column w',
    Py.getitem columns_order (sort (ui three_rows)) = Some column_name
    /\ columns column_name = Some column
    /\ sort_data three_rows = Returned tt w'
    /\ w' = with_ui three_rows (set_data (data (ui w')) (ui three_rows))
    /\ Permutation (data (ui w')) (data (ui three_rows))
    /\ StronglySorted
         (in_order (sort_lt column) (get_sort column)
            (reverse (ui three_rows)))
         (data (ui w')).
Proof.
  apply (proj1 (sort_data_orders three_rows)).
  vm_compute. split; [discriminate | reflexivity].
Defined.

Lemma update_rows_follows_witness :
  let w' := world_of (update_rows following_b) in
  update_rows following_b = Returned tt w'
  /\ 0 <= focused (ui w') < Py.len (data (ui following_b))
  /\ (exists task,
        Py.getitem (data (ui following_b)) (focused (ui w')) = Some task
        /\ Download.eqb task task_b = true)
  /\ (forall j task,
        0 <= j < focused (ui w') ->
        Py.getitem (data (ui following_b)) j = Some task ->
        Download.eqb task task_b = false).
Proof.
  destruct (update_rows_follows following_b) as [_ [_ [_ [_ H]]]].
  change (follow (ui following_b)) with (Some task_b) in H.
  cbv iota beta in H. destruct H as [H|[H _]].
  - exact H.
  - vm_compute in H. discriminate H.
Defined.

Lemma remove_confirm_enter_witness :
  let w := confirming_removal in
  let w' := world_of (process_event (KeyboardEvent 10) w) in
  let back_to_main self :=
    set_frame 0
      (set_x_offset 0
         (set_state MAIN
            (set_last_remove_choice (Some (side_focused (ui w))) self))) in
  let command := remove_command (side_focused (ui w)) task_a in
  sent w' = sent w ++ [command]
  /\ logged w' = logged w
  /\ ui w'
     = if API.fails (api (ui w)) (sent w) command then ui w
       else back_to_main (set_follow None (ui w)).
Proof.
  apply (proj1 (remove_confirm_enter confirming_removal 10 eq_refl eq_refl)).
  vm_compute. split; [discriminate | reflexivity].
Defined.

Lemma priority_keys_move_and_follow_witness :
  let w' := world_of (process_event (KeyboardEvent (Py.ord "u")) three_rows) in
  logged w' = logged three_rows
  /\ sent w' = sent three_rows ++ [priority_command (Py.ord "u") task_a]
  /\ ui w'
     = if API.fails (api (ui three_rows)) (sent three_rows)
            (priority_command (Py.ord "u") task_a)
       then ui three_rows
       else set_follow (Some task_a) (ui three_rows).
Proof.
  apply (priority_keys_move_and_follow three_rows (Py.ord "u") task_a);
    reflexivity.
Defined.

Lemma header_click_picks_column_witness :
  exists i,
    columns_containing (bounds (ui three_rows)) 0 20 = [i]
    /\ 0 <= i < Py.len columns_order
    /\ process_event (MouseEvent 20 0 1) three_rows
       = Returned tt
           (with_ui three_rows
              (set_refresh true
                 (if i =? sort (ui three_rows)
                  then set_reverse (negb (reverse (ui three_rows)))
                         (ui three_rows)
                  else set_sort i (ui three_rows)))).
Proof.
  apply (proj1 (header_click_picks_column three_rows 20 1 eq_refl eq_refl
                  ltac:(vm_compute; discriminate))).
  vm_compute. split; discriminate.
Defined.

Lemma row_click_keeps_focus_visible_witness :
  process_event (MouseEvent 3 2 1) three_rows
  = Returned tt
      (with_ui three_rows
         (set_refresh true
            (set_focused
               (Z.min (2 - 1 + row_offset (ui three_rows))
                  (Py.len (rows (ui three_rows)) - 1))
               (ui three_rows))))
  /\ focus_visible
       (ui (world_of (process_event (MouseEvent 3 2 1) three_rows))).
Proof.
  apply (row_click_keeps_focus_visible three_rows 3 2 1).
  - reflexivity.
  - vm_compute. discriminate.
  - unfold focus_visible. vm_compute. repeat split; discriminate.
  - vm_compute. discriminate.
  - vm_compute. split; discriminate.
Defined.

Lemma other_keys_do_nothing_witness :
  process_event (KeyboardEvent (Py.ord "x")) three_rows
  = Returned tt three_rows.
Proof.
  apply (other_keys_do_nothing three_rows (Py.ord "x")); reflexivity.
Defined.

Lemma select_sort_cancel_restores_witness :
  exists s,
    drain
      (KeyboardEvent Screen.KEY_F6
       :: [KeyboardEvent Screen.KEY_DOWN; KeyboardEvent Screen.KEY_DOWN;
           KeyboardEvent Screen.KEY_UP]
          ++ [KeyboardEvent Screen.KEY_ESCAPE])
      three_rows
    = Drained
        (with_ui three_rows
           (set_refresh true
              (set_x_offset 0 (set_side_focused s (ui three_rows))))).
Proof.
  apply (select_sort_cancel_restores three_rows Screen.KEY_F6
           Screen.KEY_ESCAPE).
  - reflexivity.
  - reflexivity.
  - reflexivity.
  - repeat constructor.
Defined.



Lemma scrolled_line_is_suffix_witness :
  let calls :=
    [ HorizontalScroll.Build_Call "GID " 0 0 (Screen.Triple (0, 0, 2));
      HorizontalScroll.Build_Call "STATUS " 4 0 (Screen.Triple (0, 0, 2));
      HorizontalScroll.Build_Call "NAME" 11 0 (Screen.PerChar []) ] in
  let final :=
    after_prints (HorizontalScroll.set_scroll (HorizontalScroll.init []) 6)
      calls in
  screen_text (HorizontalScroll.screen final)
  = (screen_text (HorizontalScroll.screen (HorizontalScroll.init []))
     ++ Py.str_from (line_of calls) 6)%string
  /\ HorizontalScroll.scroll final
     = Z.max 0 (6 - Py.str_len (line_of calls)).
Proof.
  intros calls.
  apply (scrolled_line_is_suffix (HorizontalScroll.init []) 6 calls). lia.
Defined.

Lemma per_character_palette_stays_aligned_witness :
  let self := HorizontalScroll.set_scroll (HorizontalScroll.init []) 2 in
  let colours := [(2, 4, 0); (2, 4, 0); (7, 4, 0); (7, 2, 0)] in
  let r := HorizontalScroll.print_at self "NAME" 0 1 (Screen.PerChar colours) in
  (fst r = 0 /\ HorizontalScroll.screen (snd r) = HorizontalScroll.screen self)
  \/ exists painted colour_map,
       HorizontalScroll.screen (snd r)
       = HorizontalScroll.screen self ++ [Screen.Paint painted 0 1 colour_map]
       /\ Py.len colour_map = Py.str_len painted
       /\ fst r = Py.str_len painted.
Proof.
  intros self colours.
  apply (per_character_palette_stays_aligned self "NAME" 0 1 colours).
  reflexivity.
Defined.

Lemma headers_line_up_with_bounds_witness :
  exists ops fill,
    print_headers on_screen
    = Some (set_scroller
              (Some (HorizontalScroll.mk
                       (HorizontalScroll.screen (HorizontalScroll.init [])
                        ++ ops ++ [fill]) 0))
              on_screen)
    /\ map op_x ops
       = map (fun bound => x_offset on_screen + fst bound)
           (bounds_for (width on_screen))
    /\ map (fun op => Py.str_len (op_text op)) (firstn 7 ops)
       = map (fun bound => snd bound - fst bound + 1)
           (firstn 7 (bounds_for (width on_screen)))
    /\ map op_attr ops
       = map (fun c => Some (if c =? sort on_screen
                             then palettes "focused_header"
                             else palettes "header"))
           [0; 1; 2; 3; 4; 5; 6; 7]
    /\ Forall (fun op => op_y op = y_offset on_screen) (ops ++ [fill])
    /\ op_x fill = x_offset on_screen + 89
    /\ Py.str_len (op_text fill)
       = Z.max 0 (width on_screen - x_offset on_screen - 89).
Proof.
  apply (headers_line_up_with_bounds on_screen (HorizontalScroll.init []));
    vm_compute; reflexivity.
Defined.

Lemma select_sort_panel_tiles_witness :
  exists ops,
    print_select_sort_column on_screen
    = Some (set_scroller
              (Some (HorizontalScroll.mk
                       (HorizontalScroll.screen (HorizontalScroll.init [])
                        ++ ops)
                       (HorizontalScroll.scroll (HorizontalScroll.init []))))
              on_screen)
    /\ forall y x,
         times_written ops y x
         = if in_panel (y_offset on_screen)
                (Z.max (height on_screen) (y_offset on_screen + 9))
                width_select_sort y x
           then 1%nat else 0%nat.
Proof.
  apply (select_sort_panel_tiles on_screen (HorizontalScroll.init [])).
  vm_compute. reflexivity.
Defined.

Lemma remove_ask_panel_tiles_witness :
  exists ops,
    print_remove_ask_column on_screen
    = Some (set_scroller
              (Some (HorizontalScroll.mk
                       (HorizontalScroll.screen (HorizontalScroll.init [])
                        ++ ops)
                       (HorizontalScroll.scroll (HorizontalScroll.init []))))
              on_screen)
    /\ forall y x,
         times_written ops y x
         = if in_panel (y_offset on_screen)
                (Z.max (height on_screen) (y_offset on_screen + 5))
                width_remove_ask y x
           then 1%nat else 0%nat.
Proof.
  apply (remove_ask_panel_tiles on_screen (HorizontalScroll.init [])).
  vm_compute. reflexivity.
Defined.

(** ** The properties of the keys and of the paint routines on the sample states *)

Lemma horizontal_scroll_keys_witness :
  exists asked,
    drain (repeat (KeyboardEvent Screen.KEY_RIGHT) 3
           ++ repeat (KeyboardEvent Screen.KEY_LEFT) 3) three_rows
    = Drained
        (with_ui three_rows
           (scrolled_to (ui three_rows)
              (Z.max 0 (x_scroll (ui three_rows) + 5 * Z.of_nat 3
                        - 5 * Z.of_nat 3))
              asked))
    /\ (3%nat = 3%nat ->
        x_scroll (scrolled_to (ui three_rows)
                    (Z.max 0 (x_scroll (ui three_rows) + 5 * Z.of_nat 3
                              - 5 * Z.of_nat 3)) asked)
        = x_scroll (ui three_rows)).
Proof.
  apply (horizontal_scroll_keys three_rows Screen.KEY_RIGHT Screen.KEY_LEFT
           3 3).
  - reflexivity.
  - vm_compute. discriminate.
  - reflexivity.
  - reflexivity.
Defined.

Lemma next_previous_sort_keys_witness :
  drain [KeyboardEvent (Py.ord "n"); KeyboardEvent (Py.ord "p")] three_rows
  = Drained (with_ui three_rows (set_refresh true (ui three_rows))).
Proof.
  apply (proj1 (next_previous_sort_keys three_rows (Py.ord "n") (Py.ord "p")
                  eq_refl eq_refl eq_refl)).
  vm_compute. split; [discriminate | reflexivity].
Defined.

Lemma help_screen_round_trip_witness :
  drain (KeyboardEvent (Py.ord "h") :: [MouseEvent 1 1 1]) three_rows
  = Drained
      (with_ui three_rows (set_refresh true (set_state HELP (ui three_rows))))
  /\ drain (KeyboardEvent (Py.ord "h")
            :: [MouseEvent 1 1 1] ++ [KeyboardEvent (Py.ord "z")])
       three_rows
     = Drained (with_ui three_rows (set_refresh true (ui three_rows))).
Proof.
  apply (help_screen_round_trip three_rows (Py.ord "h") (Py.ord "z")
           [MouseEvent 1 1 1]).
  - reflexivity.
  - reflexivity.
  - repeat constructor.
Defined.

Lemma follow_after_click_on_empty_list_witness :
  drain [MouseEvent 3 5 1; KeyboardEvent (Py.ord "F")] fresh
  = Drained
      (logger_exception IndexError
         (with_ui fresh
            (set_refresh true
               (set_focused (Z.min (5 - 1 + row_offset (ui fresh)) (-1))
                  (ui fresh))))).
Proof.
  apply (follow_after_click_on_empty_list fresh 3 5 1 (Py.ord "F")).
  - reflexivity.
  - reflexivity.
  - reflexivity.
  - vm_compute. discriminate.
  - discriminate.
  - reflexivity.
Defined.

Lemma select_sort_focus_leaks_into_remove_menu_witness :
  drain [KeyboardEvent Screen.KEY_F6; KeyboardEvent Screen.KEY_ESCAPE;
         KeyboardEvent Screen.KEY_F9; KeyboardEvent 10] sorted_by_up_speed
  = Drained
      (logger_exception IndexError
         (with_ui sorted_by_up_speed
            (set_refresh true
               (set_x_offset (width_remove_ask + 1)
                  (set_state REMOVE_ASK
                     (set_follow (Some task_a)
                        (set_side_focused (sort (ui sorted_by_up_speed))
                           (ui sorted_by_up_speed)))))))).
Proof.
  apply (select_sort_focus_leaks_into_remove_menu sorted_by_up_speed
           Screen.KEY_F6 Screen.KEY_ESCAPE Screen.KEY_F9 10 task_a).
  - reflexivity.
  - reflexivity.
  - reflexivity.
  - vm_compute. discriminate.
  - reflexivity.
  - reflexivity.
  - reflexivity.
  - reflexivity.
Defined.

Lemma remove_menu_remembers_choice_witness :
  let w1 := world_of (process_event (KeyboardEvent 10) confirming_removal) in
  exists w',
    drain [KeyboardEvent Screen.KEY_F6; KeyboardEvent Screen.KEY_ESCAPE;
           KeyboardEvent Screen.KEY_F9] w1
    = Drained w'
    /\ state (ui w') = REMOVE_ASK
    /\ side_focused (ui w') = side_focused (ui confirming_removal)
    /\ last_remove_choice (ui w')
       = Some (side_focused (ui confirming_removal))
    /\ follow (ui w') = Some task_a
    /\ sent w' = sent w1.
Proof.
  intros w1.
  apply (remove_menu_remembers_choice confirming_removal w1 10 Screen.KEY_F6
           Screen.KEY_ESCAPE Screen.KEY_F9 task_a).
  - reflexivity.
  - reflexivity.
  - vm_compute. reflexivity.
  - reflexivity.
  - reflexivity.
  - reflexivity.
  - reflexivity.
Defined.

Lemma print_rows_layout_witness :
  let self := three_rows_on_screen in
  let window :=
    list_slice (rows self) (row_offset self)
      (row_offset self + height self) in
  exists row_ops painter',
    print_rows self = Some (set_scroller (Some painter') self)
    /\ HorizontalScroll.screen painter'
       = HorizontalScroll.screen (HorizontalScroll.init []) ++ row_ops
         ++ map (fun k =>
                   Screen.PrintAt (spaces (width self)) (x_offset self)
                     (y_offset self + 1 + Py.len window + Z.of_nat k)
                     default_attr)
              (seq 0 (Z.to_nat (height self
                                - (y_offset self + 1 + Py.len window))))
    /\ map (fun op => (op_y op, op_x op)) row_ops
       = flat_map
           (fun k => cell_positions self (y_offset self + 1 + Z.of_nat k))
           (seq 0 (List.length window))
    /\ Forall (highlights_focus self) row_ops.
Proof.
  intros self window.
  apply (print_rows_layout self (HorizontalScroll.init [])).
  - vm_compute. reflexivity.
  - reflexivity.
  - repeat (constructor;
            [split; [reflexivity|];
             repeat (constructor; [vm_compute; discriminate|]); constructor|]).
    constructor.
Defined.

Lemma metadata_colours_fall_short_witness :
  let value := "[METADATA]ubuntu.iso  "%string in
  let text := (format_left value (Z.max 0 (width on_screen - 85)) ++ " ")%string in
  exists colour_map,
    Palette.name value = Colours colour_map
    /\ Py.len colour_map = Py.str_len (strip value) + 1
    /\ Py.str_len text = Z.max (Py.str_len value) (width on_screen - 85) + 1
    /\ Py.len colour_map <= Py.str_len text
    /\ (Py.str_len value < width on_screen - 85 ->
        Py.len colour_map < Py.str_len text).
Proof.
  intros value text.
  destruct (columns "name") as [column|] eqn:E; [|discriminate E].
  apply (metadata_colours_fall_short on_screen column 85 value text).
  - reflexivity.
  - exact E.
  - vm_compute in E. inversion E; subst column. reflexivity.
Defined.

Lemma help_screen_tiles_witness :
  exists ops,
    print_help "aria2p 0.2.2" on_screen
    = Some (set_scroller
              (Some (HorizontalScroll.mk
                       (HorizontalScroll.screen (HorizontalScroll.init [])
                        ++ ops)
                       (HorizontalScroll.scroll (HorizontalScroll.init []))))
              on_screen)
    /\ forall y x,
         times_written ops y x
         = if in_panel 0 (Z.max (height on_screen) 18) (width on_screen - 1)
                y x
           then 1%nat else 0%nat.
Proof.
  apply (help_screen_tiles "aria2p 0.2.2" on_screen (HorizontalScroll.init [])).
  - vm_compute. reflexivity.
  - vm_compute. discriminate.
  - vm_compute. discriminate.
Defined.

Lemma paint_fails_only_on_narrow_help_witness :
  paint "aria2p 0.2.2" three_rows_on_screen = None
  <-> state three_rows_on_screen = HELP /\ width three_rows_on_screen < 8.
Proof.
  apply (paint_fails_only_on_narrow_help "aria2p 0.2.2" three_rows_on_screen
           (HorizontalScroll.init [])).
  - vm_compute. reflexivity.
  - vm_compute. reflexivity.
Defined.

Lemma key_codes_name_one_action_witness :
  key_in (Py.ord "d") Keys.REMOVE_ASK = false.
Proof.
  apply (key_codes_name_one_action (Py.ord "d") 4 9 Keys.PRIORITY_DOWN
           Keys.REMOVE_ASK).
  - reflexivity.
  - reflexivity.
  - discriminate.
  - reflexivity.
Defined.
